(** * Edition production and persistence: a shallow embedding

    The development follows the TypeScript sources of the cloud producer:
    - [src/cloud/config.ts]   : [loadCloudConfig], [validateConfig], [getCloudConfig]
    - [src/cloud/storage.ts]  : [uploadImage], [checkBucketAccess]
    - [src/cloud/database.ts] : [removeUndefined], [writeEdition],
                                [getEditionsByDate], [checkDatabaseAccess]
    - [src/cloud/producer.ts] : [generateEditionId], [produceEdition], [healthCheck]

    Asynchronous functions are run to completion one after the other (the
    coordinator awaits every call), so they are embedded as functions of an
    explicit world state that either return a value or throw.  Console output
    is not part of the model. *)

From Stdlib Require Import ZArith Lia Ascii DecimalString.
From stdpp Require Import base option list strings gmap sorting.

(** ** JavaScript values *)

(** A number that is only stored and handed on (the sampling temperature of an
    essence): its IEEE-754 binary64 bit pattern. *)
Definition float64 := Z.

(** Plain data as the producer builds it and the document store keeps it.  An
    object is its list of own enumerable properties in [Object.entries] order;
    such a list names every key once (see [well_formed]).  The prototype of an
    object and what it inherits are not represented. *)
#[local] Set Warnings "-register-all".
Inductive JsValue : Type :=
  | JUndefined
  | JNull
  | JBool (b : bool)
  | JNumber (n : float64)
  | JString (s : string)
  | JArray (items : list JsValue)
  | JObject (props : list (string * JsValue)).

Definition is_undefined (v : JsValue) : bool :=
  match v with JUndefined => true | _ => false end.

(** [v === s] for a string literal [s]. *)
Definition is_string (s : string) (v : JsValue) : bool :=
  match v with JString s' => String.eqb s' s | _ => false end.

(** [obj[key]]: the value of an own property, [undefined] when there is
    none. *)
Fixpoint js_get (key : string) (props : list (string * JsValue)) : JsValue :=
  match props with
  | [] => JUndefined
  | (k, v) :: rest => if String.eqb k key then v else js_get key rest
  end.

Definition js_field (key : string) (v : JsValue) : JsValue :=
  match v with JObject props => js_get key props | _ => JUndefined end.

(** The key that assignment hands to the prototype setter. *)
Definition is_proto (key : string) : bool := String.eqb key "__proto__".

(** [obj[key] = value]: an own property is overwritten in place and a new one
    is added last.  The key [__proto__] is the exception: with no own property
    of that name the assignment goes to the setter inherited from
    [Object.prototype], which makes no own property. *)
Fixpoint js_set (key : string) (value : JsValue) (props : list (string * JsValue))
  : list (string * JsValue) :=
  match props with
  | [] => if is_proto key then [] else [(key, value)]
  | (k, v) :: rest =>
      if String.eqb k key then (k, value) :: rest else (k, v) :: js_set key value rest
  end.

Definition has_key (key : string) (props : list (string * JsValue)) : bool :=
  existsb (fun kv => String.eqb kv.1 key) props.

(** ** database.ts: removeUndefined *)

Fixpoint removeUndefined (obj : JsValue) : JsValue :=
  match obj with
  | JNull | JUndefined => obj
  | JArray items => JArray (map removeUndefined items)
  | JObject props =>
      JObject
        (fold_left
           (fun cleaned entry =>
              if is_undefined entry.2 then cleaned
              else js_set entry.1 (removeUndefined entry.2) cleaned)
           props [])
  | _ => obj
  end.

(** One turn of the [for ... of Object.entries(obj)] loop. *)
Definition strip_step (cleaned : list (string * JsValue)) (entry : string * JsValue)
  : list (string * JsValue) :=
  if is_undefined entry.2 then cleaned
  else js_set entry.1 (removeUndefined entry.2) cleaned.

(** *** Predicates on values *)

(** Some array element, some property value, or the value itself is
    [undefined]. *)
Fixpoint has_undefined (v : JsValue) : bool :=
  match v with
  | JUndefined => true
  | JArray items => existsb has_undefined items
  | JObject props => existsb (fun kv => has_undefined kv.2) props
  | _ => false
  end.

(** Some object, at any depth, has a property whose value is [undefined]. *)
Fixpoint undefined_props (v : JsValue) : bool :=
  match v with
  | JArray items => existsb undefined_props items
  | JObject props =>
      existsb (fun kv => is_undefined kv.2 || undefined_props kv.2) props
  | _ => false
  end.

(** Every object, at any depth, names each of its keys once, and none of them
    is [__proto__]. *)
Fixpoint well_formed (v : JsValue) : bool :=
  match v with
  | JArray items => forallb well_formed items
  | JObject props =>
      bool_decide (NoDup (map fst props))
      && forallb (fun kv => negb (is_proto kv.1)) props
      && forallb (fun kv => well_formed kv.2) props
  | _ => true
  end.

(** What the loop of [removeUndefined] leaves of an object that names each
    key once: the properties that are not [undefined] and not named
    [__proto__], in order, each stripped in turn. *)
Definition strip_entries (props : list (string * JsValue)) : list (string * JsValue) :=
  map (fun kv => (kv.1, removeUndefined kv.2))
      (List.filter (fun kv => negb (is_undefined kv.2) && negb (is_proto kv.1)) props).

(** *** The stripping as the specification words it

    The value with every property whose value is [undefined] taken out of
    every object, at any depth; arrays keep their elements, each treated in
    turn; anything else is left as it is. *)
Fixpoint without_absent_properties (v : JsValue) : JsValue :=
  match v with
  | JArray items => JArray (map without_absent_properties items)
  | JObject props =>
      JObject
        (omap (fun kv => if is_undefined kv.2 then None
                         else Some (kv.1, without_absent_properties kv.2))
              props)
  | _ => v
  end.

(** A step from a value into it: to a property or to an array element. *)
Inductive Step : Type :=
  | Key (key : string)
  | Index (i : nat).

Definition under (step : Step) (found : list (list Step * JsValue))
  : list (list Step * JsValue) :=
  map (fun leaf => (step :: leaf.1, leaf.2)) found.

(** What [f] finds in the elements of a list, in order; [f] is told the
    position of each element, counted from [i]. *)
Fixpoint found_from {A B : Type} (f : nat -> A -> list B) (i : nat) (l : list A) : list B :=
  match l with
  | [] => []
  | x :: rest => f i x ++ found_from f (S i) rest
  end.

(** The values of a structure that are neither [undefined] nor containers,
    each with the path that leads to it, in order. *)
Fixpoint leaves (v : JsValue) : list (list Step * JsValue) :=
  match v with
  | JUndefined => []
  | JArray items => found_from (fun i item => under (Index i) (leaves item)) 0 items
  | JObject props => flat_map (fun kv => under (Key kv.1) (leaves kv.2)) props
  | _ => [([], v)]
  end.

(** ** Errors and results *)

Inductive Error : Type :=
  | ConfigError (message : string)   (* [new Error(...)] of [validateConfig] *)
  | RangeError                       (* [toISOString] of an invalid date *)
  | StorageError                     (* the storage client rejects *)
  | FirestoreError.                  (* the document store client rejects *)

Inductive Result (A : Type) : Type :=
  | Ok (a : A)
  | Throw (e : Error).
Arguments Ok {A} a.
Arguments Throw {A} e.

(** ** Strings *)

(** [s.split(sep)] for a one-character separator. *)
Fixpoint split (sep : ascii) (s : string) : list string :=
  match s with
  | EmptyString => [EmptyString]
  | String c rest =>
      if Ascii.eqb c sep then EmptyString :: split sep rest
      else match split sep rest with
           | [] => [String c EmptyString]
           | piece :: pieces => String c piece :: pieces
           end
  end.

Fixpoint all_chars (p : ascii -> bool) (s : string) : bool :=
  match s with
  | EmptyString => true
  | String c rest => p c && all_chars p rest
  end.

(** An element bound by array destructuring, as a template literal prints
    it: a missing element is [undefined]. *)
Definition element (i : nat) (parts : list string) : string :=
  match parts !! i with Some s => s | None => "undefined" end.

(** Decimal digits of a natural number, as a template literal prints it. *)
Definition decimal (n : N) : string := NilZero.string_of_uint (N.to_uint n).

(** [String(n).padStart(width, "0")]. *)
Definition pad (width : nat) (n : N) : string :=
  let digits := decimal n in
  String.concat "" (replicate (width - String.length digits) "0") +:+ digits.

Definition is_digit (c : ascii) : bool :=
  (48 <=? nat_of_ascii c) && (nat_of_ascii c <=? 57).

Definition digit_value (c : ascii) : Z := (Z.of_nat (nat_of_ascii c) - 48)%Z.

(** The text [y-m-d] has the form YYYY-MM-DD: four, two and two digits. *)
Definition is_date (y m d : string) : bool :=
  all_chars is_digit y && all_chars is_digit m && all_chars is_digit d
  && (String.length y =? 4) && (String.length m =? 2) && (String.length d =? 2).

(** ** Numbers of the configuration *)

(** The number [parseInt] returns and the arithmetic on it: [NaN], a finite
    integer, or an infinity.  Zero has no sign here: no comparison, product or
    sum of the program tells [-0] from [0]. *)
Inductive JsInt : Type :=
  | NaN
  | Int (z : Z)
  | Infinity (negative : bool).

(** The double nearest to an integer, ties to the even significand: integers
    below 2^53 in size are doubles; beyond, the low bits are rounded away, and
    what rounds to 2^1024 or more is an infinity. *)
Definition to_double (z : Z) : JsInt :=
  (let a := Z.abs z in
   if a <? 2 ^ 53 then Int z
   else
     let e := Z.log2 a - 52 in
     let q := a / 2 ^ e in
     let r := a mod 2 ^ e in
     let half := 2 ^ (e - 1) in
     let q' := if (half <? r) || ((r =? half) && Z.odd q) then q + 1 else q in
     let v := q' * 2 ^ e in
     if 2 ^ 1024 <=? v then Infinity (z <? 0) else Int (Z.sgn z * v))%Z.

Definition js_lt (a : JsInt) (k : Z) : bool :=
  match a with
  | NaN => false
  | Int z => (z <? k)%Z
  | Infinity negative => negative
  end.

Definition js_gt (a : JsInt) (k : Z) : bool :=
  match a with
  | NaN => false
  | Int z => (k <? z)%Z
  | Infinity negative => negb negative
  end.

(** Products and sums of finite numbers are kept exact: the program only asks
    of them whether they are a valid time value, and every valid time value
    and every product that leads to one is a double. *)
Definition js_mul (a : JsInt) (k : Z) : JsInt :=
  match a with
  | NaN => NaN
  | Int z => Int (z * k)%Z
  | Infinity negative =>
      if (k =? 0)%Z then NaN else Infinity (xorb negative (k <? 0)%Z)
  end.

Definition js_add (t : Z) (a : JsInt) : JsInt :=
  match a with
  | NaN => NaN
  | Int z => Int (t + z)%Z
  | Infinity negative => Infinity negative
  end.

(** Length in bytes of the white space character (UTF-8) at the head of a
    string, 0 when it starts with none: the characters [parseInt] skips. *)
Definition white_space (s : string) : nat :=
  match s with
  | String a rest =>
      let x := nat_of_ascii a in
      if (x =? 32) || ((9 <=? x) && (x <=? 13)) then 1
      else match rest with
           | String b rest' =>
               let y := nat_of_ascii b in
               if (x =? 194) && (y =? 160) then 2
               else match rest' with
                    | String c _ =>
                        let z := nat_of_ascii c in
                        if (x =? 225) && (y =? 154) && (z =? 128) then 3
                        else if (x =? 226) && (y =? 128)
                                && ((128 <=? z) && (z <=? 138) || (z =? 168) || (z =? 169)
                                    || (z =? 175)) then 3
                        else if (x =? 226) && (y =? 129) && (z =? 159) then 3
                        else if (x =? 227) && (y =? 128) && (z =? 128) then 3
                        else if (x =? 239) && (y =? 187) && (z =? 191) then 3
                        else 0
                    | EmptyString => 0
                    end
           | EmptyString => 0
           end
  | EmptyString => 0
  end.

Fixpoint drop_bytes (n : nat) (s : string) : string :=
  match n, s with
  | S n', String _ rest => drop_bytes n' rest
  | _, _ => s
  end.

Fixpoint trim_start (fuel : nat) (s : string) : string :=
  match fuel with
  | O => s
  | S fuel' =>
      match white_space s with
      | O => s
      | S n => trim_start fuel' (drop_bytes (S n) s)
      end
  end.

(** The longest prefix of decimal digits, read as an integer; [None] when the
    string starts with no digit. *)
Fixpoint parse_digits (s : string) (acc : option Z) : option Z :=
  match s with
  | String c rest =>
      if is_digit c then parse_digits rest (Some (10 * default 0 acc + digit_value c)%Z)
      else acc
  | EmptyString => acc
  end.

(** [parseInt(s, 10)]: white space, a sign, the digits; the number is the
    double nearest to the integer the digits spell. *)
Definition parseInt (s : string) : JsInt :=
  let s := trim_start (String.length s) s in
  let '(sign, s) :=
    match s with
    | String "-" rest => ((-1)%Z, rest)
    | String "+" rest => (1%Z, rest)
    | _ => (1%Z, s)
    end in
  match parse_digits s None with
  | None => NaN
  | Some n => to_double (sign * n)
  end.

(** ** config.ts *)

Record CloudConfig : Type := {
  projectId : string;
  storageBucket : string;
  storageRegion : string;
  firestoreDatabase : string;
  firestoreCollection : string;
  assetRetentionDays : JsInt;
  dryRun : bool;
  mode : string;
  credentialsPath : option string
}.

(** [process.env.NAME || fallback]: an unset or empty variable gives the
    fallback. *)
Definition env_or (env : gmap string string) (name fallback : string) : string :=
  match env !! name with
  | Some value => if String.eqb value "" then fallback else value
  | None => fallback
  end.

Definition loadCloudConfig (env : gmap string string) : CloudConfig :=
  {| projectId := env_or env "GOOGLE_CLOUD_PROJECT" "today-in-emojis";
     storageBucket := env_or env "CLOUD_STORAGE_BUCKET" "today-in-emojis-assets";
     storageRegion := env_or env "CLOUD_STORAGE_REGION" "us-central1";
     firestoreDatabase := env_or env "FIRESTORE_DATABASE" "(default)";
     firestoreCollection := env_or env "FIRESTORE_COLLECTION" "editions";
     assetRetentionDays := parseInt (env_or env "ASSET_RETENTION_DAYS" "30");
     dryRun := bool_decide (env !! "CLOUD_DRY_RUN" = Some "true");
     mode := env_or env "CLOUD_MODE" "parallel";
     credentialsPath := env !! "GOOGLE_APPLICATION_CREDENTIALS" |}.

(** The warning about missing credentials only writes to the console. *)
Definition validateConfig (config : CloudConfig) : Result unit :=
  if String.eqb (projectId config) "" then
    Throw (ConfigError "GOOGLE_CLOUD_PROJECT is required")
  else if String.eqb (storageBucket config) "" then
    Throw (ConfigError "CLOUD_STORAGE_BUCKET is required")
  else if js_lt (assetRetentionDays config) 1 || js_gt (assetRetentionDays config) 365 then
    Throw (ConfigError "ASSET_RETENTION_DAYS must be between 1 and 365")
  else Ok tt.

(** What the specification asks of a configuration: both required identifiers
    are there and the retention is a number from 1 to 365. *)
Definition config_acceptable (config : CloudConfig) : Prop :=
  projectId config <> "" /\ storageBucket config <> "" /\
  exists days, assetRetentionDays config = Int days /\ (1 <= days <= 365)%Z.

(** ** Dates *)

Definition msPerDay : Z := 86400000.

(** Largest time value of a valid [Date] (ECMAScript, TimeClip). *)
Definition maxTime : Z := 8640000000000000.

(** [new Date(value)]: the time value of the date, [NaN] when invalid. *)
Definition new_Date (value : JsInt) : JsInt :=
  match value with
  | NaN => NaN
  | Int t => if (Z.abs t <=? maxTime)%Z then Int t else NaN
  | Infinity _ => NaN
  end.

(** Year, month and day of a day number counted from 1970-01-01, in the
    proleptic Gregorian calendar. *)
Definition civil_from_days (day : Z) : Z * Z * Z :=
  (let z := day + 719468 in
   let era := z / 146097 in
   let doe := z - era * 146097 in
   let yoe := (doe - doe / 1460 + doe / 36524 - doe / 146096) / 365 in
   let doy := doe - (365 * yoe + yoe / 4 - yoe / 100) in
   let mp := (5 * doy + 2) / 153 in
   let d := doy - (153 * mp + 2) / 5 + 1 in
   let m := if mp <? 10 then mp + 3 else mp - 9 in
   let y := yoe + era * 400 + (if m <=? 2 then 1 else 0) in
   (y, m, d))%Z.

(** The year of an ISO string: four digits from 0 to 9999, else a sign and
    six digits. *)
Definition iso_year (y : Z) : string :=
  if ((0 <=? y) && (y <=? 9999))%Z then pad 4 (Z.to_N y)
  else if (y <? 0)%Z then "-" +:+ pad 6 (Z.to_N (- y))
  else "+" +:+ pad 6 (Z.to_N y).

(** The ISO string of a valid time value [t], in milliseconds from the epoch:
    YYYY-MM-DDTHH:mm:ss.sssZ. *)
Definition iso_string (t : Z) : string :=
  (let day := t / msPerDay in
   let ms := t mod msPerDay in
   let '(y, m, d) := civil_from_days day in
   iso_year y +:+ "-" +:+ pad 2 (Z.to_N m) +:+ "-" +:+ pad 2 (Z.to_N d) +:+ "T"
   +:+ pad 2 (Z.to_N (ms / 3600000)) +:+ ":"
   +:+ pad 2 (Z.to_N (ms / 60000 mod 60)) +:+ ":"
   +:+ pad 2 (Z.to_N (ms / 1000 mod 60)) +:+ "."
   +:+ pad 3 (Z.to_N (ms mod 1000)) +:+ "Z")%Z.

(** [date.toISOString()]: throws on an invalid date. *)
Definition toISOString (date : JsInt) : Result string :=
  match date with
  | NaN => Throw RangeError
  | Int t => Ok (iso_string t)
  | Infinity _ => Throw RangeError
  end.

(** ** The world outside the coordinator *)

Inductive PostType : Type := Normal | Essence.

Definition post_type_name (t : PostType) : string :=
  match t with Normal => "normal" | Essence => "essence" end.

(** An object of the bucket, with the options [file.save] was given. *)
Record StoredObject : Type := {
  content : list Byte.byte;
  contentType : string;
  cacheControl : string;
  public : bool
}.

(** Requests sent to the two external stores. *)
Inductive NetCall : Type :=
  | StorageSave (bucket path : string)
  | StorageExists (bucket : string)
  | FirestoreSet (collection id : string)
  | FirestoreQueryByDate (collection date : string)
  | FirestoreLimitGet (collection : string).

Record World : Type := {
  env : gmap string string;              (* process.env *)
  configInstance : option CloudConfig;   (* the module-level singleton of config.ts *)
  clock : nat -> Z;                      (* the n-th reading of the system clock, in ms *)
  clock_reads : nat;                     (* readings taken so far *)
  storage_up : bool;                     (* the storage service answers *)
  bucket_exists : bool;
  objects : gmap string StoredObject;    (* the bucket, by path *)
  firestore_up : bool;                   (* the document store answers *)
  docs : gmap string JsValue;            (* the collection, by document id *)
  net : list NetCall                     (* requests sent so far, latest first *)
}.

Definition set_configInstance (c : option CloudConfig) (w : World) : World :=
  {| env := env w; configInstance := c; clock := clock w; clock_reads := clock_reads w;
     storage_up := storage_up w; bucket_exists := bucket_exists w; objects := objects w;
     firestore_up := firestore_up w; docs := docs w; net := net w |}.

Definition tick (w : World) : World :=
  {| env := env w; configInstance := configInstance w; clock := clock w;
     clock_reads := S (clock_reads w);
     storage_up := storage_up w; bucket_exists := bucket_exists w; objects := objects w;
     firestore_up := firestore_up w; docs := docs w; net := net w |}.

Definition set_objects (o : gmap string StoredObject) (w : World) : World :=
  {| env := env w; configInstance := configInstance w; clock := clock w;
     clock_reads := clock_reads w;
     storage_up := storage_up w; bucket_exists := bucket_exists w; objects := o;
     firestore_up := firestore_up w; docs := docs w; net := net w |}.

Definition set_docs (d : gmap string JsValue) (w : World) : World :=
  {| env := env w; configInstance := configInstance w; clock := clock w;
     clock_reads := clock_reads w;
     storage_up := storage_up w; bucket_exists := bucket_exists w; objects := objects w;
     firestore_up := firestore_up w; docs := d; net := net w |}.

Definition sent (c : NetCall) (w : World) : World :=
  {| env := env w; configInstance := configInstance w; clock := clock w;
     clock_reads := clock_reads w;
     storage_up := storage_up w; bucket_exists := bucket_exists w; objects := objects w;
     firestore_up := firestore_up w; docs := docs w; net := c :: net w |}.

(** ** Computations: a state and exception monad over the world *)

Definition M (A : Type) : Type := World -> Result A * World.

Definition ret {A : Type} (a : A) : M A := fun w => (Ok a, w).

Definition throw {A : Type} (e : Error) : M A := fun w => (Throw e, w).

Definition bind {A B : Type} (m : M A) (k : A -> M B) : M B :=
  fun w =>
    match m w with
    | (Ok a, w') => k a w'
    | (Throw e, w') => (Throw e, w')
    end.

(** [try { m } catch (error) { handler }] *)
Definition try_catch {A : Type} (m : M A) (handler : Error -> M A) : M A :=
  fun w =>
    match m w with
    | (Ok a, w') => (Ok a, w')
    | (Throw e, w') => handler e w'
    end.

Definition lift {A : Type} (r : Result A) : M A := fun w => (r, w).

Notation "'let*' x := m 'in' k" := (bind m (fun x => k))
  (at level 10, x name, m at level 100, k at level 200).

Notation "'run' m 'in' k" := (bind m (fun _ => k))
  (at level 10, m at level 100, k at level 200).

(** [Date.now()], and the time value of [new Date()]: one reading of the
    clock. *)
Definition Date_now : M Z :=
  fun w => (Ok (clock w (clock_reads w)), tick w).

(** config.ts: [getCloudConfig].  The instance is stored before it is
    validated. *)
Definition getCloudConfig : M CloudConfig :=
  fun w =>
    match configInstance w with
    | Some config => (Ok config, w)
    | None =>
        let config := loadCloudConfig (env w) in
        let w' := set_configInstance (Some config) w in
        match validateConfig config with
        | Ok _ => (Ok config, w')
        | Throw e => (Throw e, w')
        end
    end.

(** ** storage.ts *)

Module UploadResult.
Record t : Type := {
  url : string;        (* public URL *)
  path : string;       (* storage path *)
  expiresAt : string   (* ISO 8601 *)
}.
End UploadResult.

(** [`${index}`] for an optional number. *)
Definition index_text (index : option nat) : string :=
  match index with
  | Some i => decimal (N.of_nat i)
  | None => "undefined"
  end.

(** The storage path of [uploadImage]: YYYY/MM/DD/{type}-{index}.png *)
Definition storage_path (date : string) (type : PostType) (index : option nat) : string :=
  let parts := split "-" date in
  let year := element 0 parts in
  let month := element 1 parts in
  let day := element 2 parts in
  let filename :=
    match type with
    | Essence => "essence.png"
    | Normal => "normal-" +:+ index_text index +:+ ".png"
    end in
  year +:+ "/" +:+ month +:+ "/" +:+ day +:+ "/" +:+ filename.

(** [config.assetRetentionDays * 24 * 60 * 60 * 1000] *)
Definition retention_ms (config : CloudConfig) : JsInt :=
  js_mul (js_mul (js_mul (js_mul (assetRetentionDays config) 24) 60) 60) 1000.

(** [new Date(Date.now() + retention).toISOString()] *)
Definition expiry (config : CloudConfig) : M string :=
  let* now := Date_now in
  lift (toISOString (new_Date (js_add now (retention_ms config)))).

(** [file.save(buffer, options)]: the request is sent; it is rejected when the
    service does not answer or the bucket does not exist, else the object is
    written over whatever the path held. *)
Definition file_save (bucket path : string) (object : StoredObject) : M unit :=
  fun w =>
    let w := sent (StorageSave bucket path) w in
    if storage_up w && bucket_exists w
    then (Ok tt, set_objects (<[path := object]> (objects w)) w)
    else (Throw StorageError, w).

(** [bucket.exists()] *)
Definition bucket_exists_call (bucket : string) : M bool :=
  fun w =>
    let w := sent (StorageExists bucket) w in
    if storage_up w then (Ok (bucket_exists w), w) else (Throw StorageError, w).

Definition public_url (config : CloudConfig) (path : string) : string :=
  "https://storage.googleapis.com/" +:+ storageBucket config +:+ "/" +:+ path.

Definition uploadImage (imageBuffer : list Byte.byte) (date : string) (type : PostType)
    (index : option nat) : M UploadResult.t :=
  let* config := getCloudConfig in
  let path := storage_path date type index in
  if dryRun config then
    let mockUrl := public_url config path in
    let* expiresAt := expiry config in
    ret {| UploadResult.url := mockUrl; UploadResult.path := path;
           UploadResult.expiresAt := expiresAt |}
  else
    run file_save (storageBucket config) path
          {| content := imageBuffer; contentType := "image/png";
             cacheControl := "public, max-age=31536000"; public := true |} in
    let url := public_url config path in
    let* expiresAt := expiry config in
    ret {| UploadResult.url := url; UploadResult.path := path;
           UploadResult.expiresAt := expiresAt |}.

Definition checkBucketAccess : M bool :=
  let* config := getCloudConfig in
  if dryRun config then ret true
  else
    try_catch
      (let* exists_ := bucket_exists_call (storageBucket config) in
       if negb exists_ then ret false else ret true)
      (fun _ => ret false).

(** ** schema/edition.ts *)

Module EmojiItem.
Record t : Type := {
  char : string;
  label : string;
  title : string;
  summary : string;
  url : string
}.
End EmojiItem.

Module EssenceData.
Record t : Type := {
  emotion_label : string;
  emoji : string;
  rationale : string;
  palette : list string;
  temperature : float64;
  fallback : bool
}.
End EssenceData.

Module AssetMetadata.
Record t : Type := {
  image_url : string;
  image_path : string;
  expires_at : string
}.
End AssetMetadata.

Module SourceMetadata.
Record t : Type := {
  rss_sources : list string;
  model : string;
  provider : string;
  created_at : string
}.
End SourceMetadata.

(** An optional field is [None] when the property holds [undefined]. *)
Module CloudEdition.
Record t : Type := {
  edition_id : string;
  date : string;
  timestamp : string;
  post_type : PostType;
  emojis : option (list EmojiItem.t);
  essence : option EssenceData.t;
  assets : AssetMetadata.t;
  source_meta : SourceMetadata.t
}.
End CloudEdition.

(** *** The records as JavaScript objects *)

Definition js_strings (l : list string) : JsValue := JArray (map JString l).

Definition js_optional {A : Type} (f : A -> JsValue) (o : option A) : JsValue :=
  match o with Some a => f a | None => JUndefined end.

Definition emoji_to_js (e : EmojiItem.t) : JsValue :=
  JObject [("char", JString (EmojiItem.char e)); ("label", JString (EmojiItem.label e));
           ("title", JString (EmojiItem.title e)); ("summary", JString (EmojiItem.summary e));
           ("url", JString (EmojiItem.url e))].

Definition essence_to_js (e : EssenceData.t) : JsValue :=
  JObject [("emotion_label", JString (EssenceData.emotion_label e));
           ("emoji", JString (EssenceData.emoji e));
           ("rationale", JString (EssenceData.rationale e));
           ("palette", js_strings (EssenceData.palette e));
           ("temperature", JNumber (EssenceData.temperature e));
           ("fallback", JBool (EssenceData.fallback e))].

Definition assets_to_js (a : AssetMetadata.t) : JsValue :=
  JObject [("image_url", JString (AssetMetadata.image_url a));
           ("image_path", JString (AssetMetadata.image_path a));
           ("expires_at", JString (AssetMetadata.expires_at a))].

Definition source_meta_to_js (s : SourceMetadata.t) : JsValue :=
  JObject [("rss_sources", js_strings (SourceMetadata.rss_sources s));
           ("model", JString (SourceMetadata.model s));
           ("provider", JString (SourceMetadata.provider s));
           ("created_at", JString (SourceMetadata.created_at s))].

(** The object literal that [produceEdition] builds. *)
Definition edition_to_js (e : CloudEdition.t) : JsValue :=
  JObject [("edition_id", JString (CloudEdition.edition_id e));
           ("date", JString (CloudEdition.date e));
           ("timestamp", JString (CloudEdition.timestamp e));
           ("post_type", JString (post_type_name (CloudEdition.post_type e)));
           ("emojis", js_optional (fun l => JArray (map emoji_to_js l)) (CloudEdition.emojis e));
           ("essence", js_optional essence_to_js (CloudEdition.essence e));
           ("assets", assets_to_js (CloudEdition.assets e));
           ("source_meta", source_meta_to_js (CloudEdition.source_meta e))].

(** A property is populated when the object has it and it is not
    [undefined]. *)
Definition populated (key : string) (v : JsValue) : bool :=
  negb (is_undefined (js_field key v)).

(** ** database.ts *)

(** *** The document store *)

(** Kinds of values in the order the store sorts them. *)
Definition kind_rank (v : JsValue) : nat :=
  match v with
  | JUndefined | JNull => 0
  | JBool _ => 1
  | JNumber _ => 2
  | JString _ => 3
  | JArray _ => 4
  | JObject _ => 5
  end.

(** [orderBy('timestamp', 'asc')] on documents with their ids: by the
    timestamp (strings byte by byte, as the timestamps of editions are; other
    values by kind only), then by document id. *)
Definition timestamp_before (a b : string * JsValue) : bool :=
  match js_field "timestamp" a.2, js_field "timestamp" b.2 with
  | JString x, JString y =>
      match String.compare x y with
      | Lt => true
      | Gt => false
      | Eq => String.leb a.1 b.1
      end
  | x, y =>
      if kind_rank x =? kind_rank y then String.leb a.1 b.1
      else kind_rank x <? kind_rank y
  end.

(** [where('date', '==', date)], on documents that have the field the query
    orders by (the store returns no other). *)
Definition matches_date (date : string) (d : string * JsValue) : bool :=
  is_string date (js_field "date" d.2) && negb (is_undefined (js_field "timestamp" d.2)).

(** [collection.where('date', '==', date).orderBy('timestamp', 'asc')] *)
Definition query_by_date (date : string) (collection : gmap string JsValue)
  : list JsValue :=
  map snd
    (merge_sort (fun a b => Is_true (timestamp_before a b))
       (List.filter (matches_date date) (map_to_list collection))).

(** [query.get()] *)
Definition firestore_get_by_date (collection date : string) : M (list JsValue) :=
  fun w =>
    let w := sent (FirestoreQueryByDate collection date) w in
    if firestore_up w then (Ok (query_by_date date (docs w)), w)
    else (Throw FirestoreError, w).

(** [collection.limit(1).get()] *)
Definition firestore_limit_get (collection : string) : M unit :=
  fun w =>
    let w := sent (FirestoreLimitGet collection) w in
    if firestore_up w then (Ok tt, w) else (Throw FirestoreError, w).

(** [docRef.set(data)]: an unconditional write over whatever the id held. *)
Definition doc_set (collection id : string) (data : JsValue) : M unit :=
  fun w =>
    let w := sent (FirestoreSet collection id) w in
    if firestore_up w then (Ok tt, set_docs (<[id := data]> (docs w)) w)
    else (Throw FirestoreError, w).

(** *** The adapter *)

Definition writeEdition (edition : CloudEdition.t) : M unit :=
  let* config := getCloudConfig in
  if dryRun config then ret tt
  else
    let cleanedEdition := removeUndefined (edition_to_js edition) in
    doc_set (firestoreCollection config) (CloudEdition.edition_id edition) cleanedEdition.

(** The documents come back as they are stored ([doc.data() as CloudEdition]
    is a cast). *)
Definition getEditionsByDate (date : string) : M (list JsValue) :=
  let* config := getCloudConfig in
  if dryRun config then ret []
  else
    let* snapshot := firestore_get_by_date (firestoreCollection config) date in
    match snapshot with
    | [] => ret []
    | _ => ret (fold_left (fun editions doc => editions ++ [doc]) snapshot [])
    end.

Definition checkDatabaseAccess : M bool :=
  let* config := getCloudConfig in
  if dryRun config then ret true
  else
    try_catch
      (run firestore_limit_get (firestoreCollection config) in ret true)
      (fun _ => ret false).

(** ** producer.ts *)

Module ProducerInput.
Record t : Type := {
  date : string;
  post_type : PostType;
  emojis : option (list EmojiItem.t);
  essence : option EssenceData.t;
  image_buffer : list Byte.byte;
  rss_sources : list string;
  model : string;
  provider : string
}.
End ProducerInput.

Definition generateEditionId (date : string) (postType : PostType) (sequenceIndex : nat)
  : string :=
  match postType with
  | Essence => date +:+ "-essence"
  | Normal => date +:+ "-normal-" +:+ decimal (N.of_nat sequenceIndex)
  end.

(** [e.post_type === 'normal'] *)
Definition is_normal (e : JsValue) : bool := is_string "normal" (js_field "post_type" e).

Definition produceEdition (input : ProducerInput.t) : M CloudEdition.t :=
  let* config := getCloudConfig in
  let* now := Date_now in
  let* timestamp := lift (toISOString (new_Date (Int now))) in
  let* todayEditions := getEditionsByDate (ProducerInput.date input) in
  let normalPostsToday := length (List.filter is_normal todayEditions) in
  let sequenceIndex :=
    match ProducerInput.post_type input with
    | Normal => normalPostsToday + 1
    | Essence => 1
    end in
  let editionId :=
    generateEditionId (ProducerInput.date input) (ProducerInput.post_type input)
      sequenceIndex in
  let* uploadResult :=
    uploadImage (ProducerInput.image_buffer input) (ProducerInput.date input)
      (ProducerInput.post_type input)
      (match ProducerInput.post_type input with
       | Normal => Some sequenceIndex
       | Essence => None
       end) in
  let edition :=
    {| CloudEdition.edition_id := editionId;
       CloudEdition.date := ProducerInput.date input;
       CloudEdition.timestamp := timestamp;
       CloudEdition.post_type := ProducerInput.post_type input;
       CloudEdition.emojis :=
         match ProducerInput.post_type input with
         | Normal => ProducerInput.emojis input
         | Essence => None
         end;
       CloudEdition.essence :=
         match ProducerInput.post_type input with
         | Essence => ProducerInput.essence input
         | Normal => None
         end;
       CloudEdition.assets :=
         {| AssetMetadata.image_url := UploadResult.url uploadResult;
            AssetMetadata.image_path := UploadResult.path uploadResult;
            AssetMetadata.expires_at := UploadResult.expiresAt uploadResult |};
       CloudEdition.source_meta :=
         {| SourceMetadata.rss_sources := ProducerInput.rss_sources input;
            SourceMetadata.model := ProducerInput.model input;
            SourceMetadata.provider := ProducerInput.provider input;
            SourceMetadata.created_at := timestamp |} |} in
  run writeEdition edition in
  ret edition.

Definition healthCheck : M bool :=
  let* bucketOk := checkBucketAccess in
  let* databaseOk := checkDatabaseAccess in
  let healthy := bucketOk && databaseOk in
  ret healthy.

(** ** Notions used in the statements *)

(** The number of normal editions that the collection holds for a date. *)
Definition normal_editions (date : string) (collection : gmap string JsValue) : nat :=
  length (List.filter (fun d => matches_date date d && is_normal d.2)
            (map_to_list collection)).

(** Both external stores answer, and the bucket is there. *)
Definition stores_up (w : World) : Prop :=
  storage_up w = true /\ bucket_exists w = true /\ firestore_up w = true.

(** The [i]-th reading of the clock from now on. *)
Definition reading (i : nat) (w : World) : Z := clock w (clock_reads w + i).

(** A time value that a [Date] can hold. *)
Definition valid_time (t : Z) : Prop := (Z.abs t <= maxTime)%Z.

(** The edition that [produceEdition] assembles once it has counted
    [normalPostsToday] normal editions, taken [timestamp] and received
    [expiresAt] from the upload. *)
Definition assembled (input : ProducerInput.t) (config : CloudConfig)
    (normalPostsToday : nat) (timestamp expiresAt : string) : CloudEdition.t :=
  let sequenceIndex :=
    match ProducerInput.post_type input with
    | Normal => normalPostsToday + 1
    | Essence => 1
    end in
  let path :=
    storage_path (ProducerInput.date input) (ProducerInput.post_type input)
      (match ProducerInput.post_type input with
       | Normal => Some sequenceIndex
       | Essence => None
       end) in
  {| CloudEdition.edition_id :=
       generateEditionId (ProducerInput.date input) (ProducerInput.post_type input)
         sequenceIndex;
     CloudEdition.date := ProducerInput.date input;
     CloudEdition.timestamp := timestamp;
     CloudEdition.post_type := ProducerInput.post_type input;
     CloudEdition.emojis :=
       match ProducerInput.post_type input with
       | Normal => ProducerInput.emojis input
       | Essence => None
       end;
     CloudEdition.essence :=
       match ProducerInput.post_type input with
       | Essence => ProducerInput.essence input
       | Normal => None
       end;
     CloudEdition.assets :=
       {| AssetMetadata.image_url := public_url config path;
          AssetMetadata.image_path := path;
          AssetMetadata.expires_at := expiresAt |};
     CloudEdition.source_meta :=
       {| SourceMetadata.rss_sources := ProducerInput.rss_sources input;
          SourceMetadata.model := ProducerInput.model input;
          SourceMetadata.provider := ProducerInput.provider input;
          SourceMetadata.created_at := timestamp |} |}.

(** The object that [uploadImage] saves. *)
Definition saved_image (imageBuffer : list Byte.byte) : StoredObject :=
  {| content := imageBuffer; contentType := "image/png";
     cacheControl := "public, max-age=31536000"; public := true |}.

(** The world after the query of [getEditionsByDate] was answered. *)
Definition after_query (config : CloudConfig) (date : string) (w : World) : World :=
  sent (FirestoreQueryByDate (firestoreCollection config) date) w.

(** The world after [uploadImage] saved the image and read the clock. *)
Definition after_upload (config : CloudConfig) (path : string)
    (imageBuffer : list Byte.byte) (w : World) : World :=
  tick (set_objects (<[path := saved_image imageBuffer]> (objects w))
          (sent (StorageSave (storageBucket config) path) w)).

(** The world after [writeEdition] wrote the document. *)
Definition after_write (config : CloudConfig) (edition : CloudEdition.t) (w : World)
  : World :=
  set_docs (<[CloudEdition.edition_id edition := removeUndefined (edition_to_js edition)]>
              (docs w))
    (sent (FirestoreSet (firestoreCollection config) (CloudEdition.edition_id edition)) w).

(** The retention is a number, and the two dates that a production formats,
    the timestamp and the expiry, are valid. *)
Definition clock_fits (config : CloudConfig) (w : World) : Prop :=
  exists days, assetRetentionDays config = Int days /\
    valid_time (reading 0 w) /\ valid_time (reading 1 w + days * msPerDay).

(** Nothing stops a production: the clock fits and, unless the run is dry,
    the stores answer. *)
Definition can_produce (config : CloudConfig) (w : World) : Prop :=
  clock_fits config w /\ (dryRun config = false -> stores_up w).

(** The configuration with the dry-run flag set to [flag]. *)
Definition with_dryRun (flag : bool) (config : CloudConfig) : CloudConfig :=
  {| projectId := projectId config; storageBucket := storageBucket config;
     storageRegion := storageRegion config;
     firestoreDatabase := firestoreDatabase config;
     firestoreCollection := firestoreCollection config;
     assetRetentionDays := assetRetentionDays config;
     dryRun := flag; mode := mode config; credentialsPath := credentialsPath config |}.

(** The world in which [getCloudConfig] has returned [config] with the dry-run
    flag set to [flag]; everything else is as in [w]. *)
Definition in_mode (flag : bool) (config : CloudConfig) (w : World) : World :=
  set_configInstance (Some (with_dryRun flag config)) w.

(** ** Sample data *)

(** 2025-12-24T00:00:00.000Z in milliseconds from the epoch. *)
Definition christmas_eve : Z := 1766534400000.

Definition sample_emoji : EmojiItem.t :=
  {| EmojiItem.char := "*"; EmojiItem.label := "louvre break-in shakes france";
     EmojiItem.title := "Louvre break-in"; EmojiItem.summary := "A summary.";
     EmojiItem.url := "https://example.org/a" |}.

Definition sample_essence : EssenceData.t :=
  {| EssenceData.emotion_label := "hope"; EssenceData.emoji := "+";
     EssenceData.rationale := "A calm day."; EssenceData.palette := ["+"; "-"];
     EssenceData.temperature := 4604480259023595110%Z; EssenceData.fallback := false |}.

Definition sample_input (type : PostType) : ProducerInput.t :=
  {| ProducerInput.date := "2025-12-24";
     ProducerInput.post_type := type;
     ProducerInput.emojis := match type with Normal => Some [sample_emoji] | Essence => None end;
     ProducerInput.essence := match type with Essence => Some sample_essence | Normal => None end;
     ProducerInput.image_buffer := [Byte.x89; Byte.x50; Byte.x4e; Byte.x47];
     ProducerInput.rss_sources := ["https://feeds.example.org/world"];
     ProducerInput.model := "gpt-4o-mini";
     ProducerInput.provider := "openai" |}.

(** A fresh process: no configuration loaded yet, both stores up. *)
Definition sample_world (env : gmap string string) (clock : nat -> Z)
    (docs : gmap string JsValue) : World :=
  {| env := env; configInstance := None; clock := clock; clock_reads := 0;
     storage_up := true; bucket_exists := true; objects := ∅;
     firestore_up := true; docs := docs; net := [] |}.

(** The same process where neither store can be reached. *)
Definition offline_world (env : gmap string string) (clock : nat -> Z) : World :=
  {| env := env; configInstance := None; clock := clock; clock_reads := 0;
     storage_up := false; bucket_exists := false; objects := ∅;
     firestore_up := false; docs := ∅; net := [] |}.

Definition dry_env : gmap string string := {[ "CLOUD_DRY_RUN" := "true" ]}.

Definition live_env : gmap string string := ∅.

(** The clock stands still, or advances two seconds from one reading to the
    next. *)
Definition frozen_clock (n : nat) : Z := christmas_eve.

Definition running_clock (n : nat) : Z :=
  match n with
  | O => christmas_eve
  | S _ => 1766534402000%Z
  end.

(** A collection that holds one normal edition of 2025-12-24, as
    [writeEdition] stores it, and one essence of the day before. *)
Definition sample_docs : gmap string JsValue :=
  <[ "2025-12-24-normal-1" :=
       removeUndefined
         (edition_to_js
            (assembled (sample_input Normal) (loadCloudConfig live_env) 0
               "2025-12-24T06:00:00.000Z" "2026-01-23T06:00:00.000Z")) ]>
  (<[ "2025-12-23-essence" :=
       removeUndefined
         (edition_to_js
            {| CloudEdition.edition_id := "2025-12-23-essence";
               CloudEdition.date := "2025-12-23";
               CloudEdition.timestamp := "2025-12-23T23:00:00.000Z";
               CloudEdition.post_type := Essence;
               CloudEdition.emojis := None;
               CloudEdition.essence := Some sample_essence;
               CloudEdition.assets :=
                 {| AssetMetadata.image_url := "https://storage.googleapis.com/b/2025/12/23/essence.png";
                    AssetMetadata.image_path := "2025/12/23/essence.png";
                    AssetMetadata.expires_at := "2026-01-22T23:00:00.000Z" |};
               CloudEdition.source_meta :=
                 {| SourceMetadata.rss_sources := [];
                    SourceMetadata.model := "gpt-4o-mini";
                    SourceMetadata.provider := "openai";
                    SourceMetadata.created_at := "2025-12-23T23:00:00.000Z" |} |}) ]> ∅).

(** ** The functions beside the production path *)

(** *** database.ts: readEdition *)

(** A request that the production path never sends: [docRef.get()]. *)
Inductive ReadCall : Type :=
  | FirestoreDocGet (collection id : string).

(** The world together with the lookups sent so far, latest first. *)
Record Session : Type := {
  world : World;
  lookups : list ReadCall
}.

(** A computation on the world, run inside a session. *)
Definition in_world {A : Type} (m : M A) (s : Session) : Result A * Session :=
  match m (world s) with
  | (r, w') => (r, {| world := w'; lookups := lookups s |})
  end.

(** [null] is [None]; a document comes back as it is stored
    ([doc.data() as CloudEdition] is a cast). *)
Definition readEdition (editionId : string) (s : Session)
  : Result (option JsValue) * Session :=
  match in_world getCloudConfig s with
  | (Throw e, s') => (Throw e, s')
  | (Ok config, s') =>
      if dryRun config then (Ok None, s')
      else
        let s'' := {| world := world s';
                      lookups := FirestoreDocGet (firestoreCollection config) editionId
                                 :: lookups s' |} in
        if firestore_up (world s') then
          match docs (world s') !! editionId with
          | None => (Ok None, s'')
          | Some data => (Ok (Some data), s'')
          end
        else (Throw FirestoreError, s'')
  end.

(** *** database.ts: exportEditionsForWebsite *)

Module EssenceExport.
Record t : Type := {
  emotion_label : string;
  emoji : string;
  rationale : string
}.
End EssenceExport.

Module EditionExport.
Record t : Type := {
  date : string;
  post_type : PostType;
  emojis : option (list EmojiItem.t);
  essence : option EssenceExport.t;
  image_url : string
}.
End EditionExport.

Definition exportEditionsForWebsite (editions : list CloudEdition.t)
  : list EditionExport.t :=
  map (fun edition =>
         {| EditionExport.date := CloudEdition.date edition;
            EditionExport.post_type := CloudEdition.post_type edition;
            EditionExport.emojis := CloudEdition.emojis edition;
            EditionExport.essence :=
              match CloudEdition.essence edition with
              | Some essence =>
                  Some {| EssenceExport.emotion_label := EssenceData.emotion_label essence;
                          EssenceExport.emoji := EssenceData.emoji essence;
                          EssenceExport.rationale := EssenceData.rationale essence |}
              | None => None
              end;
            EditionExport.image_url :=
              AssetMetadata.image_url (CloudEdition.assets edition) |})
      editions.

(** *** producer.ts: getTodayEditionCount *)

Definition getTodayEditionCount (date : string) : M nat :=
  let* config := getCloudConfig in
  if dryRun config then ret 0
  else
    let* editions := getEditionsByDate date in
    ret (length editions).

(** *** cli/produce.ts: main *)

(** The exit code of the process.  [files] is the file system, by path;
    [request_of] stands for [JSON.parse] of the file followed by the
    decoding of the image and the assembly of the [ProducerInput]: [None]
    when any of them throws.  A promise rejected outside the [try] (the
    health check) ends the process with code 1. *)
Definition main (request_of : string -> option ProducerInput.t)
    (files : gmap string string) (args : list string) (w : World) : nat * World :=
  match args with
  | [] => (1, w)
  | arg :: _ =>
      if String.eqb arg "--health-check" then
        match healthCheck w with
        | (Ok healthy, w') => (if healthy then 0 else 1, w')
        | (Throw _, w') => (1, w')
        end
      else
        let inputFile := arg in
        match files !! inputFile with
        | None => (1, w)
        | Some text =>
            match request_of text with
            | None => (1, w)
            | Some producerInput =>
                match produceEdition producerInput w with
                | (Ok _, w') => (0, w')
                | (Throw _, w') => (1, w')
                end
            end
        end
  end.

(** ** Further notions used in the statements *)

(** The same world with another environment. *)
Definition set_env (e : gmap string string) (w : World) : World :=
  {| env := e; configInstance := configInstance w; clock := clock w;
     clock_reads := clock_reads w;
     storage_up := storage_up w; bucket_exists := bucket_exists w; objects := objects w;
     firestore_up := firestore_up w; docs := docs w; net := net w |}.

(** The number of editions, of either type, that the collection holds for a
    date. *)
Definition editions_of (date : string) (collection : gmap string JsValue) : nat :=
  length (List.filter (matches_date date) (map_to_list collection)).

(** The normal editions of a date are numbered up to [k]: there are [k] of
    them, and no identifier of a later normal edition of the date is taken. *)
Definition numbered (date : string) (k : nat) (collection : gmap string JsValue) : Prop :=
  normal_editions date collection = k /\
  forall i, k < i -> collection !! generateEditionId date Normal i = None.

(** The properties of an edition without those that hold [undefined]. *)
Definition present_props (v : JsValue) : list (string * JsValue) :=
  match v with
  | JObject props => List.filter (fun kv => negb (is_undefined kv.2)) props
  | _ => []
  end.

(** The number that a sequence of decimal digits denotes when it is read
    after the digits of [acc]. *)
Fixpoint digits_after (d : Decimal.uint) (acc : Z) : Z :=
  match d with
  | Decimal.Nil => acc
  | Decimal.D0 d => digits_after d (10 * acc + 0)
  | Decimal.D1 d => digits_after d (10 * acc + 1)
  | Decimal.D2 d => digits_after d (10 * acc + 2)
  | Decimal.D3 d => digits_after d (10 * acc + 3)
  | Decimal.D4 d => digits_after d (10 * acc + 4)
  | Decimal.D5 d => digits_after d (10 * acc + 5)
  | Decimal.D6 d => digits_after d (10 * acc + 6)
  | Decimal.D7 d => digits_after d (10 * acc + 7)
  | Decimal.D8 d => digits_after d (10 * acc + 8)
  | Decimal.D9 d => digits_after d (10 * acc + 9)
  end%Z.

(** The text does not go on with a digit. *)
Definition no_digit_ahead (s : string) : bool :=
  match s with
  | EmptyString => true
  | String c _ => negb (is_digit c)
  end.

(** A computation leaves a component [f] of the world as it was, whether it
    returns or throws. *)
Definition keeps {B A : Type} (f : World -> B) (m : M A) : Prop :=
  forall w r w', m w = (r, w') -> f w' = f w.

(** A computation that throws leaves a component [f] of the world as it
    was. *)
Definition fails_keeping {B A : Type} (f : World -> B) (m : M A) : Prop :=
  forall w e w', m w = (Throw e, w') -> f w' = f w.

(** [k] spaces. *)
Fixpoint blanks (k : nat) : string :=
  match k with
  | O => EmptyString
  | S k' => String " " (blanks k')
  end.

(** * Properties *)

(** ** removeUndefined *)

Lemma removeUndefined_object props :
  removeUndefined (JObject props) = JObject (fold_left strip_step props []).
Proof. reflexivity. Qed.

Lemma removeUndefined_array items :
  removeUndefined (JArray items) = JArray (map removeUndefined items).
Proof. reflexivity. Qed.

Example removeUndefined_nested :
  removeUndefined
    (JObject [("a", JUndefined); ("b", JArray [JObject [("c", JUndefined); ("d", JNull)]])])
  = JObject [("b", JArray [JObject [("d", JNull)]])].
Proof. reflexivity. Qed.

(** An own property [__proto__], as [JSON.parse] makes one, is lost: the
    assignment in the loop goes to the prototype setter. *)
Example removeUndefined_own_proto :
  removeUndefined (JObject [("__proto__", JObject [("a", JNull)]); ("b", JNull)])
  = JObject [("b", JNull)].
Proof. reflexivity. Qed.

Lemma JsValue_nested_ind (P : JsValue -> Prop) :
  P JUndefined -> P JNull -> (forall b, P (JBool b)) -> (forall n, P (JNumber n)) ->
  (forall s, P (JString s)) ->
  (forall items, Forall P items -> P (JArray items)) ->
  (forall props, Forall (fun kv => P kv.2) props -> P (JObject props)) ->
  forall v, P v.
Proof.
  intros Hu Hn Hb Hnum Hs Ha Ho.
  fix IH 1. intros [ | | b | n | s | items | props ].
  - exact Hu.
  - exact Hn.
  - apply Hb.
  - apply Hnum.
  - apply Hs.
  - apply Ha. induction items as [|x xs IHxs]; constructor; [apply IH | exact IHxs].
  - apply Ho. induction props as [|[k x] xs IHxs]; constructor; [apply IH | exact IHxs].
Qed.

(** ** Dates and numbers: sanity checks of the embedding *)

Example iso_epoch : iso_string 0 = "1970-01-01T00:00:00.000Z".
Proof. reflexivity. Qed.

Example iso_leap_day : iso_string 951782400123 = "2000-02-29T00:00:00.123Z".
Proof. vm_compute. reflexivity. Qed.

Example iso_before_epoch : iso_string (-1) = "1969-12-31T23:59:59.999Z".
Proof. vm_compute. reflexivity. Qed.

Example iso_christmas_eve : iso_string 1766534400000 = "2025-12-24T00:00:00.000Z".
Proof. vm_compute. reflexivity. Qed.

Example parseInt_plain : parseInt "30" = Int 30.
Proof. reflexivity. Qed.

Example parseInt_prefix : parseInt "  12abc" = Int 12.
Proof. reflexivity. Qed.

Example parseInt_negative : parseInt "-5" = Int (-5).
Proof. reflexivity. Qed.

Example parseInt_letters : parseInt "abc" = NaN.
Proof. reflexivity. Qed.

Example parseInt_rounds : parseInt "9007199254740993" = Int 9007199254740992.
Proof. vm_compute. reflexivity. Qed.

Example split_date : split "-" "2025-12-24" = ["2025"; "12"; "24"].
Proof. reflexivity. Qed.

Example split_no_separator : split "-" "20251224" = ["20251224"].
Proof. reflexivity. Qed.

(** *** The loop over the entries of an object *)

Lemma has_key_elem key props : has_key key props = true <-> key ∈ map fst props.
Proof.
  unfold has_key. induction props as [|[k v] rest IH]; simpl.
  - split; [discriminate | intros H; inversion H].
  - rewrite orb_true_iff, IH, elem_of_cons, String.eqb_eq. split; intros [->|H]; auto.
Qed.

Lemma has_key_not_elem key props : has_key key props = false <-> key ∉ map fst props.
Proof.
  rewrite <- has_key_elem. destruct (has_key key props); split; congruence.
Qed.

Lemma js_set_fresh key value props :
  has_key key props = false -> is_proto key = false ->
  js_set key value props = props ++ [(key, value)].
Proof.
  unfold has_key. intros H Hp. induction props as [|[k v] rest IH]; simpl.
  - rewrite Hp. reflexivity.
  - simpl in H. apply orb_false_iff in H as [Hk Hrest]. rewrite Hk. f_equal. auto.
Qed.

(** An assignment to [__proto__] leaves the own properties as they are. *)
Lemma js_set_proto key value props :
  has_key key props = false -> is_proto key = true ->
  js_set key value props = props.
Proof.
  unfold has_key. intros H Hp. induction props as [|[k v] rest IH]; simpl.
  - rewrite Hp. reflexivity.
  - simpl in H. apply orb_false_iff in H as [Hk Hrest]. rewrite Hk. f_equal. auto.
Qed.

Lemma js_set_keys key value props :
  map fst (js_set key value props)
  = if has_key key props || is_proto key then map fst props else map fst props ++ [key].
Proof.
  unfold has_key. induction props as [|[k v] rest IH]; simpl.
  - destruct (is_proto key); reflexivity.
  - destruct (String.eqb k key) eqn:E; simpl; [reflexivity|].
    rewrite IH. destruct (existsb _ rest || is_proto key); reflexivity.
Qed.

Lemma js_set_NoDup key value props :
  NoDup (map fst props) -> NoDup (map fst (js_set key value props)).
Proof.
  intros H. rewrite js_set_keys. destruct (has_key key props) eqn:E; simpl; [exact H|].
  destruct (is_proto key); [exact H|].
  apply NoDup_app. split; [exact H|]. split.
  - intros x Hx Hin. apply list_elem_of_singleton in Hin as ->.
    apply has_key_not_elem in E. contradiction.
  - apply NoDup_singleton.
Qed.

Lemma js_set_Forall (Q : JsValue -> Prop) key value props :
  Forall (fun kv => Q kv.2) props -> Q value ->
  Forall (fun kv => Q kv.2) (js_set key value props).
Proof.
  intros H Hv. induction H as [|[k v] rest Hk Hrest IH]; simpl.
  - destruct (is_proto key); [constructor | constructor; [exact Hv | constructor]].
  - destruct (String.eqb k key); constructor; auto.
Qed.

(** No assignment makes an own property named [__proto__]. *)
Lemma js_set_ordinary key value props :
  Forall (fun kv => is_proto kv.1 = false) props ->
  Forall (fun kv => is_proto kv.1 = false) (js_set key value props).
Proof.
  intros H. induction H as [|[k v] rest Hk Hrest IH]; simpl.
  - destruct (is_proto key) eqn:E; [constructor | constructor; [exact E | constructor]].
  - destruct (String.eqb k key); constructor; auto.
Qed.

(** Whatever holds of the stripped values of the entries holds of the values
    of the object that the loop builds. *)
Lemma strip_loop_Forall (Q : JsValue -> Prop) props cleaned :
  Forall (fun kv => is_undefined kv.2 = false -> Q (removeUndefined kv.2)) props ->
  Forall (fun kv => Q kv.2) cleaned ->
  Forall (fun kv => Q kv.2) (fold_left strip_step props cleaned).
Proof.
  intros H. revert cleaned.
  induction H as [|[k v] rest Hk Hrest IH]; intros cleaned Hc; simpl; [exact Hc|].
  apply IH. unfold strip_step; simpl.
  destruct (is_undefined v) eqn:E; [exact Hc|].
  apply js_set_Forall; auto.
Qed.

Lemma strip_loop_NoDup props cleaned :
  NoDup (map fst cleaned) -> NoDup (map fst (fold_left strip_step props cleaned)).
Proof.
  revert cleaned. induction props as [|[k v] rest IH]; intros cleaned Hc; simpl; [exact Hc|].
  apply IH. unfold strip_step; simpl.
  destruct (is_undefined v); [exact Hc|]. apply js_set_NoDup, Hc.
Qed.

Lemma strip_loop_ordinary props cleaned :
  Forall (fun kv => is_proto kv.1 = false) cleaned ->
  Forall (fun kv => is_proto kv.1 = false) (fold_left strip_step props cleaned).
Proof.
  revert cleaned. induction props as [|[k v] rest IH]; intros cleaned Hc; simpl; [exact Hc|].
  apply IH. unfold strip_step; simpl.
  destruct (is_undefined v); [exact Hc|]. apply js_set_ordinary, Hc.
Qed.

Lemma strip_entries_cons k v rest :
  strip_entries ((k, v) :: rest)
  = if negb (is_undefined v) && negb (is_proto k)
    then (k, removeUndefined v) :: strip_entries rest
    else strip_entries rest.
Proof.
  unfold strip_entries. cbn [List.filter fst snd].
  destruct (negb (is_undefined v) && negb (is_proto k)); reflexivity.
Qed.

(** On an object that names each key once, every assignment of the loop adds
    a property, except the one to [__proto__], which adds none. *)
Lemma strip_loop_entries props cleaned :
  NoDup (map fst props) ->
  (forall key, key ∈ map fst props -> has_key key cleaned = false) ->
  fold_left strip_step props cleaned = cleaned ++ strip_entries props.
Proof.
  revert cleaned. induction props as [|[k v] rest IH]; intros cleaned Hnd Hfresh.
  - unfold strip_entries; simpl. rewrite app_nil_r. reflexivity.
  - simpl in Hnd. apply NoDup_cons in Hnd as [Hk Hnd].
    assert (Hrest : forall key, key ∈ map fst rest -> has_key key cleaned = false).
    { intros key Hkey. apply Hfresh. simpl. right. exact Hkey. }
    assert (Hhere : has_key k cleaned = false) by (apply Hfresh; simpl; left).
    change (fold_left strip_step ((k, v) :: rest) cleaned)
      with (fold_left strip_step rest (strip_step cleaned (k, v))).
    rewrite strip_entries_cons. unfold strip_step; cbn [fst snd].
    destruct (is_undefined v) eqn:E; cbn [negb andb].
    + apply IH; assumption.
    + destruct (is_proto k) eqn:P; cbn [negb].
      * rewrite js_set_proto by assumption. apply IH; assumption.
      * rewrite js_set_fresh by assumption.
        rewrite IH; [rewrite <- app_assoc; reflexivity | exact Hnd |].
        intros key Hkey. unfold has_key. rewrite existsb_app. simpl.
        apply orb_false_iff. split.
        -- apply Hrest, Hkey.
        -- rewrite orb_false_r. apply String.eqb_neq. intros ->. contradiction.
Qed.

Lemma removeUndefined_well_formed_object props :
  NoDup (map fst props) ->
  removeUndefined (JObject props) = JObject (strip_entries props).
Proof.
  intros H. rewrite removeUndefined_object. f_equal.
  apply (strip_loop_entries props []); [exact H | reflexivity].
Qed.

Lemma is_undefined_removeUndefined v :
  is_undefined (removeUndefined v) = is_undefined v.
Proof. destruct v; reflexivity. Qed.

(** Entries that hold no [undefined], are not named [__proto__] and whose
    values the stripping leaves alone come out of the loop as they went in. *)
Lemma strip_entries_fixed props :
  Forall (fun kv => is_undefined kv.2 = false /\ is_proto kv.1 = false
                    /\ removeUndefined kv.2 = kv.2) props ->
  strip_entries props = props.
Proof.
  induction 1 as [|[k v] rest (Hu & Hp & Hv) Hrest IH]; [reflexivity|].
  simpl in Hu, Hp, Hv. rewrite strip_entries_cons, Hu, Hp, Hv, IH. reflexivity.
Qed.

(** *** What the stripping achieves *)

Lemma removeUndefined_clean v : undefined_props (removeUndefined v) = false.
Proof.
  induction v as [ | | b | n | s | items IH | props IH ] using JsValue_nested_ind;
    try reflexivity.
  - rewrite removeUndefined_array. simpl.
    induction IH as [|x xs Hx Hxs IHxs]; simpl; [reflexivity|].
    rewrite Hx, IHxs. reflexivity.
  - rewrite removeUndefined_object. simpl.
    set (Q := fun x => is_undefined x = false /\ undefined_props x = false).
    assert (H : Forall (fun kv => Q kv.2) (fold_left strip_step props [])).
    { apply strip_loop_Forall; [|constructor].
      eapply Forall_impl; [exact IH|]. intros [k x] Hx Hu; simpl in *.
      split; [rewrite is_undefined_removeUndefined; exact Hu | exact Hx]. }
    induction H as [|[k x] rest [Hu Hx] Hrest IHrest]; simpl; [reflexivity|].
    simpl in Hu, Hx. rewrite Hu, Hx, IHrest. reflexivity.
Qed.

Lemma removeUndefined_normalises v : well_formed (removeUndefined v) = true.
Proof.
  induction v as [ | | b | n | s | items IH | props IH ] using JsValue_nested_ind;
    try reflexivity.
  - rewrite removeUndefined_array. simpl.
    induction IH as [|x xs Hx Hxs IHxs]; simpl; [reflexivity|].
    rewrite Hx, IHxs. reflexivity.
  - rewrite removeUndefined_object. simpl. repeat (apply andb_true_iff; split).
    + apply bool_decide_eq_true. apply strip_loop_NoDup. constructor.
    + assert (H : Forall (fun kv => is_proto kv.1 = false) (fold_left strip_step props []))
        by (apply strip_loop_ordinary; constructor).
      induction H as [|[k x] rest Hx Hrest IHrest]; simpl; [reflexivity|].
      simpl in Hx. rewrite Hx, IHrest. reflexivity.
    + assert (H : Forall (fun kv => well_formed kv.2 = true) (fold_left strip_step props [])).
      { apply (strip_loop_Forall (fun x => well_formed x = true)); [|constructor].
        eapply Forall_impl; [exact IH|]. intros [k x] Hx _; exact Hx. }
      induction H as [|[k x] rest Hx Hrest IHrest]; simpl; [reflexivity|].
      simpl in Hx. rewrite Hx, IHrest. reflexivity.
Qed.

(** The parts of [well_formed] at an object. *)
Lemma well_formed_object props :
  well_formed (JObject props) = true ->
  NoDup (map fst props) /\
  Forall (fun kv => is_proto kv.1 = false) props /\
  Forall (fun kv => well_formed kv.2 = true) props.
Proof.
  simpl. intros H. apply andb_true_iff in H as [H Hwf].
  apply andb_true_iff in H as [Hnd Hp]. apply bool_decide_eq_true in Hnd.
  split; [exact Hnd|]. clear Hnd. split.
  - clear Hwf. induction props as [|[k x] rest IH]; simpl in *; [constructor|].
    apply andb_true_iff in Hp as [Hk Hp]. apply negb_true_iff in Hk.
    constructor; auto.
  - clear Hp. induction props as [|[k x] rest IH]; simpl in *; [constructor|].
    apply andb_true_iff in Hwf as [Hk Hwf]. constructor; auto.
Qed.

Lemma well_formed_array items :
  well_formed (JArray items) = true -> Forall (fun x => well_formed x = true) items.
Proof.
  simpl. induction items as [|x xs IH]; simpl; [constructor|].
  intros H. apply andb_true_iff in H as [Hx Hxs]. constructor; auto.
Qed.

Lemma removeUndefined_fixed v :
  well_formed v = true -> undefined_props v = false -> removeUndefined v = v.
Proof.
  induction v as [ | | b | n | s | items IH | props IH ] using JsValue_nested_ind;
    try reflexivity.
  - simpl. intros Hwf Hclean. f_equal.
    induction IH as [|x xs Hx Hxs IHxs]; simpl in *; [reflexivity|].
    apply andb_true_iff in Hwf as [Hwx Hwxs].
    apply orb_false_iff in Hclean as [Hcx Hcxs].
    rewrite Hx, IHxs; auto.
  - intros Hwf Hclean. apply well_formed_object in Hwf as (Hnd & Hp & Hwf).
    simpl in Hclean.
    rewrite removeUndefined_well_formed_object by exact Hnd. f_equal.
    apply strip_entries_fixed. clear Hnd.
    induction IH as [|[k x] rest Hx Hrest IHrest]; simpl in *; [constructor|].
    apply Forall_cons in Hp as [Hpk Hprest]. apply Forall_cons in Hwf as [Hwx Hwrest].
    apply orb_false_iff in Hclean as [Hcx Hcrest].
    apply orb_false_iff in Hcx as [Hux Hcx].
    constructor; [simpl; auto | auto].
Qed.

(** C7: stripping is idempotent: [removeUndefined (removeUndefined v)] equals
    [removeUndefined v] for every value [v]. *)
Theorem removeUndefined_idempotent (v : JsValue) :
  removeUndefined (removeUndefined v) = removeUndefined v.
Proof.
  apply removeUndefined_fixed.
  - apply removeUndefined_normalises.
  - apply removeUndefined_clean.
Qed.

(** *** The stripping against its description *)

(** On a well-formed value the loop computes what the description says. *)
Lemma removeUndefined_declarative v :
  well_formed v = true -> removeUndefined v = without_absent_properties v.
Proof.
  induction v as [ | | b | n | s | items IH | props IH ] using JsValue_nested_ind;
    try reflexivity.
  - intros Hwf. apply well_formed_array in Hwf. simpl. f_equal.
    induction IH as [|x xs Hx Hxs IHxs]; simpl; [reflexivity|].
    apply Forall_cons in Hwf as [Hwx Hwxs]. rewrite Hx, IHxs; auto.
  - intros Hwf. apply well_formed_object in Hwf as (Hnd & Hp & Hwf).
    rewrite removeUndefined_well_formed_object by exact Hnd. simpl. f_equal. clear Hnd.
    induction IH as [|[k x] rest Hx Hrest IHrest]; [reflexivity|].
    apply Forall_cons in Hp as [Hpk Hprest]. apply Forall_cons in Hwf as [Hwx Hwrest].
    simpl in Hpk, Hwx, Hx. rewrite strip_entries_cons, Hpk, andb_true_r.
    cbn [omap list_omap snd fst]. destruct (is_undefined x); cbn [negb]; [auto|].
    rewrite Hx, IHrest; auto.
Qed.

Lemma found_from_map {A B : Type} (f : nat -> A -> list B) (g : A -> A) i (l : list A) :
  Forall (fun x => forall j, f j (g x) = f j x) l ->
  found_from f i (map g l) = found_from f i l.
Proof.
  intros H. revert i. induction H as [|x xs Hx Hxs IH]; intros i; [reflexivity|].
  cbn [map found_from]. rewrite Hx, IH. reflexivity.
Qed.

(** The description takes no leaf away and moves none. *)
Lemma leaves_without_absent_properties v :
  leaves (without_absent_properties v) = leaves v.
Proof.
  induction v as [ | | b | n | s | items IH | props IH ] using JsValue_nested_ind;
    try reflexivity.
  - cbn [without_absent_properties leaves]. apply found_from_map.
    eapply Forall_impl; [exact IH|]. intros x Hx i. cbn beta. rewrite Hx. reflexivity.
  - cbn [without_absent_properties leaves].
    induction IH as [|[k x] rest Hx Hrest IHrest]; [reflexivity|].
    simpl in Hx. cbn [omap list_omap flat_map snd fst].
    destruct (is_undefined x) eqn:E.
    + destruct x; try discriminate. exact IHrest.
    + cbn [flat_map fst snd]. rewrite Hx. f_equal. exact IHrest.
Qed.

(** An [undefined] element of an array is mapped to itself: the array comes
    back with the same length and the element is still there.  This is the
    input on which the claim C6, as stated, fails. *)
Lemma removeUndefined_keeps_array_elements :
  let v := JObject [("palette", JArray [JString "x"; JUndefined])] in
  well_formed v = true /\ removeUndefined v = v /\
  has_undefined (removeUndefined v) = true.
Proof. repeat split. Qed.

(** C6 (amended): [removeUndefined] returns a value in which no object, at
    any depth (objects inside arrays included), has a property that holds
    [undefined], and whose objects name each key once.  On a value whose
    objects name each key once and have no own key [__proto__], it returns
    exactly the value with every property that holds [undefined] taken out of
    every object, at any depth: every value that is not [undefined] is passed
    through unchanged and is found where it was (the leaves and their paths are
    the same), an array keeps all its elements and their positions (an
    [undefined] element stays), and a value with no property that holds
    [undefined] comes back as it is. *)
Theorem removeUndefined_strips_properties (v : JsValue) :
  undefined_props (removeUndefined v) = false /\
  well_formed (removeUndefined v) = true /\
  (well_formed v = true ->
   removeUndefined v = without_absent_properties v /\
   leaves (removeUndefined v) = leaves v /\
   (undefined_props v = false -> removeUndefined v = v)).
Proof.
  split; [apply removeUndefined_clean|].
  split; [apply removeUndefined_normalises|].
  intros Hwf. split; [apply removeUndefined_declarative, Hwf|]. split.
  - rewrite removeUndefined_declarative by exact Hwf.
    apply leaves_without_absent_properties.
  - apply removeUndefined_fixed, Hwf.
Qed.

Lemma removeUndefined_strips_properties_witness :
  let v := JObject [("emojis", JUndefined);
                    ("items", JArray [JObject [("essence", JUndefined); ("date", JString "d")];
                                      JUndefined; JNull])] in
  let v' := JObject [("items", JArray [JObject [("date", JString "d")]; JUndefined; JNull])] in
  well_formed v = true /\
  (removeUndefined v = v' /\ without_absent_properties v = v' /\
   leaves (removeUndefined v)
   = [([Key "items"; Index 0; Key "date"], JString "d"); ([Key "items"; Index 2], JNull)] /\
   leaves (removeUndefined v) = leaves v) /\
  (well_formed v' = true /\ undefined_props v' = false /\ removeUndefined v' = v').
Proof.
  intros v v'.
  pose proof (proj2 (proj2 (removeUndefined_strips_properties v)) eq_refl)
    as (Hd & Hl & _).
  pose proof (proj2 (proj2 (removeUndefined_strips_properties v')) eq_refl)
    as (_ & _ & Hfix).
  split; [reflexivity|]. split.
  - split; [reflexivity|]. split; [reflexivity|]. split; [reflexivity | exact Hl].
  - split; [reflexivity|]. split; [reflexivity | exact (Hfix eq_refl)].
Defined.

(** ** Configuration *)

Lemma validateConfig_ok_iff config :
  validateConfig config = Ok tt <->
  projectId config <> "" /\ storageBucket config <> "" /\
  (assetRetentionDays config = NaN \/
   exists days, assetRetentionDays config = Int days /\ (1 <= days <= 365)%Z).
Proof.
  unfold validateConfig.
  destruct (String.eqb_spec (projectId config) "") as [Hp|Hp].
  { split; [discriminate | intros [H _]; contradiction]. }
  destruct (String.eqb_spec (storageBucket config) "") as [Hb|Hb].
  { split; [discriminate | intros (_ & H & _); contradiction]. }
  destruct (assetRetentionDays config) as [|days|negative]; simpl.
  - split; auto.
  - destruct (Z.ltb_spec days 1); simpl.
    + split; [discriminate|]. intros (_ & _ & [H'|(d & [= <-] & H')]); [discriminate | lia].
    + destruct (Z.ltb_spec 365 days); simpl.
      * split; [discriminate|].
        intros (_ & _ & [H'|(d & [= <-] & H')]); [discriminate | lia].
      * split; [|reflexivity]. intros _. repeat split; auto.
        right. exists days. split; [reflexivity | lia].
  - destruct negative; simpl;
      (split; [discriminate | intros (_ & _ & [H'|(d & H' & _)]); discriminate]).
Qed.

(** Every configuration the specification accepts passes. *)
Lemma validateConfig_accepts config :
  config_acceptable config -> validateConfig config = Ok tt.
Proof.
  intros (Hp & Hb & Hd). apply validateConfig_ok_iff. auto.
Qed.

(** A retention that is a number outside 1..365 is refused. *)
Lemma validateConfig_refuses_out_of_range config days :
  assetRetentionDays config = Int days -> (days < 1 \/ 365 < days)%Z ->
  exists e, validateConfig config = Throw e.
Proof.
  intros Hd Hr. destruct (validateConfig config) as [[]|e] eqn:E; [|eauto].
  apply validateConfig_ok_iff in E as (_ & _ & [E|(d & E & Hd')]); rewrite Hd in E.
  - discriminate.
  - injection E as <-. lia.
Qed.

(** C5: with ASSET_RETENTION_DAYS set to a text that is no number, the loaded
    retention is [NaN]: it is not a number from 1 to 365, and yet
    [validateConfig] does not throw. *)
Theorem validateConfig_passes_NaN :
  let config := loadCloudConfig {[ "ASSET_RETENTION_DAYS" := "abc" ]} in
  assetRetentionDays config = NaN /\
  ~ config_acceptable config /\
  validateConfig config = Ok tt.
Proof.
  intros config.
  assert (H : assetRetentionDays config = NaN) by (vm_compute; reflexivity).
  split; [exact H|]. split.
  - intros (_ & _ & days & Hd & _). rewrite H in Hd. discriminate.
  - vm_compute. reflexivity.
Qed.

(** ** Strings *)

Lemma split_no_separator_found sep s :
  all_chars (fun c => negb (Ascii.eqb c sep)) s = true -> split sep s = [s].
Proof.
  induction s as [|c s IH]; simpl; [reflexivity|].
  intros H. apply andb_true_iff in H as [Hc Hs].
  apply negb_true_iff in Hc. rewrite Hc, (IH Hs). reflexivity.
Qed.

Lemma split_at_separator sep s rest :
  all_chars (fun c => negb (Ascii.eqb c sep)) s = true ->
  split sep (s +:+ String sep rest) = s :: split sep rest.
Proof.
  induction s as [|c s IH]; simpl.
  - intros _. rewrite Ascii.eqb_refl. reflexivity.
  - intros H. apply andb_true_iff in H as [Hc Hs].
    apply negb_true_iff in Hc. rewrite Hc, (IH Hs). reflexivity.
Qed.

Lemma digits_have_no_dash s :
  all_chars is_digit s = true -> all_chars (fun c => negb (Ascii.eqb c "-")) s = true.
Proof.
  induction s as [|c s IH]; simpl; [reflexivity|].
  intros H. apply andb_true_iff in H as [Hc Hs]. rewrite (IH Hs), andb_true_r.
  apply negb_true_iff, Ascii.eqb_neq. intros ->. discriminate.
Qed.

Lemma storage_path_of_date y m d type index :
  is_date y m d = true ->
  storage_path (y +:+ "-" +:+ m +:+ "-" +:+ d) type index
  = y +:+ "/" +:+ m +:+ "/" +:+ d +:+ "/"
    +:+ match type with
        | Essence => "essence.png"
        | Normal => "normal-" +:+ index_text index +:+ ".png"
        end.
Proof.
  unfold is_date. intros H.
  repeat (apply andb_true_iff in H as [H ?]).
  unfold storage_path.
  change (y +:+ "-" +:+ m +:+ "-" +:+ d) with (y +:+ String "-" (m +:+ String "-" d)).
  rewrite split_at_separator by (apply digits_have_no_dash; assumption).
  rewrite split_at_separator by (apply digits_have_no_dash; assumption).
  rewrite split_no_separator_found by (apply digits_have_no_dash; assumption).
  destruct type; reflexivity.
Qed.

(** ** Running the adapters *)

#[local] Arguments iso_string : simpl never.
#[local] Arguments new_Date : simpl never.
#[local] Arguments storage_path : simpl never.
#[local] Arguments public_url : simpl never.
#[local] Arguments generateEditionId : simpl never.
#[local] Arguments query_by_date : simpl never.
#[local] Arguments removeUndefined : simpl never.
#[local] Arguments edition_to_js : simpl never.
#[local] Arguments loadCloudConfig : simpl never.
#[local] Arguments validateConfig : simpl never.

Lemma bind_returns {A B : Type} (m : M A) (k : A -> M B) w a w1 :
  m w = (Ok a, w1) -> bind m k w = k a w1.
Proof. unfold bind. intros ->. reflexivity. Qed.

Lemma bind_throws {A B : Type} (m : M A) (k : A -> M B) w e w1 :
  m w = (Throw e, w1) -> bind m k w = (Throw e, w1).
Proof. unfold bind. intros ->. reflexivity. Qed.

Lemma bind_Ok_inv {A B : Type} (m : M A) (k : A -> M B) w b w' :
  bind m k w = (Ok b, w') -> exists a w1, m w = (Ok a, w1) /\ k a w1 = (Ok b, w').
Proof.
  unfold bind. destruct (m w) as [[a|e] w1]; [eauto | discriminate].
Qed.

(** Once [getCloudConfig] has returned, the instance is set, and nothing else
    has changed. *)
Lemma getCloudConfig_returns w config w0 :
  getCloudConfig w = (Ok config, w0) -> w0 = set_configInstance (Some config) w.
Proof.
  unfold getCloudConfig. destruct w as [e ci c n su be o fu d nt]; simpl.
  destruct ci as [config'|].
  - intros [= <- <-]. reflexivity.
  - destruct (validateConfig _); intros [= <- <-]. reflexivity.
Qed.

Lemma getCloudConfig_cached w config :
  configInstance w = Some config -> getCloudConfig w = (Ok config, w).
Proof. unfold getCloudConfig. intros ->. reflexivity. Qed.

Lemma getCloudConfig_Ok_inv w config w0 :
  getCloudConfig w = (Ok config, w0) ->
  configInstance w0 = Some config /\ clock w0 = clock w /\ clock_reads w0 = clock_reads w /\
  storage_up w0 = storage_up w /\ bucket_exists w0 = bucket_exists w /\
  objects w0 = objects w /\ firestore_up w0 = firestore_up w /\ docs w0 = docs w /\
  net w0 = net w.
Proof. intros H. apply getCloudConfig_returns in H as ->. repeat split. Qed.

Lemma new_Date_valid t : valid_time t -> new_Date (Int t) = Int t.
Proof.
  unfold valid_time, new_Date. intros H.
  destruct (Z.leb_spec (Z.abs t) maxTime); [reflexivity | lia].
Qed.

Lemma new_Date_Ok_inv value s :
  toISOString (new_Date value) = Ok s ->
  exists t, value = Int t /\ valid_time t /\ s = iso_string t.
Proof.
  unfold new_Date, valid_time.
  destruct value as [|t|negative]; simpl; [discriminate| |discriminate].
  destruct (Z.leb_spec (Z.abs t) maxTime); simpl; [|discriminate].
  intros [= <-]. eauto.
Qed.

Lemma retention_ms_days config days :
  assetRetentionDays config = Int days ->
  retention_ms config = Int (days * msPerDay)%Z.
Proof.
  unfold retention_ms, msPerDay. intros ->. simpl. f_equal. lia.
Qed.

Lemma Date_now_run w : Date_now w = (Ok (reading 0 w), tick w).
Proof. unfold Date_now, reading. rewrite Nat.add_0_r. reflexivity. Qed.

Lemma reading_tick i w : reading i (tick w) = reading (S i) w.
Proof. unfold reading. simpl. f_equal. lia. Qed.

(** The expiry is the next reading of the clock plus the retention. *)
Lemma expiry_run config days w :
  assetRetentionDays config = Int days ->
  valid_time (reading 0 w + days * msPerDay) ->
  expiry config w = (Ok (iso_string (reading 0 w + days * msPerDay)), tick w).
Proof.
  intros Hdays Ht. unfold expiry.
  rewrite (bind_returns _ _ _ _ _ (Date_now_run w)).
  rewrite (retention_ms_days _ _ Hdays). simpl.
  rewrite (new_Date_valid _ Ht). reflexivity.
Qed.

Lemma expiry_Ok_inv config w s w1 :
  expiry config w = (Ok s, w1) ->
  exists days, assetRetentionDays config = Int days /\
    valid_time (reading 0 w + days * msPerDay) /\
    s = iso_string (reading 0 w + days * msPerDay) /\ w1 = tick w.
Proof.
  unfold expiry. rewrite (bind_returns _ _ _ _ _ (Date_now_run w)).
  unfold lift. intros [= H <-].
  apply new_Date_Ok_inv in H as (t & Ht & Hv & ->).
  unfold retention_ms in Ht.
  destruct (assetRetentionDays config) as [|days|negative];
    [discriminate| |destruct negative; discriminate].
  simpl in Ht. injection Ht as <-. exists days.
  replace (days * 24 * 60 * 60 * 1000)%Z with (days * msPerDay)%Z in *
    by (unfold msPerDay; lia).
  auto.
Qed.

(** *** storage.ts *)

Lemma uploadImage_dry_run buf date type index w config days :
  configInstance w = Some config -> dryRun config = true ->
  assetRetentionDays config = Int days ->
  valid_time (reading 0 w + days * msPerDay) ->
  uploadImage buf date type index w
  = (Ok {| UploadResult.url := public_url config (storage_path date type index);
           UploadResult.path := storage_path date type index;
           UploadResult.expiresAt := iso_string (reading 0 w + days * msPerDay) |},
     tick w).
Proof.
  intros Hc Hdry Hdays Ht. unfold uploadImage.
  rewrite (bind_returns _ _ _ _ _ (getCloudConfig_cached _ _ Hc)). rewrite Hdry.
  rewrite (bind_returns _ _ _ _ _ (expiry_run _ _ _ Hdays Ht)). reflexivity.
Qed.

Lemma uploadImage_live buf date type index w config days :
  configInstance w = Some config -> dryRun config = false ->
  storage_up w = true -> bucket_exists w = true ->
  assetRetentionDays config = Int days ->
  valid_time (reading 0 w + days * msPerDay) ->
  uploadImage buf date type index w
  = (Ok {| UploadResult.url := public_url config (storage_path date type index);
           UploadResult.path := storage_path date type index;
           UploadResult.expiresAt := iso_string (reading 0 w + days * msPerDay) |},
     after_upload config (storage_path date type index) buf w).
Proof.
  intros Hc Hdry Hsu Hbe Hdays Ht. unfold uploadImage.
  rewrite (bind_returns _ _ _ _ _ (getCloudConfig_cached _ _ Hc)). rewrite Hdry.
  unfold bind at 1, file_save. simpl. rewrite Hsu, Hbe. simpl.
  match goal with
  | |- bind (expiry config) _ ?W = _ =>
      rewrite (bind_returns _ _ _ _ _ (expiry_run config days W Hdays Ht))
  end.
  reflexivity.
Qed.

(** Whenever [uploadImage] returns, it returns this. *)
Lemma uploadImage_Ok_inv buf date type index w config r w1 :
  configInstance w = Some config ->
  uploadImage buf date type index w = (Ok r, w1) ->
  exists days,
    assetRetentionDays config = Int days /\
    valid_time (reading 0 w + days * msPerDay) /\
    r = {| UploadResult.url := public_url config (storage_path date type index);
           UploadResult.path := storage_path date type index;
           UploadResult.expiresAt := iso_string (reading 0 w + days * msPerDay) |} /\
    (dryRun config = true /\ w1 = tick w \/
     dryRun config = false /\ storage_up w = true /\ bucket_exists w = true /\
     w1 = after_upload config (storage_path date type index) buf w).
Proof.
  intros Hc. unfold uploadImage.
  rewrite (bind_returns _ _ _ _ _ (getCloudConfig_cached _ _ Hc)).
  destruct (dryRun config) eqn:Hdry.
  - intros H. apply bind_Ok_inv in H as (s & w2 & He & H).
    apply expiry_Ok_inv in He as (days & Hdays & Ht & -> & ->).
    unfold ret in H. injection H as <- <-. exists days.
    split; [exact Hdays|]. split; [exact Ht|]. split; [reflexivity|]. left. auto.
  - intros H. apply bind_Ok_inv in H as ([] & w2 & Hs & H).
    unfold file_save in Hs. simpl in Hs.
    destruct (storage_up w) eqn:Hsu; [|discriminate].
    destruct (bucket_exists w) eqn:Hbe; [|discriminate].
    simpl in Hs. injection Hs as <-.
    apply bind_Ok_inv in H as (s & w3 & He & H).
    apply expiry_Ok_inv in He as (days & Hdays & Ht & -> & ->).
    unfold ret in H. injection H as <- <-. exists days.
    split; [exact Hdays|]. split; [exact Ht|]. split; [reflexivity|]. right. auto.
Qed.

Lemma checkBucketAccess_dry_run w config :
  configInstance w = Some config -> dryRun config = true ->
  checkBucketAccess w = (Ok true, w).
Proof.
  intros Hc Hdry. unfold checkBucketAccess.
  rewrite (bind_returns _ _ _ _ _ (getCloudConfig_cached _ _ Hc)). rewrite Hdry.
  reflexivity.
Qed.

(** *** database.ts *)

Lemma push_all {A : Type} (l acc : list A) :
  fold_left (fun editions doc => editions ++ [doc]) l acc = acc ++ l.
Proof.
  revert acc. induction l as [|x l IH]; intros acc; simpl.
  - rewrite app_nil_r. reflexivity.
  - rewrite IH, <- app_assoc. reflexivity.
Qed.

Lemma getEditionsByDate_dry_run date w config :
  configInstance w = Some config -> dryRun config = true ->
  getEditionsByDate date w = (Ok [], w).
Proof.
  intros Hc Hdry. unfold getEditionsByDate.
  rewrite (bind_returns _ _ _ _ _ (getCloudConfig_cached _ _ Hc)). rewrite Hdry.
  reflexivity.
Qed.

Lemma getEditionsByDate_live date w config :
  configInstance w = Some config -> dryRun config = false ->
  firestore_up w = true ->
  getEditionsByDate date w = (Ok (query_by_date date (docs w)), after_query config date w).
Proof.
  intros Hc Hdry Hfu. unfold getEditionsByDate.
  rewrite (bind_returns _ _ _ _ _ (getCloudConfig_cached _ _ Hc)). rewrite Hdry.
  unfold bind, firestore_get_by_date. simpl. rewrite Hfu.
  destruct (query_by_date date (docs w)) as [|doc rest]; [reflexivity|].
  unfold ret. rewrite push_all. reflexivity.
Qed.

Lemma getEditionsByDate_Ok_inv date w config l w1 :
  configInstance w = Some config ->
  getEditionsByDate date w = (Ok l, w1) ->
  dryRun config = true /\ l = [] /\ w1 = w \/
  dryRun config = false /\ firestore_up w = true /\
  l = query_by_date date (docs w) /\ w1 = after_query config date w.
Proof.
  intros Hc H. destruct (dryRun config) eqn:Hdry.
  - rewrite (getEditionsByDate_dry_run _ _ _ Hc Hdry) in H. injection H as <- <-. auto.
  - destruct (firestore_up w) eqn:Hfu.
    + rewrite (getEditionsByDate_live _ _ _ Hc Hdry Hfu) in H. injection H as <- <-.
      right. auto.
    + unfold getEditionsByDate in H.
      rewrite (bind_returns _ _ _ _ _ (getCloudConfig_cached _ _ Hc)) in H.
      rewrite Hdry in H. unfold bind, firestore_get_by_date in H. simpl in H.
      rewrite Hfu in H. discriminate.
Qed.

Lemma writeEdition_dry_run edition w config :
  configInstance w = Some config -> dryRun config = true ->
  writeEdition edition w = (Ok tt, w).
Proof.
  intros Hc Hdry. unfold writeEdition.
  rewrite (bind_returns _ _ _ _ _ (getCloudConfig_cached _ _ Hc)). rewrite Hdry.
  reflexivity.
Qed.

Lemma writeEdition_live edition w config :
  configInstance w = Some config -> dryRun config = false ->
  firestore_up w = true ->
  writeEdition edition w = (Ok tt, after_write config edition w).
Proof.
  intros Hc Hdry Hfu. unfold writeEdition.
  rewrite (bind_returns _ _ _ _ _ (getCloudConfig_cached _ _ Hc)). rewrite Hdry.
  unfold doc_set. simpl. rewrite Hfu. reflexivity.
Qed.

Lemma writeEdition_Ok_inv edition w config u w1 :
  configInstance w = Some config ->
  writeEdition edition w = (Ok u, w1) ->
  dryRun config = true /\ w1 = w \/
  dryRun config = false /\ firestore_up w = true /\ w1 = after_write config edition w.
Proof.
  intros Hc H. destruct (dryRun config) eqn:Hdry.
  - rewrite (writeEdition_dry_run _ _ _ Hc Hdry) in H. injection H as <-. auto.
  - destruct (firestore_up w) eqn:Hfu.
    + rewrite (writeEdition_live _ _ _ Hc Hdry Hfu) in H. injection H as <-. auto.
    + unfold writeEdition in H.
      rewrite (bind_returns _ _ _ _ _ (getCloudConfig_cached _ _ Hc)) in H.
      rewrite Hdry in H. unfold doc_set in H. simpl in H. rewrite Hfu in H. discriminate.
Qed.

Lemma checkDatabaseAccess_dry_run w config :
  configInstance w = Some config -> dryRun config = true ->
  checkDatabaseAccess w = (Ok true, w).
Proof.
  intros Hc Hdry. unfold checkDatabaseAccess.
  rewrite (bind_returns _ _ _ _ _ (getCloudConfig_cached _ _ Hc)). rewrite Hdry.
  reflexivity.
Qed.

(** *** producer.ts *)

Lemma filter_length_Permutation {A : Type} (f : A -> bool) (l l' : list A) :
  l ≡ₚ l' -> length (List.filter f l) = length (List.filter f l').
Proof.
  induction 1 as [|x l l' _ IH|x y l|l l' l'' _ IH1 _ IH2]; simpl.
  - reflexivity.
  - destruct (f x); simpl; rewrite IH; reflexivity.
  - destruct (f x), (f y); reflexivity.
  - rewrite IH1. exact IH2.
Qed.

Lemma filter_map_length {A B : Type} (f : B -> bool) (g : A -> B) (l : list A) :
  length (List.filter f (map g l)) = length (List.filter (fun x => f (g x)) l).
Proof.
  induction l as [|x l IH]; simpl; [reflexivity|].
  destruct (f (g x)); simpl; rewrite IH; reflexivity.
Qed.

Lemma filter_twice {A : Type} (f g : A -> bool) (l : list A) :
  List.filter f (List.filter g l) = List.filter (fun x => g x && f x) l.
Proof.
  induction l as [|x l IH]; simpl; [reflexivity|].
  destruct (g x); simpl; [destruct (f x)|]; rewrite IH; reflexivity.
Qed.

(** The count that [produceEdition] takes from the answer of the query is the
    number of normal editions that the collection holds for the date: the
    order of the answer plays no part. *)
Lemma normal_posts_counted date collection :
  length (List.filter is_normal (query_by_date date collection))
  = normal_editions date collection.
Proof.
  unfold query_by_date, normal_editions.
  rewrite filter_map_length.
  rewrite (filter_length_Permutation _ _ _ (merge_sort_Permutation _ _)).
  rewrite filter_twice. reflexivity.
Qed.

Lemma timestamp_run t w :
  valid_time t -> lift (toISOString (new_Date (Int t))) w = (Ok (iso_string t), w).
Proof. intros H. unfold lift. rewrite (new_Date_valid _ H). reflexivity. Qed.

(** A dry run: two readings of the clock, nothing else. *)
Lemma produceEdition_dry_run input w config w0 days :
  getCloudConfig w = (Ok config, w0) ->
  dryRun config = true ->
  assetRetentionDays config = Int days ->
  valid_time (reading 0 w) ->
  valid_time (reading 1 w + days * msPerDay) ->
  produceEdition input w
  = (Ok (assembled input config 0 (iso_string (reading 0 w))
           (iso_string (reading 1 w + days * msPerDay))),
     tick (tick w0)).
Proof.
  intros Hcfg Hdry Hdays Ht0 Ht1.
  pose proof (getCloudConfig_returns _ _ _ Hcfg) as Hw0.
  assert (Hc : configInstance w0 = Some config) by (rewrite Hw0; reflexivity).
  assert (Hr0 : reading 0 w0 = reading 0 w) by (rewrite Hw0; reflexivity).
  assert (Hr1 : reading 1 w0 = reading 1 w) by (rewrite Hw0; reflexivity).
  unfold produceEdition.
  rewrite (bind_returns _ _ _ _ _ Hcfg).
  rewrite (bind_returns _ _ _ _ _ (Date_now_run w0)). rewrite Hr0.
  rewrite (bind_returns _ _ _ _ _ (timestamp_run _ _ Ht0)).
  rewrite (bind_returns _ _ _ _ _ (getEditionsByDate_dry_run _ (tick w0) config Hc Hdry)).
  erewrite bind_returns; cycle 1.
  { apply (uploadImage_dry_run _ _ _ _ (tick w0) config days Hc Hdry Hdays).
    rewrite reading_tick, Hr1. exact Ht1. }
  rewrite (bind_returns _ _ _ _ _
             (writeEdition_dry_run _ (tick (tick w0)) config Hc Hdry)).
  unfold ret, assembled. rewrite reading_tick, Hr1. reflexivity.
Qed.

(** A run against the stores: the query, the upload, the write. *)
Lemma produceEdition_live input w config w0 days :
  getCloudConfig w = (Ok config, w0) ->
  dryRun config = false ->
  stores_up w ->
  assetRetentionDays config = Int days ->
  valid_time (reading 0 w) ->
  valid_time (reading 1 w + days * msPerDay) ->
  let edition :=
    assembled input config (normal_editions (ProducerInput.date input) (docs w))
      (iso_string (reading 0 w)) (iso_string (reading 1 w + days * msPerDay)) in
  produceEdition input w
  = (Ok edition,
     after_write config edition
       (after_upload config (AssetMetadata.image_path (CloudEdition.assets edition))
          (ProducerInput.image_buffer input)
          (after_query config (ProducerInput.date input) (tick w0)))).
Proof.
  intros Hcfg Hdry (Hsu & Hbe & Hfu) Hdays Ht0 Ht1 edition.
  pose proof (getCloudConfig_returns _ _ _ Hcfg) as Hw0.
  assert (Hc : configInstance w0 = Some config) by (rewrite Hw0; reflexivity).
  assert (Hr0 : reading 0 w0 = reading 0 w) by (rewrite Hw0; reflexivity).
  assert (Hr1 : reading 1 w0 = reading 1 w) by (rewrite Hw0; reflexivity).
  assert (Hd : docs w0 = docs w) by (rewrite Hw0; reflexivity).
  assert (Hsu0 : storage_up w0 = true) by (rewrite Hw0; exact Hsu).
  assert (Hbe0 : bucket_exists w0 = true) by (rewrite Hw0; exact Hbe).
  assert (Hfu0 : firestore_up w0 = true) by (rewrite Hw0; exact Hfu).
  unfold produceEdition.
  rewrite (bind_returns _ _ _ _ _ Hcfg).
  rewrite (bind_returns _ _ _ _ _ (Date_now_run w0)). rewrite Hr0.
  rewrite (bind_returns _ _ _ _ _ (timestamp_run _ _ Ht0)).
  rewrite (bind_returns _ _ _ _ _
             (getEditionsByDate_live _ (tick w0) config Hc Hdry Hfu0)).
  change (docs (tick w0)) with (docs w0). rewrite Hd, normal_posts_counted.
  erewrite bind_returns; cycle 1.
  { apply (uploadImage_live _ _ _ _
             (after_query config (ProducerInput.date input) (tick w0)) config days
             Hc Hdry Hsu0 Hbe0 Hdays).
    change (reading 0 (after_query config (ProducerInput.date input) (tick w0)))
      with (reading 0 (tick w0)).
    rewrite reading_tick, Hr1. exact Ht1. }
  change (reading 0 (after_query config (ProducerInput.date input) (tick w0)))
    with (reading 0 (tick w0)).
  rewrite reading_tick, Hr1.
  erewrite bind_returns; cycle 1.
  { apply (writeEdition_live _ _ config); [exact Hc | exact Hdry | exact Hfu0]. }
  reflexivity.
Qed.

(** Whenever [produceEdition] returns, the configuration was resolved, the
    clock fitted and, unless the run was dry, the stores answered. *)
Lemma produceEdition_Ok_inv input w e w' :
  produceEdition input w = (Ok e, w') ->
  exists config w0, getCloudConfig w = (Ok config, w0) /\ can_produce config w.
Proof.
  unfold produceEdition. intros H.
  apply bind_Ok_inv in H as (config & w0 & Hcfg & H).
  exists config, w0. split; [exact Hcfg|].
  pose proof (getCloudConfig_returns _ _ _ Hcfg) as Hw0.
  assert (Hc : configInstance w0 = Some config) by (rewrite Hw0; reflexivity).
  apply bind_Ok_inv in H as (now & w1 & Hnow & H).
  rewrite Date_now_run in Hnow. injection Hnow as <- <-.
  apply bind_Ok_inv in H as (ts & w2 & Hts & H).
  unfold lift in Hts. injection Hts as Hts <-.
  apply new_Date_Ok_inv in Hts as (t & [= <-] & Ht0 & ->).
  apply bind_Ok_inv in H as (l & w3 & Hq & H).
  apply bind_Ok_inv in H as (r & w4 & Hu & H).
  apply bind_Ok_inv in H as (u & w5 & Hw & H).
  apply (getEditionsByDate_Ok_inv _ _ config) in Hq; [|exact Hc].
  assert (Hr0 : reading 0 w0 = reading 0 w) by (rewrite Hw0; reflexivity).
  assert (Hr1 : reading 1 w0 = reading 1 w) by (rewrite Hw0; reflexivity).
  rewrite Hr0 in Ht0.
  destruct Hq as [(Hdry & -> & ->)|(Hdry & Hfu & -> & ->)].
  - apply (uploadImage_Ok_inv _ _ _ _ _ config) in Hu; [|exact Hc].
    destruct Hu as (days & Hdays & Ht1 & _ & _).
    rewrite reading_tick, Hr1 in Ht1.
    split; [exists days; auto | congruence].
  - apply (uploadImage_Ok_inv _ _ _ _ _ config) in Hu; [|exact Hc].
    destruct Hu as (days & Hdays & Ht1 & _ & [(Hdry' & _)|(_ & Hsu & Hbe & _)]);
      [congruence|].
    change (reading 0 (after_query config (ProducerInput.date input) (tick w0)))
      with (reading 0 (tick w0)) in Ht1.
    rewrite reading_tick, Hr1 in Ht1.
    split; [exists days; auto|]. intros _.
    rewrite Hw0 in Hsu, Hbe, Hfu. simpl in Hsu, Hbe, Hfu.
    repeat split; assumption.
Qed.

(** What a production returns, in either mode. *)
Lemma produceEdition_returns input w config w0 :
  getCloudConfig w = (Ok config, w0) -> can_produce config w ->
  exists days e w',
    assetRetentionDays config = Int days /\
    produceEdition input w = (Ok e, w') /\
    e = assembled input config
          (if dryRun config then 0 else normal_editions (ProducerInput.date input) (docs w))
          (iso_string (reading 0 w)) (iso_string (reading 1 w + days * msPerDay)) /\
    w' = if dryRun config then tick (tick w0)
         else after_write config e
                (after_upload config (AssetMetadata.image_path (CloudEdition.assets e))
                   (ProducerInput.image_buffer input)
                   (after_query config (ProducerInput.date input) (tick w0))).
Proof.
  intros Hcfg ((days & Hdays & Ht0 & Ht1) & Hup).
  exists days. destruct (dryRun config) eqn:Hdry.
  - eexists _, _. split; [exact Hdays|]. split; [|split; reflexivity].
    apply (produceEdition_dry_run _ _ _ _ _ Hcfg Hdry Hdays Ht0 Ht1).
  - eexists _, _. split; [exact Hdays|]. split; [|split; reflexivity].
    apply (produceEdition_live _ _ _ _ _ Hcfg Hdry (Hup eq_refl) Hdays Ht0 Ht1).
Qed.

Lemma produceEdition_returns_iff input w config w0 :
  getCloudConfig w = (Ok config, w0) ->
  (exists e w', produceEdition input w = (Ok e, w')) <-> can_produce config w.
Proof.
  intros Hcfg. split.
  - intros (e & w' & H). apply produceEdition_Ok_inv in H as (c & w1 & Hc & H).
    rewrite Hcfg in Hc. injection Hc as <- <-. exact H.
  - intros H. destruct (produceEdition_returns input _ _ _ Hcfg H)
      as (days & e & w' & _ & He & _). eauto.
Qed.

(** ** Sample runs *)

Example sample_docs_count : normal_editions "2025-12-24" sample_docs = 1.
Proof. vm_compute. reflexivity. Qed.

Example sample_docs_other_day : normal_editions "2025-12-23" sample_docs = 0.
Proof. vm_compute. reflexivity. Qed.

Example sample_live_config :
  getCloudConfig (sample_world live_env frozen_clock sample_docs)
  = (Ok (loadCloudConfig live_env),
     set_configInstance (Some (loadCloudConfig live_env))
       (sample_world live_env frozen_clock sample_docs)).
Proof. vm_compute. reflexivity. Qed.

Example sample_live_run :
  exists e w', produceEdition (sample_input Normal)
                 (sample_world live_env frozen_clock sample_docs) = (Ok e, w') /\
    CloudEdition.edition_id e = "2025-12-24-normal-2" /\
    AssetMetadata.image_path (CloudEdition.assets e) = "2025/12/24/normal-2.png" /\
    AssetMetadata.expires_at (CloudEdition.assets e) = "2026-01-23T00:00:00.000Z".
Proof. eexists _, _. vm_compute. repeat split. Qed.

Lemma sample_can_produce env clock docs days :
  assetRetentionDays (loadCloudConfig env) = Int days ->
  valid_time (clock 0) -> valid_time (clock 1 + days * msPerDay) ->
  can_produce (loadCloudConfig env) (sample_world env clock docs).
Proof.
  intros Hdays Ht0 Ht1. split.
  - exists days. auto.
  - intros _. repeat split.
Qed.

Lemma sample_valid_time t :
  (Z.abs t <=? maxTime)%Z = true -> valid_time t.
Proof. unfold valid_time. intros H. apply Z.leb_le, H. Qed.

(** A sample world whose configuration keeps assets for [days] days can
    produce: the two readings are evaluated. *)
Ltac sample_ready days :=
  apply (sample_can_produce _ _ _ days);
  [reflexivity | apply sample_valid_time; reflexivity
   | apply sample_valid_time; reflexivity].

(** ** The identifier of a produced edition *)

(** In a dry run the query is skipped: with one normal edition of the day in
    the store, the identifier is that of a first edition, not of a second.
    This is the input on which the claim C1, as stated, fails. *)
Lemma produceEdition_dry_run_skips_count :
  normal_editions "2025-12-24" sample_docs = 1 /\
  exists e w',
    produceEdition (sample_input Normal) (sample_world dry_env frozen_clock sample_docs)
    = (Ok e, w') /\
    CloudEdition.edition_id e = "2025-12-24-normal-1" /\
    CloudEdition.edition_id e <> "2025-12-24-normal-2".
Proof.
  split; [vm_compute; reflexivity|].
  eexists _, _. split; [vm_compute; reflexivity|]. split; [reflexivity | discriminate].
Qed.

(** C1 (amended): when a production of a normal edition for the date D can
    go ahead, it returns an edition whose identifier is "D-normal-{k+1}",
    where k is the number of normal editions that the store holds for D when
    the run is not dry, and 0 in a dry run, which does not read the store.
    Editions of other dates and essence editions are not counted. *)
Theorem produceEdition_normal_id input w config w0 :
  getCloudConfig w = (Ok config, w0) ->
  can_produce config w ->
  ProducerInput.post_type input = Normal ->
  let k := if dryRun config then 0
           else normal_editions (ProducerInput.date input) (docs w) in
  exists e w',
    produceEdition input w = (Ok e, w') /\
    CloudEdition.edition_id e
    = ProducerInput.date input +:+ "-normal-" +:+ decimal (N.of_nat (k + 1)).
Proof.
  intros Hcfg Hcan Htype k.
  destruct (produceEdition_returns input _ _ _ Hcfg Hcan)
    as (days & e & w' & _ & Hrun & -> & _).
  eexists _, w'. split; [exact Hrun|].
  unfold assembled. simpl. rewrite Htype. reflexivity.
Qed.

Lemma produceEdition_normal_id_witness :
  exists e w',
    produceEdition (sample_input Normal) (sample_world live_env frozen_clock sample_docs)
    = (Ok e, w') /\
    CloudEdition.edition_id e = "2025-12-24-normal-2".
Proof.
  refine (produceEdition_normal_id (sample_input Normal)
            (sample_world live_env frozen_clock sample_docs)
            (loadCloudConfig live_env) _ sample_live_config _ eq_refl).
  sample_ready 30%Z.
Defined.

(** C2: when a production of an essence edition for the date D can go ahead,
    it returns an edition whose identifier is "D-essence", whatever the store
    holds. *)
Theorem produceEdition_essence_id input w config w0 :
  getCloudConfig w = (Ok config, w0) ->
  can_produce config w ->
  ProducerInput.post_type input = Essence ->
  exists e w',
    produceEdition input w = (Ok e, w') /\
    CloudEdition.edition_id e = ProducerInput.date input +:+ "-essence".
Proof.
  intros Hcfg Hcan Htype.
  destruct (produceEdition_returns input _ _ _ Hcfg Hcan)
    as (days & e & w' & _ & Hrun & -> & _).
  eexists _, w'. split; [exact Hrun|].
  unfold assembled. simpl. rewrite Htype. reflexivity.
Qed.

Lemma produceEdition_essence_id_witness :
  exists e w',
    produceEdition (sample_input Essence) (sample_world live_env frozen_clock sample_docs)
    = (Ok e, w') /\
    CloudEdition.edition_id e = "2025-12-24-essence".
Proof.
  refine (produceEdition_essence_id (sample_input Essence)
            (sample_world live_env frozen_clock sample_docs)
            (loadCloudConfig live_env) _ sample_live_config _ eq_refl).
  sample_ready 30%Z.
Defined.

(** ** Dry runs *)

Lemma in_mode_config flag config w :
  getCloudConfig (in_mode flag config w)
  = (Ok (with_dryRun flag config), in_mode flag config w).
Proof. reflexivity. Qed.

Lemma uploadImage_dry_run_world buf date type index w config r w1 :
  configInstance w = Some config -> dryRun config = true ->
  uploadImage buf date type index w = (r, w1) -> w1 = tick w.
Proof.
  intros Hc Hdry. unfold uploadImage.
  rewrite (bind_returns _ _ _ _ _ (getCloudConfig_cached _ _ Hc)). rewrite Hdry.
  unfold expiry, bind, Date_now, lift, ret.
  destruct (toISOString _); intros [= <- <-]; reflexivity.
Qed.

(** A dry run, whether it returns or throws, sends nothing and leaves both
    stores as they were. *)
Lemma produceEdition_dry_run_silent input config w r wd :
  produceEdition input (in_mode true config w) = (r, wd) ->
  net wd = net w /\ docs wd = docs w /\ objects wd = objects w.
Proof.
  set (W := in_mode true config w). set (c := with_dryRun true config).
  assert (Hc : configInstance W = Some c) by reflexivity.
  assert (Hdry : dryRun c = true) by reflexivity.
  unfold produceEdition.
  rewrite (bind_returns _ _ _ _ _ (in_mode_config true config w)). fold W c.
  rewrite (bind_returns _ _ _ _ _ (Date_now_run W)).
  destruct (toISOString (new_Date (Int (reading 0 W)))) as [ts|e] eqn:Hts.
  2:{ erewrite bind_throws by reflexivity. intros [= <- <-]. repeat split. }
  erewrite bind_returns by reflexivity.
  rewrite (bind_returns _ _ _ _ _ (getEditionsByDate_dry_run _ (tick W) c Hc Hdry)).
  match goal with
  | |- bind (uploadImage ?b ?d ?t ?i) _ _ = _ -> _ =>
      destruct (uploadImage b d t i (tick W)) as [[u|e] w1] eqn:Hup;
      apply (uploadImage_dry_run_world _ _ _ _ _ c) in Hup as Hw1;
      [subst w1 | exact Hc | exact Hdry | subst w1 | exact Hc | exact Hdry]
  end.
  2:{ erewrite bind_throws by exact Hup. intros [= <- <-]. repeat split. }
  erewrite bind_returns by exact Hup.
  rewrite (bind_returns _ _ _ _ _ (writeEdition_dry_run _ (tick (tick W)) c Hc Hdry)).
  unfold ret. intros [= <- <-]. repeat split.
Qed.

Lemma can_produce_dry config w :
  clock_fits config w -> can_produce (with_dryRun true config) (in_mode true config w).
Proof.
  intros (days & Hdays & Ht0 & Ht1). split.
  - exists days. auto.
  - discriminate.
Qed.

(** ** The expiration of the asset *)

(** C4: with a retention of 30 days and an edition created at
    2025-12-24T00:00:00.000Z, [expires_at] should be [created_at] plus 30
    days, 2026-01-23T00:00:00.000Z, as the comment on [expires_at] in the
    schema says too.  The code does not compute that: when the clock has
    advanced by the time of the upload, here by two seconds, the edition it
    returns has that [created_at] and expires at 2026-01-23T00:00:02.000Z,
    because [uploadImage] reads the clock again instead of taking the
    timestamp. *)
Theorem expires_at_follows_upload_clock :
  assetRetentionDays (loadCloudConfig live_env) = Int 30 /\
  iso_string christmas_eve = "2025-12-24T00:00:00.000Z" /\
  iso_string (christmas_eve + 30 * msPerDay) = "2026-01-23T00:00:00.000Z" /\
  exists e w',
    produceEdition (sample_input Normal) (sample_world live_env running_clock ∅)
    = (Ok e, w') /\
    SourceMetadata.created_at (CloudEdition.source_meta e) = "2025-12-24T00:00:00.000Z" /\
    AssetMetadata.expires_at (CloudEdition.assets e) = "2026-01-23T00:00:02.000Z" /\
    AssetMetadata.expires_at (CloudEdition.assets e) <> "2026-01-23T00:00:00.000Z".
Proof.
  split; [reflexivity|]. split; [vm_compute; reflexivity|].
  split; [vm_compute; reflexivity|].
  eexists _, _. split; [vm_compute; reflexivity|].
  split; [reflexivity|]. split; [reflexivity | discriminate].
Qed.

(** What the code computes: when a production can go ahead with a retention
    of [days] days, the timestamp and [created_at] of the edition are the first
    reading of the clock, and [expires_at] is the reading that [uploadImage]
    takes (after the upload, unless the run is dry) plus [days] days; the two
    agree with the schema only when both readings are the same instant. *)
Lemma expires_at_upload_time input w config w0 days :
  getCloudConfig w = (Ok config, w0) ->
  can_produce config w ->
  assetRetentionDays config = Int days ->
  exists e w',
    produceEdition input w = (Ok e, w') /\
    CloudEdition.timestamp e = iso_string (reading 0 w) /\
    SourceMetadata.created_at (CloudEdition.source_meta e) = iso_string (reading 0 w) /\
    AssetMetadata.expires_at (CloudEdition.assets e)
    = iso_string (reading 1 w + days * msPerDay) /\
    (reading 1 w = reading 0 w ->
     AssetMetadata.expires_at (CloudEdition.assets e)
     = iso_string (reading 0 w + days * msPerDay)).
Proof.
  intros Hcfg Hcan Hdays.
  destruct (produceEdition_returns input _ _ _ Hcfg Hcan)
    as (days' & e & w' & Hdays' & Hrun & -> & _).
  assert (days' = days) as -> by congruence.
  eexists _, w'. split; [exact Hrun|].
  unfold assembled. simpl. repeat split. intros ->. reflexivity.
Qed.

Lemma expires_at_upload_time_witness :
  exists e w',
    produceEdition (sample_input Normal) (sample_world live_env frozen_clock ∅)
    = (Ok e, w') /\
    CloudEdition.timestamp e = "2025-12-24T00:00:00.000Z" /\
    SourceMetadata.created_at (CloudEdition.source_meta e) = "2025-12-24T00:00:00.000Z" /\
    AssetMetadata.expires_at (CloudEdition.assets e) = "2026-01-23T00:00:00.000Z".
Proof.
  destruct (expires_at_upload_time (sample_input Normal)
              (sample_world live_env frozen_clock ∅) (loadCloudConfig live_env)
              (set_configInstance (Some (loadCloudConfig live_env))
                 (sample_world live_env frozen_clock ∅)) 30)
    as (e & w' & Hrun & Hts & Hcreated & _ & Hexp).
  - vm_compute. reflexivity.
  - sample_ready 30%Z.
  - reflexivity.
  - exists e, w'. split; [exact Hrun|]. split; [exact Hts|]. split; [exact Hcreated|].
    exact (Hexp eq_refl).
Defined.

(** ** The storage path *)

Lemma uploadImage_resolved buf date type index w config w0 :
  getCloudConfig w = (Ok config, w0) ->
  uploadImage buf date type index w = uploadImage buf date type index w0.
Proof.
  intros Hcfg.
  assert (Hc : configInstance w0 = Some config).
  { apply getCloudConfig_returns in Hcfg as ->. reflexivity. }
  unfold uploadImage.
  rewrite (bind_returns _ _ _ _ _ Hcfg).
  rewrite (bind_returns _ _ _ _ _ (getCloudConfig_cached _ _ Hc)). reflexivity.
Qed.

(** C8: for a date of the form YYYY-MM-DD, [uploadImage] returns the path
    "{year}/{month}/{day}/{filename}", where the file name is "essence.png"
    for an essence and "normal-{index}.png" for a normal post: a function of
    the date, the type and the index alone. *)
Theorem uploadImage_path buf y m d type index i w config w0 days :
  is_date y m d = true ->
  (type = Normal -> index = Some i) ->
  getCloudConfig w = (Ok config, w0) ->
  assetRetentionDays config = Int days ->
  valid_time (reading 0 w + days * msPerDay) ->
  (dryRun config = false -> storage_up w = true /\ bucket_exists w = true) ->
  exists r w',
    uploadImage buf (y +:+ "-" +:+ m +:+ "-" +:+ d) type index w = (Ok r, w') /\
    UploadResult.path r
    = y +:+ "/" +:+ m +:+ "/" +:+ d +:+ "/"
      +:+ match type with
          | Essence => "essence.png"
          | Normal => "normal-" +:+ decimal (N.of_nat i) +:+ ".png"
          end.
Proof.
  intros Hdate Hindex Hcfg Hdays Ht Hup.
  rewrite (uploadImage_resolved _ _ _ _ _ _ _ Hcfg).
  pose proof (getCloudConfig_returns _ _ _ Hcfg) as Hw0.
  assert (Hc : configInstance w0 = Some config) by (rewrite Hw0; reflexivity).
  assert (Hr0 : reading 0 w0 = reading 0 w) by (rewrite Hw0; reflexivity).
  rewrite <- Hr0 in Ht.
  assert (Hpath : storage_path (y +:+ "-" +:+ m +:+ "-" +:+ d) type index
                  = y +:+ "/" +:+ m +:+ "/" +:+ d +:+ "/"
                    +:+ match type with
                        | Essence => "essence.png"
                        | Normal => "normal-" +:+ decimal (N.of_nat i) +:+ ".png"
                        end).
  { rewrite (storage_path_of_date _ _ _ _ _ Hdate).
    destruct type; [rewrite (Hindex eq_refl)|]; reflexivity. }
  destruct (dryRun config) eqn:Hdry.
  - eexists _, _. split.
    + apply (uploadImage_dry_run _ _ _ _ _ _ _ Hc Hdry Hdays Ht).
    + exact Hpath.
  - destruct (Hup eq_refl) as [Hsu Hbe].
    rewrite Hw0 in Hc. eexists _, _. split.
    + apply (uploadImage_live _ _ _ _ w0 config days); rewrite ?Hw0; auto.
      rewrite Hw0 in Ht. exact Ht.
    + exact Hpath.
Qed.

Lemma uploadImage_path_witness :
  exists r w',
    uploadImage (ProducerInput.image_buffer (sample_input Normal)) "2025-12-24" Normal
      (Some 1) (sample_world live_env frozen_clock ∅) = (Ok r, w') /\
    UploadResult.path r = "2025/12/24/normal-1.png".
Proof.
  refine (uploadImage_path _ "2025" "12" "24" Normal (Some 1) 1
            (sample_world live_env frozen_clock ∅) (loadCloudConfig live_env) _ 30
            eq_refl (fun _ => eq_refl) _ eq_refl _ (fun _ => conj eq_refl eq_refl)).
  - vm_compute. reflexivity.
  - apply sample_valid_time. reflexivity.
Defined.

(** ** The content of an edition *)

Lemma persisted_emojis e :
  populated "emojis" (removeUndefined (edition_to_js e))
  = match CloudEdition.emojis e with Some _ => true | None => false end.
Proof.
  destruct e as [id date ts type [l|] [s|] a sm]; reflexivity.
Qed.

Lemma persisted_essence e :
  populated "essence" (removeUndefined (edition_to_js e))
  = match CloudEdition.essence e with Some _ => true | None => false end.
Proof.
  destruct e as [id date ts type [l|] [s|] a sm]; reflexivity.
Qed.

Lemma present_is_Some {A : Type} (o : option A) :
  match o with Some _ => true | None => false end = true <-> is_Some o.
Proof.
  destruct o as [a|]; split; intros H; eauto; [discriminate|].
  destruct H as [a H]. discriminate.
Qed.

(** C9: when a production can go ahead on a request that carries the content
    of its type, the edition it returns has [emojis] exactly when the type is
    normal and [essence] exactly when the type is essence; and, unless the
    run is dry, the document stored under the identifier of the edition is
    the stripped edition, in which the same holds. *)
Theorem produceEdition_one_content input w config w0 :
  getCloudConfig w = (Ok config, w0) ->
  can_produce config w ->
  match ProducerInput.post_type input with
  | Normal => is_Some (ProducerInput.emojis input)
  | Essence => is_Some (ProducerInput.essence input)
  end ->
  exists e w',
    produceEdition input w = (Ok e, w') /\
    (is_Some (CloudEdition.emojis e) <-> ProducerInput.post_type input = Normal) /\
    (is_Some (CloudEdition.essence e) <-> ProducerInput.post_type input = Essence) /\
    (dryRun config = false ->
     exists doc,
       docs w' !! CloudEdition.edition_id e = Some doc /\
       doc = removeUndefined (edition_to_js e) /\
       (populated "emojis" doc = true <-> ProducerInput.post_type input = Normal) /\
       (populated "essence" doc = true <-> ProducerInput.post_type input = Essence)).
Proof.
  intros Hcfg Hcan Hcontent.
  destruct (produceEdition_returns input _ _ _ Hcfg Hcan)
    as (days & e & w' & _ & Hrun & He & Hw').
  assert (Hemojis : is_Some (CloudEdition.emojis e)
                    <-> ProducerInput.post_type input = Normal).
  { rewrite He. unfold assembled. simpl.
    destruct (ProducerInput.post_type input); split; intros H; auto.
    - destruct H as [x H]. discriminate.
    - discriminate. }
  assert (Hessence : is_Some (CloudEdition.essence e)
                     <-> ProducerInput.post_type input = Essence).
  { rewrite He. unfold assembled. simpl.
    destruct (ProducerInput.post_type input); split; intros H; auto.
    - destruct H as [x H]. discriminate.
    - discriminate. }
  exists e, w'. split; [exact Hrun|]. split; [exact Hemojis|]. split; [exact Hessence|].
  intros Hdry. rewrite Hdry in Hw'. exists (removeUndefined (edition_to_js e)).
  split; [|split; [reflexivity|]].
  - rewrite Hw'. unfold after_write. simpl. apply lookup_insert_eq.
  - rewrite persisted_emojis, persisted_essence, <- Hemojis, <- Hessence.
    split; apply present_is_Some.
Qed.

Lemma produceEdition_one_content_witness :
  exists e w',
    produceEdition (sample_input Normal) (sample_world live_env frozen_clock sample_docs)
    = (Ok e, w') /\
    is_Some (CloudEdition.emojis e) /\ CloudEdition.essence e = None /\
    exists doc,
      docs w' !! CloudEdition.edition_id e = Some doc /\
      populated "emojis" doc = true /\ populated "essence" doc = false.
Proof.
  destruct (produceEdition_one_content (sample_input Normal)
              (sample_world live_env frozen_clock sample_docs)
              (loadCloudConfig live_env) _ sample_live_config) as
    (e & w' & Hrun & Hemojis & Hessence & Hdoc).
  - sample_ready 30%Z.
  - simpl. eauto.
  - destruct (Hdoc eq_refl) as (doc & Hlookup & _ & Hdoc_emojis & Hdoc_essence).
    exists e, w'. split; [exact Hrun|].
    split; [apply Hemojis; reflexivity|]. split.
    + destruct (CloudEdition.essence e) as [x|] eqn:E; [|reflexivity].
      assert (H : Normal = Essence) by (apply Hessence; eauto). discriminate.
    + exists doc. split; [exact Hlookup|]. split; [apply Hdoc_emojis; reflexivity|].
      destruct (populated "essence" doc) eqn:E; [|reflexivity].
      assert (H : Normal = Essence) by (apply Hdoc_essence; reflexivity). discriminate.
Defined.

(** ** The health check *)

(** C10: in a dry run [healthCheck] returns [true] without a request to
    either store: [checkBucketAccess] and [checkDatabaseAccess] both return
    [true], whatever the state of the bucket and of the database. *)
Theorem healthCheck_dry_run w config w0 :
  getCloudConfig w = (Ok config, w0) ->
  dryRun config = true ->
  checkBucketAccess w = (Ok true, w0) /\
  checkDatabaseAccess w0 = (Ok true, w0) /\
  healthCheck w = (Ok true, w0) /\
  net w0 = net w.
Proof.
  intros Hcfg Hdry.
  pose proof (getCloudConfig_returns _ _ _ Hcfg) as Hw0.
  assert (Hc : configInstance w0 = Some config) by (rewrite Hw0; reflexivity).
  assert (Hbucket : checkBucketAccess w = (Ok true, w0)).
  { unfold checkBucketAccess. rewrite (bind_returns _ _ _ _ _ Hcfg), Hdry. reflexivity. }
  pose proof (checkDatabaseAccess_dry_run _ _ Hc Hdry) as Hdatabase.
  split; [exact Hbucket|]. split; [exact Hdatabase|]. split.
  - unfold healthCheck.
    rewrite (bind_returns _ _ _ _ _ Hbucket), (bind_returns _ _ _ _ _ Hdatabase).
    reflexivity.
  - rewrite Hw0. reflexivity.
Qed.

Lemma healthCheck_dry_run_witness :
  storage_up (offline_world dry_env frozen_clock) = false /\
  bucket_exists (offline_world dry_env frozen_clock) = false /\
  firestore_up (offline_world dry_env frozen_clock) = false /\
  exists w0, healthCheck (offline_world dry_env frozen_clock) = (Ok true, w0) /\ net w0 = [].
Proof.
  split; [reflexivity|]. split; [reflexivity|]. split; [reflexivity|].
  eexists. 
  refine (proj2 (proj2 (healthCheck_dry_run (offline_world dry_env frozen_clock)
                          (loadCloudConfig dry_env) _ _ eq_refl))).
  vm_compute. reflexivity.
Defined.

(** Out of a dry run, the health check reports stores that cannot be
    reached. *)
Example healthCheck_offline :
  fst (healthCheck (offline_world live_env frozen_clock)) = Ok false.
Proof. vm_compute. reflexivity. Qed.

(** A retention that is no number passes the validation and stops the
    production later: the image is saved, then the expiry cannot be
    formatted, and no document is written. *)
Example produceEdition_retention_NaN :
  let env := {[ "ASSET_RETENTION_DAYS" := "abc" ]} in
  let outcome := produceEdition (sample_input Normal) (sample_world env frozen_clock ∅) in
  fst outcome = Throw RangeError /\
  is_Some (objects (snd outcome) !! "2025/12/24/normal-1.png") /\
  docs (snd outcome) = ∅.
Proof.
  split; [vm_compute; reflexivity|]. split; [|vm_compute; reflexivity].
  eexists. vm_compute. reflexivity.
Qed.

(** * Further properties *)

From Stdlib Require DecimalPos DecimalN.

(** ** Numbers in texts *)

Lemma parse_digits_stops rest acc :
  no_digit_ahead rest = true -> parse_digits rest acc = acc.
Proof.
  destruct rest as [|c rest]; simpl; [reflexivity|].
  intros H. apply negb_true_iff in H. rewrite H. reflexivity.
Qed.

Lemma parse_digits_decimal d rest acc :
  parse_digits (NilEmpty.string_of_uint d +:+ rest) (Some acc)
  = parse_digits rest (Some (digits_after d acc)).
Proof.
  revert acc. induction d; intros acc; simpl; try apply IHd. reflexivity.
Qed.

Lemma digits_after_positive d p :
  digits_after d (Z.pos p) = Z.pos (Pos.of_uint_acc d p).
Proof.
  revert p. induction d; intros p; simpl; try (rewrite <- IHd; f_equal; lia).
  reflexivity.
Qed.

Lemma digits_after_zero d : digits_after d 0 = Z.of_N (Pos.of_uint d).
Proof.
  induction d; simpl; try exact IHd; try apply digits_after_positive. reflexivity.
Qed.

Lemma to_uint_not_Nil n : N.to_uint n <> Decimal.Nil.
Proof.
  destruct n as [|p]; [discriminate|]. apply DecimalPos.Unsigned.to_uint_nonnil.
Qed.

Lemma decimal_digits n :
  decimal n = NilEmpty.string_of_uint (N.to_uint n).
Proof.
  unfold decimal, NilZero.string_of_uint.
  pose proof (to_uint_not_Nil n) as H. destruct (N.to_uint n); congruence.
Qed.

Lemma decimal_head n : exists c s, decimal n = String c s /\ is_digit c = true.
Proof.
  rewrite decimal_digits. pose proof (to_uint_not_Nil n) as H.
  destruct (N.to_uint n); [congruence| |  | | | | | | | | ]; simpl; eauto.
Qed.

Lemma parse_digits_of_decimal n rest :
  no_digit_ahead rest = true ->
  parse_digits (decimal n +:+ rest) None = Some (Z.of_N n).
Proof.
  intros Hrest. rewrite decimal_digits.
  pose proof (to_uint_not_Nil n) as Hnil.
  assert (H : forall d, d <> Decimal.Nil ->
            parse_digits (NilEmpty.string_of_uint d +:+ rest) None
            = Some (digits_after d 0)).
  { intros d Hd.
    destruct d; [congruence| | | | | | | | | | ]; simpl;
      rewrite parse_digits_decimal, parse_digits_stops by exact Hrest; reflexivity. }
  rewrite (H _ Hnil), digits_after_zero. f_equal.
  change (Pos.of_uint (N.to_uint n)) with (N.of_uint (N.to_uint n)).
  rewrite DecimalN.Unsigned.of_to. reflexivity.
Qed.

Lemma white_space_digit c s : is_digit c = true -> white_space (String c s) = 0.
Proof.
  destruct c as [[] [] [] [] [] [] [] []]; try discriminate; intros _;
    destruct s as [|b [|c' s]]; reflexivity.
Qed.

Lemma trim_start_digit fuel c s :
  is_digit c = true -> trim_start fuel (String c s) = String c s.
Proof.
  intros H. destruct fuel; cbn [trim_start]; [reflexivity|].
  rewrite (white_space_digit _ _ H). reflexivity.
Qed.

(** Integers below 2^53 in size are doubles. *)
Lemma to_double_exact z : (Z.abs z < 2 ^ 53)%Z -> to_double z = Int z.
Proof.
  intros H. unfold to_double. cbv zeta.
  destruct (Z.ltb_spec (Z.abs z) (2 ^ 53)); [reflexivity | lia].
Qed.

(** Beyond 2^53 the digits are rounded: to the even neighbour at a tie, and
    to an infinity past the largest double. *)
Example to_double_tie : to_double 9007199254740993 = Int 9007199254740992.
Proof. vm_compute. reflexivity. Qed.

Example to_double_tie_up : to_double 9007199254740995 = Int 9007199254740996.
Proof. vm_compute. reflexivity. Qed.

Example to_double_largest :
  to_double (2 ^ 1024 - 2 ^ 970 - 1) = Int ((2 ^ 53 - 1) * 2 ^ 971) /\
  to_double (2 ^ 1024 - 2 ^ 970) = Infinity false /\
  to_double (- 2 ^ 1024) = Infinity true.
Proof. repeat split; vm_compute; reflexivity. Qed.

Lemma parseInt_digit_head c s :
  is_digit c = true ->
  parseInt (String c s)
  = match parse_digits (String c s) None with
    | None => NaN
    | Some n => to_double n
    end.
Proof.
  intros H. unfold parseInt. rewrite (trim_start_digit _ _ _ H).
  destruct c as [[] [] [] [] [] [] [] []]; try discriminate;
    (destruct (parse_digits _ None) as [n|]; [|reflexivity]);
    rewrite Z.mul_1_l; reflexivity.
Qed.

(** [parseInt] reads back the number that a template literal prints, as long
    as it is a double, and stops at the first character that is no digit. *)
Lemma parseInt_reads_decimal n rest :
  no_digit_ahead rest = true -> (n < 2 ^ 53)%N ->
  parseInt (decimal n +:+ rest) = Int (Z.of_N n).
Proof.
  intros Hrest Hn. destruct (decimal_head n) as (c & s & Hd & Hc).
  pose proof (parse_digits_of_decimal n rest Hrest) as Hp.
  rewrite Hd in Hp |- *.
  change (String c s +:+ rest) with (String c (s +:+ rest)) in Hp |- *.
  rewrite (parseInt_digit_head _ _ Hc), Hp. apply to_double_exact. lia.
Qed.

Lemma append_empty s : s +:+ "" = s.
Proof.
  induction s as [|c s IH]; [reflexivity|].
  change (String c (s +:+ "") = String c s). congruence.
Qed.

Lemma decimal_inj a b : decimal a = decimal b -> a = b.
Proof.
  intros H.
  assert (Hp : parse_digits (decimal a +:+ "") None = parse_digits (decimal b +:+ "") None)
    by (rewrite H; reflexivity).
  rewrite !parse_digits_of_decimal in Hp by reflexivity.
  injection Hp as Hp. lia.
Qed.

Lemma decimal_not_empty n : String.eqb (decimal n) "" = false.
Proof. destruct (decimal_head n) as (c & s & -> & _). reflexivity. Qed.

(** ** Configuration: loading and caching *)

Lemma env_or_not_empty env name fallback :
  fallback <> "" -> env_or env name fallback <> "".
Proof.
  intros Hf. unfold env_or. destruct (env !! name) as [value|]; [|exact Hf].
  destruct (String.eqb_spec value ""); [exact Hf | assumption].
Qed.

(** X1: a loaded configuration always has a project and a bucket, since unset
    or empty variables fall back to the defaults; the only error that
    [validateConfig] can raise on it is the one about the retention, and it
    does so only for a retention that is a number below 1 or above 365: a
    finite one, or the infinity that a text of too many digits parses to. *)
Theorem loaded_config_only_retention_error env e :
  validateConfig (loadCloudConfig env) = Throw e ->
  e = ConfigError "ASSET_RETENTION_DAYS must be between 1 and 365" /\
  ((exists days, assetRetentionDays (loadCloudConfig env) = Int days /\
                 (days < 1 \/ 365 < days)%Z) \/
   exists negative, assetRetentionDays (loadCloudConfig env) = Infinity negative).
Proof.
  unfold validateConfig.
  destruct (String.eqb_spec (projectId (loadCloudConfig env)) "") as [Hp|_].
  { exfalso. revert Hp. apply env_or_not_empty. discriminate. }
  destruct (String.eqb_spec (storageBucket (loadCloudConfig env)) "") as [Hb|_].
  { exfalso. revert Hb. apply env_or_not_empty. discriminate. }
  destruct (assetRetentionDays (loadCloudConfig env)) as [|days|negative]; simpl;
    [discriminate| |].
  - destruct (Z.ltb_spec days 1); simpl.
    + intros [= <-]. split; [reflexivity|]. left. exists days. auto.
    + destruct (Z.ltb_spec 365 days); simpl; [|discriminate].
      intros [= <-]. split; [reflexivity|]. left. exists days. auto.
  - destruct negative; simpl; intros [= <-]; (split; [reflexivity|]); right; eauto.
Qed.

Lemma loaded_config_only_retention_error_witness :
  exists e, validateConfig (loadCloudConfig {[ "ASSET_RETENTION_DAYS" := "400" ]}) = Throw e /\
            e = ConfigError "ASSET_RETENTION_DAYS must be between 1 and 365".
Proof.
  eexists. split; [vm_compute; reflexivity|].
  refine (proj1 (loaded_config_only_retention_error
                   {[ "ASSET_RETENTION_DAYS" := "400" ]} _ _)).
  vm_compute. reflexivity.
Defined.

(** X2: a fresh process whose ASSET_RETENTION_DAYS is the decimal text of a
    number from 1 to 365 gets a configuration with that retention. *)
Theorem retention_from_environment w n :
  configInstance w = None ->
  env w !! "ASSET_RETENTION_DAYS" = Some (decimal n) ->
  (1 <= n <= 365)%N ->
  exists config w0,
    getCloudConfig w = (Ok config, w0) /\
    assetRetentionDays config = Int (Z.of_N n) /\
    configInstance w0 = Some config.
Proof.
  intros Hnone Henv Hn.
  assert (Hdays : assetRetentionDays (loadCloudConfig (env w)) = Int (Z.of_N n)).
  { unfold loadCloudConfig, env_or; simpl. rewrite Henv, decimal_not_empty.
    rewrite <- (append_empty (decimal n)). apply parseInt_reads_decimal; [reflexivity|].
    change (2 ^ 53)%N with 9007199254740992%N. lia. }
  assert (Hvalid : validateConfig (loadCloudConfig (env w)) = Ok tt).
  { apply validateConfig_ok_iff. split; [apply env_or_not_empty; discriminate|].
    split; [apply env_or_not_empty; discriminate|].
    right. exists (Z.of_N n). split; [exact Hdays | lia]. }
  exists (loadCloudConfig (env w)), (set_configInstance (Some (loadCloudConfig (env w))) w).
  split; [|split; [exact Hdays | reflexivity]].
  unfold getCloudConfig. rewrite Hnone, Hvalid. reflexivity.
Qed.

Lemma retention_from_environment_witness :
  exists config w0,
    getCloudConfig (sample_world {[ "ASSET_RETENTION_DAYS" := "90" ]} frozen_clock ∅)
    = (Ok config, w0) /\
    assetRetentionDays config = Int 90 /\ configInstance w0 = Some config.
Proof.
  refine (retention_from_environment
            (sample_world {[ "ASSET_RETENTION_DAYS" := "90" ]} frozen_clock ∅) 90
            eq_refl _ _).
  - vm_compute. reflexivity.
  - lia.
Defined.

(** The configuration is resolved once: after [getCloudConfig] has
    returned, it returns the same configuration whatever the environment has
    become, and changes nothing any more. *)
Theorem getCloudConfig_resolved_once w config w0 env' :
  getCloudConfig w = (Ok config, w0) ->
  getCloudConfig (set_env env' w0) = (Ok config, set_env env' w0).
Proof.
  intros H. apply getCloudConfig_returns in H as ->.
  apply getCloudConfig_cached. reflexivity.
Qed.

Lemma getCloudConfig_resolved_once_witness :
  let w0 := set_configInstance (Some (loadCloudConfig live_env))
              (sample_world live_env frozen_clock sample_docs) in
  fst (getCloudConfig (set_env dry_env w0)) = Ok (loadCloudConfig live_env) /\
  dryRun (loadCloudConfig live_env) = false /\
  dryRun (loadCloudConfig dry_env) = true.
Proof.
  intros w0. split; [|split; reflexivity].
  rewrite (getCloudConfig_resolved_once _ _ w0 dry_env sample_live_config).
  reflexivity.
Defined.

(** X3: the instance is stored before it is validated: when the validation
    of a fresh process throws, the next call returns the refused
    configuration without validating it again. *)
Theorem getCloudConfig_keeps_refused_config w e :
  configInstance w = None ->
  validateConfig (loadCloudConfig (env w)) = Throw e ->
  exists w1,
    getCloudConfig w = (Throw e, w1) /\
    getCloudConfig w1 = (Ok (loadCloudConfig (env w)), w1).
Proof.
  intros Hnone Hthrow.
  exists (set_configInstance (Some (loadCloudConfig (env w))) w). split.
  - unfold getCloudConfig. rewrite Hnone, Hthrow. reflexivity.
  - apply getCloudConfig_cached. reflexivity.
Qed.

Lemma getCloudConfig_keeps_refused_config_witness :
  let w := sample_world {[ "ASSET_RETENTION_DAYS" := "0" ]} frozen_clock ∅ in
  exists e w1,
    getCloudConfig w = (Throw e, w1) /\
    exists config, getCloudConfig w1 = (Ok config, w1) /\
                   assetRetentionDays config = Int 0.
Proof.
  intros w.
  destruct (getCloudConfig_keeps_refused_config w
              (ConfigError "ASSET_RETENTION_DAYS must be between 1 and 365") eq_refl)
    as (w1 & H1 & H2).
  - vm_compute. reflexivity.
  - eexists _, w1. split; [exact H1|]. eexists. split; [exact H2|].
    vm_compute. reflexivity.
Defined.

(** ** What a computation leaves alone *)

Section Keeps.
Context {B : Type} (f : World -> B).

Lemma keeps_ret {A : Type} (a : A) : keeps f (ret a).
Proof. intros w r w' [= <- <-]. reflexivity. Qed.

Lemma keeps_lift {A : Type} (r : Result A) : keeps f (lift r).
Proof. intros w r' w' [= <- <-]. reflexivity. Qed.

Lemma keeps_bind {A C : Type} (m : M A) (k : A -> M C) :
  keeps f m -> (forall a, keeps f (k a)) -> keeps f (bind m k).
Proof.
  intros Hm Hk w r w'. unfold bind.
  destruct (m w) as [[a|e] w1] eqn:E.
  - intros H. rewrite (Hk a _ _ _ H). exact (Hm _ _ _ E).
  - intros [= <- <-]. exact (Hm _ _ _ E).
Qed.

Lemma keeps_try_catch {A : Type} (m : M A) (handler : Error -> M A) :
  keeps f m -> (forall e, keeps f (handler e)) -> keeps f (try_catch m handler).
Proof.
  intros Hm Hh w r w'. unfold try_catch.
  destruct (m w) as [[a|e] w1] eqn:E.
  - intros [= <- <-]. exact (Hm _ _ _ E).
  - intros H. rewrite (Hh e _ _ _ H). exact (Hm _ _ _ E).
Qed.

Lemma keeps_fails {A : Type} (m : M A) : keeps f m -> fails_keeping f m.
Proof. intros H w e w'. apply H. Qed.

Lemma fails_keeping_bind {A C : Type} (m : M A) (k : A -> M C) :
  keeps f m -> (forall a, fails_keeping f (k a)) -> fails_keeping f (bind m k).
Proof.
  intros Hm Hk w e w'. unfold bind.
  destruct (m w) as [[a|e0] w1] eqn:E.
  - intros H. rewrite (Hk a _ _ _ H). exact (Hm _ _ _ E).
  - intros [= <- <-]. exact (Hm _ _ _ E).
Qed.

(** The components that the setters below do not touch. *)
Hypothesis f_config : forall c w, f (set_configInstance c w) = f w.
Hypothesis f_tick : forall w, f (tick w) = f w.
Hypothesis f_sent : forall c w, f (sent c w) = f w.

Lemma keeps_getCloudConfig : keeps f getCloudConfig.
Proof using f_config.
  intros w r w'. unfold getCloudConfig.
  destruct (configInstance w); [intros [= <- <-]; reflexivity|].
  destruct (validateConfig _); intros [= <- <-]; apply f_config.
Qed.

Lemma keeps_Date_now : keeps f Date_now.
Proof using f_tick. intros w r w' [= <- <-]. apply f_tick. Qed.

Lemma keeps_expiry config : keeps f (expiry config).
Proof using f_tick.
  apply keeps_bind; [apply keeps_Date_now|]. intros now. apply keeps_lift.
Qed.

Lemma keeps_getEditionsByDate date : keeps f (getEditionsByDate date).
Proof using f_config f_sent.
  apply keeps_bind; [apply keeps_getCloudConfig|]. intros config.
  destruct (dryRun config); [apply keeps_ret|].
  apply keeps_bind.
  - intros w r w'. unfold firestore_get_by_date.
    destruct (firestore_up _); intros [= <- <-]; apply f_sent.
  - intros [|doc rest]; apply keeps_ret.
Qed.
End Keeps.

Lemma keeps_docs_uploadImage buf date type index :
  keeps docs (uploadImage buf date type index).
Proof.
  apply keeps_bind; [apply keeps_getCloudConfig; reflexivity|]. intros config.
  destruct (dryRun config).
  - apply keeps_bind; [apply keeps_expiry; reflexivity | intros s; apply keeps_ret].
  - apply keeps_bind.
    + intros w r w'. unfold file_save. simpl.
      destruct (storage_up w && bucket_exists w); intros [= <- <-]; reflexivity.
    + intros _. apply keeps_bind; [apply keeps_expiry; reflexivity|].
      intros s; apply keeps_ret.
Qed.

Lemma fails_keeping_docs_writeEdition edition :
  fails_keeping docs (writeEdition edition).
Proof.
  apply fails_keeping_bind; [apply keeps_getCloudConfig; reflexivity|]. intros config.
  destruct (dryRun config); [apply keeps_fails, keeps_ret|].
  intros w e w'. unfold doc_set. simpl.
  destruct (firestore_up w); [discriminate|]. intros [= <- <-]. reflexivity.
Qed.

Lemma fails_keeping_then_ret {B A C : Type} (f : World -> B) (m : M A) (c : C) :
  fails_keeping f m -> fails_keeping f (bind m (fun _ => ret c)).
Proof.
  intros Hm w e w'. unfold bind, ret.
  destruct (m w) as [[a|e0] w1] eqn:E; [discriminate|].
  intros [= <- <-]. exact (Hm _ _ _ E).
Qed.

(** X4: a production that throws has written no document: whatever the
    configuration and the state of the stores, the collection is as it was. *)
Theorem produceEdition_failure_writes_nothing input w e w' :
  produceEdition input w = (Throw e, w') -> docs w' = docs w.
Proof.
  revert w e w'. change (fails_keeping docs (produceEdition input)).
  unfold produceEdition.
  apply fails_keeping_bind; [apply keeps_getCloudConfig; reflexivity|]. intros config.
  apply fails_keeping_bind; [apply keeps_Date_now; reflexivity|]. intros now.
  apply fails_keeping_bind; [apply keeps_lift|]. intros timestamp.
  apply fails_keeping_bind; [apply keeps_getEditionsByDate; reflexivity|].
  intros todayEditions.
  apply fails_keeping_bind; [apply keeps_docs_uploadImage|]. intros uploadResult.
  apply fails_keeping_then_ret, fails_keeping_docs_writeEdition.
Qed.

Lemma produceEdition_failure_writes_nothing_witness :
  let w := sample_world {[ "ASSET_RETENTION_DAYS" := "abc" ]} frozen_clock sample_docs in
  exists w', produceEdition (sample_input Normal) w = (Throw RangeError, w') /\
             docs w' = sample_docs.
Proof.
  intros w.
  destruct (produceEdition (sample_input Normal) w) as [[e|e] w'] eqn:H;
    [vm_compute in H; discriminate|].
  exists w'. split.
  - f_equal. vm_compute in H. injection H as <- _. reflexivity.
  - exact (produceEdition_failure_writes_nothing _ _ _ _ H).
Defined.

(** ** Errors of the configuration *)

(** X5: in a fresh process whose configuration is refused, every entry point
    throws the error of the validation before it reads the clock or sends a
    request: only the instance is set. *)
Theorem config_error_stops_entry_points w e input date :
  configInstance w = None ->
  validateConfig (loadCloudConfig (env w)) = Throw e ->
  let w1 := set_configInstance (Some (loadCloudConfig (env w))) w in
  produceEdition input w = (Throw e, w1) /\
  healthCheck w = (Throw e, w1) /\
  getTodayEditionCount date w = (Throw e, w1) /\
  clock_reads w1 = clock_reads w /\ net w1 = net w /\
  docs w1 = docs w /\ objects w1 = objects w.
Proof.
  intros Hnone Hthrow w1.
  assert (H : getCloudConfig w = (Throw e, w1)).
  { unfold getCloudConfig. rewrite Hnone, Hthrow. reflexivity. }
  split; [unfold produceEdition; apply (bind_throws _ _ _ _ _ H)|].
  split.
  { unfold healthCheck, checkBucketAccess.
    apply bind_throws. apply (bind_throws _ _ _ _ _ H). }
  split; [unfold getTodayEditionCount; apply (bind_throws _ _ _ _ _ H)|].
  repeat split.
Qed.

Lemma config_error_stops_entry_points_witness :
  let w := offline_world {[ "ASSET_RETENTION_DAYS" := "366" ]} frozen_clock in
  let e := ConfigError "ASSET_RETENTION_DAYS must be between 1 and 365" in
  fst (produceEdition (sample_input Normal) w) = Throw e /\
  fst (healthCheck w) = Throw e /\
  fst (getTodayEditionCount "2025-12-24" w) = Throw e.
Proof.
  intros w e.
  destruct (config_error_stops_entry_points w e (sample_input Normal) "2025-12-24" eq_refl)
    as (H1 & H2 & H3 & _).
  - vm_compute. reflexivity.
  - rewrite H1, H2, H3. repeat split.
Defined.

(** ** The health check against the stores *)

Lemma checkBucketAccess_live w config :
  configInstance w = Some config -> dryRun config = false ->
  checkBucketAccess w
  = (Ok (storage_up w && bucket_exists w), sent (StorageExists (storageBucket config)) w).
Proof.
  intros Hc Hdry. unfold checkBucketAccess.
  rewrite (bind_returns _ _ _ _ _ (getCloudConfig_cached _ _ Hc)). rewrite Hdry.
  unfold try_catch, bind, bucket_exists_call, ret. simpl.
  destruct (storage_up w); [destruct (bucket_exists w)|]; reflexivity.
Qed.

Lemma checkDatabaseAccess_live w config :
  configInstance w = Some config -> dryRun config = false ->
  checkDatabaseAccess w
  = (Ok (firestore_up w), sent (FirestoreLimitGet (firestoreCollection config)) w).
Proof.
  intros Hc Hdry. unfold checkDatabaseAccess.
  rewrite (bind_returns _ _ _ _ _ (getCloudConfig_cached _ _ Hc)). rewrite Hdry.
  unfold try_catch, bind, firestore_limit_get, ret. simpl.
  destruct (firestore_up w); reflexivity.
Qed.

Lemma healthCheck_live_run w config w0 :
  getCloudConfig w = (Ok config, w0) ->
  dryRun config = false ->
  healthCheck w
  = (Ok (storage_up w && bucket_exists w && firestore_up w),
     sent (FirestoreLimitGet (firestoreCollection config))
       (sent (StorageExists (storageBucket config)) w0)).
Proof.
  intros Hcfg Hdry.
  pose proof (getCloudConfig_returns _ _ _ Hcfg) as Hw0.
  assert (Hc : configInstance w0 = Some config) by (rewrite Hw0; reflexivity).
  assert (Hbucket : checkBucketAccess w
                    = (Ok (storage_up w && bucket_exists w),
                       sent (StorageExists (storageBucket config)) w0)).
  { assert (H : checkBucketAccess w = checkBucketAccess w0).
    { unfold checkBucketAccess.
      rewrite (bind_returns _ _ _ _ _ Hcfg).
      rewrite (bind_returns _ _ _ _ _ (getCloudConfig_cached _ _ Hc)). reflexivity. }
    rewrite H, (checkBucketAccess_live w0 config Hc Hdry), Hw0. reflexivity. }
  unfold healthCheck. rewrite (bind_returns _ _ _ _ _ Hbucket).
  rewrite (bind_returns _ _ _ _ _
             (checkDatabaseAccess_live
                (sent (StorageExists (storageBucket config)) w0) config Hc Hdry)).
  rewrite Hw0. reflexivity.
Qed.

Lemma healthCheck_dry_run_run w config w0 :
  getCloudConfig w = (Ok config, w0) ->
  dryRun config = true ->
  healthCheck w = (Ok true, w0).
Proof.
  intros Hcfg Hdry.
  pose proof (getCloudConfig_returns _ _ _ Hcfg) as Hw0.
  assert (Hc : configInstance w0 = Some config) by (rewrite Hw0; reflexivity).
  assert (Hbucket : checkBucketAccess w = (Ok true, w0)).
  { unfold checkBucketAccess. rewrite (bind_returns _ _ _ _ _ Hcfg), Hdry. reflexivity. }
  unfold healthCheck. rewrite (bind_returns _ _ _ _ _ Hbucket).
  rewrite (bind_returns _ _ _ _ _ (checkDatabaseAccess_dry_run _ _ Hc Hdry)).
  reflexivity.
Qed.

(** X6: out of a dry run, [healthCheck] never throws once the configuration
    is resolved: errors of either store are caught and reported as [false].
    It returns [true] exactly when the storage answers, the bucket exists and
    the document store answers, and it sends both probes, the bucket first,
    even when the first one fails; the stores are left as they were. *)
Theorem healthCheck_live w config w0 :
  getCloudConfig w = (Ok config, w0) ->
  dryRun config = false ->
  exists w',
    healthCheck w = (Ok (storage_up w && bucket_exists w && firestore_up w), w') /\
    net w' = FirestoreLimitGet (firestoreCollection config)
             :: StorageExists (storageBucket config) :: net w /\
    docs w' = docs w /\ objects w' = objects w.
Proof.
  intros Hcfg Hdry. eexists. split; [apply (healthCheck_live_run _ _ _ Hcfg Hdry)|].
  apply getCloudConfig_returns in Hcfg as ->. repeat split.
Qed.

Lemma healthCheck_live_witness :
  (exists w', healthCheck (sample_world live_env frozen_clock sample_docs) = (Ok true, w')) /\
  (exists w', healthCheck (offline_world live_env frozen_clock) = (Ok false, w') /\
              net w' = [FirestoreLimitGet "editions"; StorageExists "today-in-emojis-assets"]).
Proof.
  split.
  - destruct (healthCheck_live (sample_world live_env frozen_clock sample_docs)
                (loadCloudConfig live_env) _ sample_live_config eq_refl)
      as (w' & H & _).
    exists w'. exact H.
  - destruct (healthCheck_live (offline_world live_env frozen_clock)
                (loadCloudConfig live_env)
                (set_configInstance (Some (loadCloudConfig live_env))
                   (offline_world live_env frozen_clock)))
      as (w' & H & Hnet & _).
    + vm_compute. reflexivity.
    + reflexivity.
    + exists w'. split; [exact H | exact Hnet].
Defined.

(** ** Counting the editions of a day *)

Lemma editions_counted date collection :
  length (query_by_date date collection) = editions_of date collection.
Proof.
  unfold query_by_date, editions_of. rewrite length_map.
  apply Permutation_length, merge_sort_Permutation.
Qed.

Lemma normal_editions_le date collection :
  normal_editions date collection <= editions_of date collection.
Proof.
  unfold normal_editions, editions_of.
  induction (map_to_list collection) as [|d l IH]; simpl; [lia|].
  destruct (matches_date date d); simpl; [destruct (is_normal d.2); simpl|]; lia.
Qed.

(** X7: out of a dry run and with the document store up,
    [getTodayEditionCount] returns the number of editions of either type that
    the collection holds for the date, which is at least the number that
    [produceEdition] counts; in a dry run it returns 0 whatever the
    collection holds. *)
Theorem getTodayEditionCount_counts date w config w0 :
  getCloudConfig w = (Ok config, w0) ->
  (dryRun config = false -> firestore_up w = true) ->
  exists n w',
    getTodayEditionCount date w = (Ok n, w') /\
    n = (if dryRun config then 0 else editions_of date (docs w)) /\
    (dryRun config = false -> normal_editions date (docs w) <= n) /\
    docs w' = docs w.
Proof.
  intros Hcfg Hup.
  pose proof (getCloudConfig_returns _ _ _ Hcfg) as Hw0.
  assert (Hc : configInstance w0 = Some config) by (rewrite Hw0; reflexivity).
  unfold getTodayEditionCount. rewrite (bind_returns _ _ _ _ _ Hcfg).
  destruct (dryRun config) eqn:Hdry.
  - exists 0, w0. split; [reflexivity|]. split; [reflexivity|].
    split; [discriminate|]. rewrite Hw0. reflexivity.
  - assert (Hfu : firestore_up w0 = true) by (rewrite Hw0; apply Hup; reflexivity).
    rewrite (bind_returns _ _ _ _ _ (getEditionsByDate_live date w0 config Hc Hdry Hfu)).
    eexists _, _. split; [reflexivity|].
    rewrite editions_counted, Hw0. simpl.
    split; [reflexivity|]. split; [intros _; apply normal_editions_le | reflexivity].
Qed.

Lemma getTodayEditionCount_counts_witness :
  (exists w', getTodayEditionCount "2025-12-24"
                (sample_world live_env frozen_clock sample_docs) = (Ok 1, w')) /\
  (exists w', getTodayEditionCount "2025-12-24"
                (sample_world dry_env frozen_clock sample_docs) = (Ok 0, w')).
Proof.
  split.
  - destruct (getTodayEditionCount_counts "2025-12-24"
                (sample_world live_env frozen_clock sample_docs)
                (loadCloudConfig live_env) _ sample_live_config (fun _ => eq_refl))
      as (n & w' & H & Hn & _).
    exists w'. rewrite H. f_equal. f_equal. rewrite Hn. vm_compute. reflexivity.
  - destruct (getTodayEditionCount_counts "2025-12-24"
                (sample_world dry_env frozen_clock sample_docs)
                (loadCloudConfig dry_env)
                (set_configInstance (Some (loadCloudConfig dry_env))
                   (sample_world dry_env frozen_clock sample_docs)))
      as (n & w' & H & Hn & _).
    + vm_compute. reflexivity.
    + discriminate.
    + exists w'. rewrite H. f_equal. f_equal. exact Hn.
Defined.

(** ** What a production does to the stores *)

(** X8: a production against the stores that returns has sent three
    requests, the query, the upload and the write, in this order; the bucket
    has gained the image under the path of the edition, with the bytes of the
    request, as a public PNG with a one-year cache directive; the collection
    has gained the stripped edition under its identifier; all other objects
    and documents are as they were; the clock was read twice. *)
Theorem produceEdition_effects input w config w0 e w' :
  getCloudConfig w = (Ok config, w0) ->
  dryRun config = false ->
  produceEdition input w = (Ok e, w') ->
  let path := AssetMetadata.image_path (CloudEdition.assets e) in
  let id := CloudEdition.edition_id e in
  net w' = FirestoreSet (firestoreCollection config) id
           :: StorageSave (storageBucket config) path
           :: FirestoreQueryByDate (firestoreCollection config) (ProducerInput.date input)
           :: net w /\
  objects w' = <[path := {| content := ProducerInput.image_buffer input;
                            contentType := "image/png";
                            cacheControl := "public, max-age=31536000";
                            public := true |}]> (objects w) /\
  docs w' = <[id := removeUndefined (edition_to_js e)]> (docs w) /\
  clock_reads w' = clock_reads w + 2.
Proof.
  intros Hcfg Hdry Hrun path id.
  pose proof Hrun as Hinv.
  apply produceEdition_Ok_inv in Hinv as (c & w1 & Hc & Hcan).
  rewrite Hcfg in Hc. injection Hc as <- <-.
  destruct (produceEdition_returns input _ _ _ Hcfg Hcan)
    as (days & e' & w'' & _ & Hrun' & He & Hw').
  rewrite Hrun in Hrun'. injection Hrun' as <- <-.
  rewrite Hdry in Hw'.
  pose proof (getCloudConfig_returns _ _ _ Hcfg) as Hw0.
  subst path id. rewrite Hw', Hw0. simpl.
  repeat split. f_equal. lia.
Qed.

Lemma produceEdition_effects_witness :
  exists e w',
    produceEdition (sample_input Normal) (sample_world live_env frozen_clock sample_docs)
    = (Ok e, w') /\
    net w' = [FirestoreSet "editions" "2025-12-24-normal-2";
              StorageSave "today-in-emojis-assets" "2025/12/24/normal-2.png";
              FirestoreQueryByDate "editions" "2025-12-24"] /\
    objects w' !! "2025/12/24/normal-2.png"
    = Some (saved_image (ProducerInput.image_buffer (sample_input Normal))) /\
    docs w' !! "2025-12-24-normal-1" = sample_docs !! "2025-12-24-normal-1".
Proof.
  destruct (produceEdition (sample_input Normal)
              (sample_world live_env frozen_clock sample_docs)) as [[e|err] w'] eqn:Hrun;
    [|vm_compute in Hrun; discriminate].
  destruct (produceEdition_effects _ _ _ _ e w' sample_live_config eq_refl Hrun)
    as (Hnet & Hobjects & Hdocs & _).
  assert (He : CloudEdition.edition_id e = "2025-12-24-normal-2" /\
               AssetMetadata.image_path (CloudEdition.assets e) = "2025/12/24/normal-2.png").
  { vm_compute in Hrun. injection Hrun as <- _. split; reflexivity. }
  destruct He as [Hid Hpath]. rewrite Hid, Hpath in *.
  exists e, w'. split; [reflexivity|]. split; [exact Hnet|]. split.
  - rewrite Hobjects. apply lookup_insert_eq.
  - rewrite Hdocs. apply lookup_insert_ne. discriminate.
Defined.

Lemma uploadImage_storage_down buf date type index w config :
  configInstance w = Some config -> dryRun config = false ->
  storage_up w && bucket_exists w = false ->
  uploadImage buf date type index w
  = (Throw StorageError,
     sent (StorageSave (storageBucket config) (storage_path date type index)) w).
Proof.
  intros Hc Hdry Hdown. unfold uploadImage.
  rewrite (bind_returns _ _ _ _ _ (getCloudConfig_cached _ _ Hc)). rewrite Hdry.
  unfold bind at 1, file_save. simpl. rewrite Hdown. reflexivity.
Qed.

Lemma uploadImage_retention_NaN buf date type index w config :
  configInstance w = Some config -> dryRun config = false ->
  storage_up w = true -> bucket_exists w = true ->
  assetRetentionDays config = NaN ->
  uploadImage buf date type index w
  = (Throw RangeError, after_upload config (storage_path date type index) buf w).
Proof.
  intros Hc Hdry Hsu Hbe Hnan. unfold uploadImage.
  rewrite (bind_returns _ _ _ _ _ (getCloudConfig_cached _ _ Hc)). rewrite Hdry.
  unfold bind at 1, file_save. simpl. rewrite Hsu, Hbe. simpl.
  unfold expiry, retention_ms. rewrite Hnan. reflexivity.
Qed.

(** A production against the stores, up to the answer of the query. *)
Lemma live_prefix input w config w0 :
  getCloudConfig w = (Ok config, w0) ->
  dryRun config = false ->
  firestore_up w = true ->
  valid_time (reading 0 w) ->
  forall (A : Type) (k : string -> list JsValue -> M A),
    bind getCloudConfig
      (fun _ => bind Date_now
         (fun now => bind (lift (toISOString (new_Date (Int now))))
            (fun timestamp => bind (getEditionsByDate (ProducerInput.date input))
               (fun todayEditions => k timestamp todayEditions)))) w
    = k (iso_string (reading 0 w)) (query_by_date (ProducerInput.date input) (docs w))
        (after_query config (ProducerInput.date input) (tick w0)).
Proof.
  intros Hcfg Hdry Hfu Ht0 A k.
  pose proof (getCloudConfig_returns _ _ _ Hcfg) as Hw0.
  assert (Hc : configInstance w0 = Some config) by (rewrite Hw0; reflexivity).
  assert (Hr0 : reading 0 w0 = reading 0 w) by (rewrite Hw0; reflexivity).
  assert (Hfu0 : firestore_up w0 = true) by (rewrite Hw0; exact Hfu).
  rewrite (bind_returns _ _ _ _ _ Hcfg).
  rewrite (bind_returns _ _ _ _ _ (Date_now_run w0)). rewrite Hr0.
  rewrite (bind_returns _ _ _ _ _ (timestamp_run _ _ Ht0)).
  rewrite (bind_returns _ _ _ _ _
             (getEditionsByDate_live _ (tick w0) config Hc Hdry Hfu0)).
  rewrite Hw0. reflexivity.
Qed.

(** X9: when the upload is rejected (the storage does not answer or the
    bucket does not exist), the production throws the error of the storage
    after the query and the attempt to save; it retries nothing, writes no
    document and leaves the bucket as it was. *)
Theorem produceEdition_upload_rejected input w config w0 :
  getCloudConfig w = (Ok config, w0) ->
  dryRun config = false ->
  firestore_up w = true ->
  valid_time (reading 0 w) ->
  storage_up w && bucket_exists w = false ->
  exists path w',
    produceEdition input w = (Throw StorageError, w') /\
    net w' = StorageSave (storageBucket config) path
             :: FirestoreQueryByDate (firestoreCollection config) (ProducerInput.date input)
             :: net w /\
    objects w' = objects w /\ docs w' = docs w.
Proof.
  intros Hcfg Hdry Hfu Ht0 Hdown.
  pose proof (getCloudConfig_returns _ _ _ Hcfg) as Hw0.
  unfold produceEdition.
  rewrite (live_prefix input w config w0 Hcfg Hdry Hfu Ht0).
  eexists _, _. split.
  - apply bind_throws. apply (uploadImage_storage_down _ _ _ _ _ config).
    + rewrite Hw0. reflexivity.
    + exact Hdry.
    + rewrite Hw0. exact Hdown.
  - rewrite Hw0. repeat split.
Qed.

Lemma produceEdition_upload_rejected_witness :
  let w := {| env := live_env; configInstance := None; clock := frozen_clock;
              clock_reads := 0; storage_up := true; bucket_exists := false;
              objects := ∅; firestore_up := true; docs := sample_docs; net := [] |} in
  exists w',
    produceEdition (sample_input Normal) w = (Throw StorageError, w') /\
    objects w' = ∅ /\ docs w' = sample_docs.
Proof.
  intros w.
  destruct (produceEdition_upload_rejected (sample_input Normal) w
              (loadCloudConfig live_env)
              (set_configInstance (Some (loadCloudConfig live_env)) w))
    as (path & w' & H & _ & Hobjects & Hdocs).
  - vm_compute. reflexivity.
  - reflexivity.
  - reflexivity.
  - apply sample_valid_time. reflexivity.
  - reflexivity.
  - exists w'. auto.
Defined.

(** X10: when the document store does not answer, the production throws its
    error at the query, before anything is uploaded: the query is the only
    request sent, and bucket and collection are as they were. *)
Theorem produceEdition_store_down input w config w0 :
  getCloudConfig w = (Ok config, w0) ->
  dryRun config = false ->
  firestore_up w = false ->
  valid_time (reading 0 w) ->
  exists w',
    produceEdition input w = (Throw FirestoreError, w') /\
    net w' = FirestoreQueryByDate (firestoreCollection config) (ProducerInput.date input)
             :: net w /\
    objects w' = objects w /\ docs w' = docs w.
Proof.
  intros Hcfg Hdry Hfu Ht0.
  pose proof (getCloudConfig_returns _ _ _ Hcfg) as Hw0.
  assert (Hc : configInstance w0 = Some config) by (rewrite Hw0; reflexivity).
  assert (Hr0 : reading 0 w0 = reading 0 w) by (rewrite Hw0; reflexivity).
  unfold produceEdition.
  rewrite (bind_returns _ _ _ _ _ Hcfg).
  rewrite (bind_returns _ _ _ _ _ (Date_now_run w0)). rewrite Hr0.
  rewrite (bind_returns _ _ _ _ _ (timestamp_run _ _ Ht0)).
  exists (after_query config (ProducerInput.date input) (tick w0)). split.
  - apply bind_throws. unfold getEditionsByDate.
    rewrite (bind_returns _ _ _ _ _ (getCloudConfig_cached (tick w0) config Hc)).
    rewrite Hdry. apply bind_throws. unfold firestore_get_by_date. simpl.
    rewrite Hw0. simpl. rewrite Hfu. reflexivity.
  - rewrite Hw0. repeat split.
Qed.

Lemma produceEdition_store_down_witness :
  let w := {| env := live_env; configInstance := None; clock := frozen_clock;
              clock_reads := 0; storage_up := true; bucket_exists := true;
              objects := ∅; firestore_up := false; docs := sample_docs; net := [] |} in
  exists w',
    produceEdition (sample_input Essence) w = (Throw FirestoreError, w') /\
    net w' = [FirestoreQueryByDate "editions" "2025-12-24"] /\ objects w' = ∅.
Proof.
  intros w.
  destruct (produceEdition_store_down (sample_input Essence) w
              (loadCloudConfig live_env)
              (set_configInstance (Some (loadCloudConfig live_env)) w))
    as (w' & H & Hnet & Hobjects & _).
  - vm_compute. reflexivity.
  - reflexivity.
  - reflexivity.
  - apply sample_valid_time. reflexivity.
  - exists w'. auto.
Defined.

(** X11: with a retention that is no number, a production against the stores
    throws a [RangeError] when it formats the expiry, after the image has
    been saved: the bucket holds the image, and no document is written for
    it. *)
Theorem produceEdition_orphaned_asset input w config w0 :
  getCloudConfig w = (Ok config, w0) ->
  dryRun config = false ->
  stores_up w ->
  valid_time (reading 0 w) ->
  assetRetentionDays config = NaN ->
  exists path w',
    produceEdition input w = (Throw RangeError, w') /\
    objects w' !! path = Some (saved_image (ProducerInput.image_buffer input)) /\
    docs w' = docs w /\
    net w' = StorageSave (storageBucket config) path
             :: FirestoreQueryByDate (firestoreCollection config) (ProducerInput.date input)
             :: net w.
Proof.
  intros Hcfg Hdry (Hsu & Hbe & Hfu) Ht0 Hnan.
  pose proof (getCloudConfig_returns _ _ _ Hcfg) as Hw0.
  unfold produceEdition.
  rewrite (live_prefix input w config w0 Hcfg Hdry Hfu Ht0).
  eexists _, _. split.
  - apply bind_throws. apply (uploadImage_retention_NaN _ _ _ _ _ config).
    + rewrite Hw0. reflexivity.
    + exact Hdry.
    + rewrite Hw0. exact Hsu.
    + rewrite Hw0. exact Hbe.
    + exact Hnan.
  - rewrite Hw0. unfold after_upload. simpl. split; [apply lookup_insert_eq|].
    repeat split.
Qed.

Lemma produceEdition_orphaned_asset_witness :
  let w := sample_world {[ "ASSET_RETENTION_DAYS" := "thirty" ]} frozen_clock ∅ in
  exists w',
    produceEdition (sample_input Normal) w = (Throw RangeError, w') /\
    objects w' !! "2025/12/24/normal-1.png"
    = Some (saved_image (ProducerInput.image_buffer (sample_input Normal))) /\
    docs w' = ∅.
Proof.
  intros w.
  destruct (produceEdition_orphaned_asset (sample_input Normal) w
              (loadCloudConfig {[ "ASSET_RETENTION_DAYS" := "thirty" ]})
              (set_configInstance
                 (Some (loadCloudConfig {[ "ASSET_RETENTION_DAYS" := "thirty" ]})) w))
    as (path & w' & H & Hobject & Hdocs & Hnet).
  - vm_compute. reflexivity.
  - reflexivity.
  - repeat split.
  - apply sample_valid_time. reflexivity.
  - reflexivity.
  - exists w'. split; [exact H|]. split; [|exact Hdocs].
    assert (Hw : w' = snd (produceEdition (sample_input Normal) w)) by (rewrite H; reflexivity).
    rewrite Hw. vm_compute. reflexivity.
Defined.

(** ** Identifiers and paths tell editions apart *)

Lemma length_append a b : String.length (a +:+ b) = String.length a + String.length b.
Proof.
  induction a as [|c a IH]; [reflexivity|].
  change (S (String.length (a +:+ b)) = S (String.length a + String.length b)).
  rewrite IH. reflexivity.
Qed.

Lemma append_inj_length a a' b b' :
  String.length a = String.length a' -> a +:+ b = a' +:+ b' -> a = a' /\ b = b'.
Proof.
  revert a'. induction a as [|c a IH]; intros [|c' a'] Hlen; try discriminate.
  - intros H. auto.
  - change (String c (a +:+ b) = String c' (a' +:+ b') -> String c a = String c' a' /\ b = b').
    intros [= -> H]. injection Hlen as Hlen.
    destruct (IH a' Hlen H) as [-> ->]. auto.
Qed.

Lemma is_date_lengths y m d :
  is_date y m d = true ->
  String.length y = 4 /\ String.length m = 2 /\ String.length d = 2.
Proof.
  unfold is_date. intros H. repeat (apply andb_true_iff in H as [H ?]).
  repeat split; apply Nat.eqb_eq; assumption.
Qed.

Lemma date_text_inj y m d y' m' d' suffix suffix' :
  is_date y m d = true -> is_date y' m' d' = true ->
  (y +:+ "-" +:+ m +:+ "-" +:+ d) +:+ suffix = (y' +:+ "-" +:+ m' +:+ "-" +:+ d') +:+ suffix' ->
  y +:+ "-" +:+ m +:+ "-" +:+ d = y' +:+ "-" +:+ m' +:+ "-" +:+ d' /\ suffix = suffix'.
Proof.
  intros H H'. apply is_date_lengths in H as (Hy & Hm & Hd).
  apply is_date_lengths in H' as (Hy' & Hm' & Hd').
  apply append_inj_length.
  rewrite !length_append. simpl. lia.
Qed.

(** X12: for dates of the form YYYY-MM-DD the identifier tells the date, the
    type and, for a normal edition, the sequence index: two editions have
    the same identifier only if they agree on all three. *)
Theorem edition_id_determines y m d y' m' d' type type' i i' :
  is_date y m d = true -> is_date y' m' d' = true ->
  generateEditionId (y +:+ "-" +:+ m +:+ "-" +:+ d) type i
  = generateEditionId (y' +:+ "-" +:+ m' +:+ "-" +:+ d') type' i' ->
  y +:+ "-" +:+ m +:+ "-" +:+ d = y' +:+ "-" +:+ m' +:+ "-" +:+ d' /\
  type = type' /\ (type = Normal -> i = i').
Proof.
  intros H H' Hid. unfold generateEditionId in Hid.
  destruct type, type';
    apply (date_text_inj _ _ _ _ _ _ _ _ H H') in Hid as [Hdate Hsuffix];
    try discriminate.
  - split; [exact Hdate|]. split; [reflexivity|]. intros _.
    injection Hsuffix as Hsuffix. apply decimal_inj in Hsuffix. lia.
  - split; [exact Hdate|]. split; [reflexivity | discriminate].
Qed.

Lemma edition_id_determines_witness :
  generateEditionId "2025-12-24" Normal 2 <> generateEditionId "2025-12-24" Normal 12 /\
  generateEditionId "2025-12-24" Normal 1 <> generateEditionId "2025-12-24" Essence 1.
Proof.
  split; intros H.
  - destruct (edition_id_determines "2025" "12" "24" "2025" "12" "24" Normal Normal 2 12
                eq_refl eq_refl H) as (_ & _ & Hi).
    specialize (Hi eq_refl). discriminate.
  - destruct (edition_id_determines "2025" "12" "24" "2025" "12" "24" Normal Essence 1 1
                eq_refl eq_refl H) as (_ & Ht & _).
    discriminate.
Defined.

Lemma slash_parts_inj y m d y' m' d' file file' :
  is_date y m d = true -> is_date y' m' d' = true ->
  y +:+ "/" +:+ m +:+ "/" +:+ d +:+ "/" +:+ file
  = y' +:+ "/" +:+ m' +:+ "/" +:+ d' +:+ "/" +:+ file' ->
  y = y' /\ m = m' /\ d = d' /\ file = file'.
Proof.
  intros H H' Heq. apply is_date_lengths in H as (Hy & Hm & Hd).
  apply is_date_lengths in H' as (Hy' & Hm' & Hd').
  apply (append_inj_length y y') in Heq as [-> Heq]; [|congruence].
  change ("/" +:+ ?x) with (String "/" x) in Heq. injection Heq as Heq.
  apply (append_inj_length m m') in Heq as [-> Heq]; [|congruence].
  change ("/" +:+ ?x) with (String "/" x) in Heq. injection Heq as Heq.
  apply (append_inj_length d d') in Heq as [-> Heq]; [|congruence].
  change ("/" +:+ ?x) with (String "/" x) in Heq. injection Heq as Heq. auto.
Qed.

(** X13: for dates of the form YYYY-MM-DD the storage path tells the date, the
    type and, for a normal post, the index: no two editions that differ in
    one of them are uploaded to the same path, so neither overwrites the
    image of the other. *)
Theorem storage_path_determines y m d y' m' d' type type' i i' :
  is_date y m d = true -> is_date y' m' d' = true ->
  storage_path (y +:+ "-" +:+ m +:+ "-" +:+ d) type
    (match type with Normal => Some i | Essence => None end)
  = storage_path (y' +:+ "-" +:+ m' +:+ "-" +:+ d') type'
      (match type' with Normal => Some i' | Essence => None end) ->
  y +:+ "-" +:+ m +:+ "-" +:+ d = y' +:+ "-" +:+ m' +:+ "-" +:+ d' /\
  type = type' /\ (type = Normal -> i = i').
Proof.
  intros H H' Hpath.
  rewrite (storage_path_of_date _ _ _ _ _ H), (storage_path_of_date _ _ _ _ _ H') in Hpath.
  apply (slash_parts_inj _ _ _ _ _ _ _ _ H H') in Hpath as (-> & -> & -> & Hfile).
  split; [reflexivity|].
  destruct type, type'; try discriminate.
  - split; [reflexivity|]. intros _. simpl in Hfile. injection Hfile as Hfile.
    change ("" +:+ ?x) with x in Hfile.
    assert (Hp : parse_digits (decimal (N.of_nat i) +:+ ".png") None
                 = parse_digits (decimal (N.of_nat i') +:+ ".png") None)
      by (rewrite Hfile; reflexivity).
    rewrite !parse_digits_of_decimal in Hp by reflexivity. injection Hp as Hp. lia.
  - split; [reflexivity | discriminate].
Qed.

Lemma storage_path_determines_witness :
  storage_path "2025-12-24" Normal (Some 1) <> storage_path "2025-12-24" Normal (Some 11) /\
  storage_path "2025-12-24" Essence None <> storage_path "2025-12-25" Essence None.
Proof.
  split; intros H.
  - destruct (storage_path_determines "2025" "12" "24" "2025" "12" "24" Normal Normal 1 11
                eq_refl eq_refl H) as (_ & _ & Hi).
    specialize (Hi eq_refl). discriminate.
  - destruct (storage_path_determines "2025" "12" "24" "2025" "12" "25" Essence Essence 0 0
                eq_refl eq_refl H) as (Hdate & _).
    discriminate.
Defined.

(** X14: [uploadImage] does not check the form of the date: a date without
    "-" is taken whole as the year, and month and day, which the
    destructuring leaves [undefined], are printed as such. *)
Theorem storage_path_without_dash date type index :
  all_chars (fun c => negb (Ascii.eqb c "-")) date = true ->
  storage_path date type index
  = date +:+ "/undefined/undefined/"
    +:+ match type with
        | Essence => "essence.png"
        | Normal => "normal-" +:+ index_text index +:+ ".png"
        end.
Proof.
  intros H. unfold storage_path. rewrite (split_no_separator_found _ _ H).
  destruct type; reflexivity.
Qed.

Lemma storage_path_without_dash_witness :
  storage_path "20251224" Essence None = "20251224/undefined/undefined/essence.png".
Proof. exact (storage_path_without_dash "20251224" Essence None eq_refl). Defined.

(** ** Stripping, property by property *)





Lemma map_stripped_fixed (l : list JsValue) :
  Forall (fun v => removeUndefined v = v) l -> map removeUndefined l = l.
Proof. induction 1 as [|v l Hv Hl IH]; simpl; [reflexivity|]. rewrite Hv, IH. reflexivity. Qed.

Lemma strings_stripped l : removeUndefined (js_strings l) = js_strings l.
Proof.
  unfold js_strings. rewrite removeUndefined_array. f_equal.
  apply map_stripped_fixed. apply Forall_map, Forall_true. reflexivity.
Qed.

Lemma emojis_stripped l :
  removeUndefined (JArray (map emoji_to_js l)) = JArray (map emoji_to_js l).
Proof.
  rewrite removeUndefined_array. f_equal.
  apply map_stripped_fixed. apply Forall_map, Forall_true. reflexivity.
Qed.

Lemma essence_stripped s : removeUndefined (essence_to_js s) = essence_to_js s.
Proof.
  unfold essence_to_js.
  rewrite removeUndefined_well_formed_object by (apply (bool_decide_unpack _); reflexivity).
  unfold strip_entries. simpl. rewrite strings_stripped. reflexivity.
Qed.

Lemma source_meta_stripped s :
  removeUndefined (source_meta_to_js s) = source_meta_to_js s.
Proof.
  unfold source_meta_to_js.
  rewrite removeUndefined_well_formed_object by (apply (bool_decide_unpack _); reflexivity).
  unfold strip_entries. simpl. rewrite strings_stripped. reflexivity.
Qed.

Lemma stored_edition e :
  removeUndefined (edition_to_js e) = JObject (present_props (edition_to_js e)).
Proof.
  destruct e as [id date ts type emojis essence a sm]. unfold edition_to_js.
  rewrite removeUndefined_well_formed_object by (apply (bool_decide_unpack _); reflexivity).
  unfold strip_entries, present_props; simpl.
  destruct emojis as [l|], essence as [s|]; simpl;
    rewrite ?emojis_stripped, ?essence_stripped, source_meta_stripped; reflexivity.
Qed.

(** X16: what [writeEdition] stores for an edition is the edition without the
    one of [emojis] and [essence] that is absent: no other property is
    removed, and nothing inside the remaining ones changes. *)
Theorem stored_edition_omits_absent_only (e : CloudEdition.t) :
  removeUndefined (edition_to_js e) = JObject (present_props (edition_to_js e)) /\
  (has_key "emojis" (present_props (edition_to_js e))
   = bool_decide (is_Some (CloudEdition.emojis e))) /\
  (has_key "essence" (present_props (edition_to_js e))
   = bool_decide (is_Some (CloudEdition.essence e))) /\
  length (present_props (edition_to_js e))
  = 6 + match CloudEdition.emojis e with Some _ => 1 | None => 0 end
      + match CloudEdition.essence e with Some _ => 1 | None => 0 end.
Proof.
  split; [apply stored_edition|].
  destruct e as [id date ts type [l|] [s|] a sm]; repeat split.
Qed.

(** ** Writing and reading back *)

Lemma writeEdition_Ok_live edition w config u w' :
  configInstance w = Some config -> dryRun config = false ->
  writeEdition edition w = (Ok u, w') ->
  firestore_up w = true /\ w' = after_write config edition w.
Proof.
  intros Hc Hdry H.
  destruct (writeEdition_Ok_inv _ _ _ _ _ Hc H) as [(Hdry' & _)|(_ & Hfu & Hw')];
    [congruence | auto].
Qed.

(** X17: out of a dry run, an edition that [writeEdition] has written is read
    back by [readEdition] under its identifier as the edition without its
    absent properties, whatever the identifier held before; every other
    identifier reads as before the write.  Each read sends one lookup and
    leaves the world as it is. *)
Theorem write_then_read edition w config u w' log :
  configInstance w = Some config -> dryRun config = false ->
  writeEdition edition w = (Ok u, w') ->
  readEdition (CloudEdition.edition_id edition) {| world := w'; lookups := log |}
  = (Ok (Some (JObject (present_props (edition_to_js edition)))),
     {| world := w';
        lookups := FirestoreDocGet (firestoreCollection config)
                     (CloudEdition.edition_id edition) :: log |}) /\
  forall id, id <> CloudEdition.edition_id edition ->
    fst (readEdition id {| world := w'; lookups := log |})
    = fst (readEdition id {| world := w; lookups := log |}).
Proof.
  intros Hc Hdry Hwrite.
  destruct (writeEdition_Ok_live _ _ _ _ _ Hc Hdry Hwrite) as [Hfu ->].
  assert (Hc' : getCloudConfig (after_write config edition w)
                = (Ok config, after_write config edition w))
    by (apply getCloudConfig_cached; exact Hc).
  split.
  - unfold readEdition, in_world. simpl. rewrite Hc', Hdry. simpl. rewrite Hfu.
    rewrite lookup_insert_eq.
    rewrite stored_edition. reflexivity.
  - intros id Hid. unfold readEdition, in_world. simpl.
    rewrite Hc', (getCloudConfig_cached _ _ Hc), Hdry. simpl. rewrite Hfu.
    rewrite lookup_insert_ne by congruence. destruct (docs w !! id); reflexivity.
Qed.

Lemma write_then_read_witness :
  let w := in_mode false (loadCloudConfig live_env)
             (sample_world live_env frozen_clock sample_docs) in
  let e := assembled (sample_input Essence) (loadCloudConfig live_env) 0
             "2025-12-24T23:00:00.000Z" "2026-01-23T23:00:00.000Z" in
  exists w' s',
    writeEdition e w = (Ok tt, w') /\
    readEdition "2025-12-24-essence" {| world := w'; lookups := [] |}
    = (Ok (Some (JObject (present_props (edition_to_js e)))), s') /\
    populated "emojis" (JObject (present_props (edition_to_js e))) = false /\
    fst (readEdition "2025-12-24-normal-1" {| world := w'; lookups := [] |})
    = Ok (sample_docs !! "2025-12-24-normal-1").
Proof.
  intros w e.
  destruct (writeEdition e w) as [[[]|err] w'] eqn:Hwrite;
    [|vm_compute in Hwrite; discriminate].
  destruct (write_then_read e w (with_dryRun false (loadCloudConfig live_env)) tt w' []
              eq_refl eq_refl Hwrite) as [Hread Hother].
  eexists w', _. split; [reflexivity|]. split; [exact Hread|]. split; [reflexivity|].
  rewrite (Hother "2025-12-24-normal-1") by discriminate.
  vm_compute. reflexivity.
Defined.

(** In a dry run nothing can be read back: [writeEdition] returns without
    a request and without a change, and [readEdition] returns [null] without
    a lookup, even for an identifier that the collection holds. *)
Theorem dry_run_write_then_read edition id w config log :
  configInstance w = Some config -> dryRun config = true ->
  writeEdition edition w = (Ok tt, w) /\
  readEdition id {| world := w; lookups := log |}
  = (Ok None, {| world := w; lookups := log |}).
Proof.
  intros Hc Hdry. split; [apply (writeEdition_dry_run _ _ _ Hc Hdry)|].
  unfold readEdition, in_world. simpl.
  rewrite (getCloudConfig_cached _ _ Hc), Hdry. reflexivity.
Qed.

Lemma dry_run_write_then_read_witness :
  let w := in_mode true (loadCloudConfig live_env)
             (sample_world live_env frozen_clock sample_docs) in
  is_Some (docs w !! "2025-12-24-normal-1") /\
  fst (readEdition "2025-12-24-normal-1" {| world := w; lookups := [] |}) = Ok None.
Proof.
  intros w. split; [eexists; vm_compute; reflexivity|].
  destruct (dry_run_write_then_read
              (assembled (sample_input Normal) (loadCloudConfig live_env) 0 "" "")
              "2025-12-24-normal-1" w (with_dryRun true (loadCloudConfig live_env)) []
              eq_refl eq_refl) as [_ H].
  rewrite H. reflexivity.
Defined.

(** ** parseInt on the texts of a setting *)

Lemma trim_start_settled fuel s : white_space s = 0 -> trim_start fuel s = s.
Proof. intros H. destruct fuel; cbn [trim_start]; [reflexivity|]. rewrite H. reflexivity. Qed.

Lemma trim_start_blanks k fuel s :
  k <= fuel -> trim_start fuel (blanks k +:+ s) = trim_start (fuel - k) s.
Proof.
  revert fuel. induction k as [|k IH]; intros fuel Hk.
  - rewrite Nat.sub_0_r. reflexivity.
  - destruct fuel as [|fuel]; [lia|].
    change (blanks (S k) +:+ s) with (String " " (blanks k +:+ s)).
    cbn [trim_start].
    replace (white_space (String " " (blanks k +:+ s))) with 1
      by (destruct (blanks k +:+ s) as [|b [|c r]]; reflexivity).
    cbn [drop_bytes]. rewrite IH by lia. reflexivity.
Qed.

Lemma length_blanks k : String.length (blanks k) = k.
Proof. induction k as [|k IH]; simpl; [reflexivity|]. rewrite IH. reflexivity. Qed.

Lemma parseInt_skips_blanks k s :
  white_space s = 0 -> parseInt (blanks k +:+ s) = parseInt s.
Proof.
  intros Hs. unfold parseInt.
  rewrite trim_start_blanks by (rewrite length_append, length_blanks; lia).
  rewrite !trim_start_settled by exact Hs. reflexivity.
Qed.

Lemma white_space_minus s : white_space (String "-" s) = 0.
Proof. destruct s as [|b [|c r]]; reflexivity. Qed.

Lemma parseInt_minus s :
  parseInt (String "-" s)
  = match parse_digits s None with
    | None => NaN
    | Some n => to_double (- n)
    end.
Proof.
  unfold parseInt. rewrite trim_start_settled by apply white_space_minus.
  destruct (parse_digits s None) as [n|]; [|reflexivity].
  f_equal; try lia.
Qed.

Lemma parseInt_blanks_sign_digits k (negative : bool) n rest :
  no_digit_ahead rest = true -> (n < 2 ^ 53)%N ->
  parseInt (blanks k +:+ (if negative then "-" else "") +:+ decimal n +:+ rest)
  = Int (if negative then - Z.of_N n else Z.of_N n).
Proof.
  intros Hrest Hn. destruct negative.
  - change ("-" +:+ decimal n +:+ rest) with (String "-" (decimal n +:+ rest)).
    rewrite parseInt_skips_blanks by apply white_space_minus.
    rewrite parseInt_minus, parse_digits_of_decimal by exact Hrest.
    apply to_double_exact. lia.
  - change ("" +:+ decimal n +:+ rest) with (decimal n +:+ rest).
    rewrite parseInt_skips_blanks.
    + apply parseInt_reads_decimal; assumption.
    + destruct (decimal_head n) as (c & s & -> & Hc).
      apply (white_space_digit c (s +:+ rest) Hc).
Qed.

Lemma setting_not_empty k (negative : bool) n rest :
  String.eqb (blanks k +:+ (if negative then "-" else "") +:+ decimal n +:+ rest) "" = false.
Proof.
  destruct k; [|reflexivity]. destruct negative; [reflexivity|].
  destruct (decimal_head n) as (c & s & -> & _). reflexivity.
Qed.

(** X18: [loadCloudConfig] is lenient with the text of ASSET_RETENTION_DAYS:
    leading blanks are skipped, a minus sign is taken, the decimal digits are
    read, and whatever follows them, from the first character that is no digit
    on, is ignored.  For a number below 2^53 the retention is that number, so
    a setting such as [45 days] is accepted as 45 days, and [validateConfig]
    passes exactly when the number read is from 1 to 365. *)
Theorem retention_setting_lenient env k (negative : bool) n rest :
  env !! "ASSET_RETENTION_DAYS"
  = Some (blanks k +:+ (if negative then "-" else "") +:+ decimal n +:+ rest) ->
  no_digit_ahead rest = true -> (n < 2 ^ 53)%N ->
  assetRetentionDays (loadCloudConfig env)
  = Int (if negative then - Z.of_N n else Z.of_N n) /\
  (validateConfig (loadCloudConfig env) = Ok tt <->
   negative = false /\ (1 <= n <= 365)%N).
Proof.
  intros Henv Hrest Hn.
  assert (Hdays : assetRetentionDays (loadCloudConfig env)
                  = Int (if negative then - Z.of_N n else Z.of_N n)).
  { unfold loadCloudConfig, env_or; simpl. rewrite Henv, setting_not_empty.
    apply parseInt_blanks_sign_digits; assumption. }
  split; [exact Hdays|]. rewrite validateConfig_ok_iff, Hdays. split.
  - intros (_ & _ & [H|(days & [= <-] & Hrange)]); [discriminate|].
    destruct negative; [lia|]. split; [reflexivity | lia].
  - intros [-> Hrange]. split; [apply env_or_not_empty; discriminate|].
    split; [apply env_or_not_empty; discriminate|].
    right. exists (Z.of_N n). split; [reflexivity | lia].
Qed.

Lemma retention_setting_lenient_witness :
  let env : gmap string string := {[ "ASSET_RETENTION_DAYS" := " 45 days" ]} in
  assetRetentionDays (loadCloudConfig env) = Int 45 /\
  validateConfig (loadCloudConfig env) = Ok tt.
Proof.
  intros env.
  assert (Hn : (45 < 2 ^ 53)%N) by (change (2 ^ 53)%N with 9007199254740992%N; lia).
  destruct (retention_setting_lenient env 1 false 45 " days" eq_refl eq_refl Hn)
    as [Hdays Hvalid].
  split; [exact Hdays|]. apply Hvalid. split; [reflexivity | lia].
Defined.

(** ** Numbering the normal editions of a day *)

Lemma stored_edition_fields e :
  let doc := removeUndefined (edition_to_js e) in
  js_field "date" doc = JString (CloudEdition.date e) /\
  js_field "timestamp" doc = JString (CloudEdition.timestamp e) /\
  js_field "post_type" doc = JString (post_type_name (CloudEdition.post_type e)).
Proof.
  rewrite stored_edition.
  destruct e as [id date ts type [l|] [s|] a sm]; repeat split.
Qed.

Lemma normal_editions_insert date id doc (collection : gmap string JsValue) :
  collection !! id = None ->
  normal_editions date (<[id := doc]> collection)
  = (if matches_date date (id, doc) && is_normal doc then 1 else 0)
    + normal_editions date collection.
Proof.
  intros Hfresh. unfold normal_editions.
  rewrite (filter_length_Permutation _ _ _ (map_to_list_insert _ _ _ Hfresh)).
  simpl. destruct (matches_date date (id, doc) && is_normal doc); reflexivity.
Qed.

Lemma generateEditionId_index_inj date i j :
  generateEditionId date Normal i = generateEditionId date Normal j -> i = j.
Proof.
  unfold generateEditionId. intros H.
  apply append_inj_length in H as [_ H]; [|reflexivity].
  change ("-normal-" +:+ ?x) with (String "-" (String "n" (String "o" (String "r"
            (String "m" (String "a" (String "l" (String "-" x)))))))) in H.
  injection H as H. apply decimal_inj in H. lia.
Qed.

(** X19: under a single writer the normal editions of a day are numbered
    without gaps: if the collection holds [k] normal editions of the date
    and no identifier of a later one is taken, a production of a normal
    edition against the stores returns the identifier with index [k + 1],
    and afterwards the collection holds [k + 1] of them and again no later
    identifier is taken. *)
Theorem produceEdition_numbers_next input w config w0 k :
  getCloudConfig w = (Ok config, w0) ->
  dryRun config = false ->
  can_produce config w ->
  ProducerInput.post_type input = Normal ->
  numbered (ProducerInput.date input) k (docs w) ->
  exists e w',
    produceEdition input w = (Ok e, w') /\
    CloudEdition.edition_id e = generateEditionId (ProducerInput.date input) Normal (k + 1) /\
    numbered (ProducerInput.date input) (k + 1) (docs w').
Proof.
  intros Hcfg Hdry Hcan Htype [Hcount Hfree].
  destruct (produceEdition_returns input _ _ _ Hcfg Hcan)
    as (days & e & w' & _ & Hrun & He & Hw').
  rewrite Hdry, Hcount in He. rewrite Hdry in Hw'.
  assert (Hid : CloudEdition.edition_id e
                = generateEditionId (ProducerInput.date input) Normal (k + 1)).
  { rewrite He. unfold assembled. simpl. rewrite Htype. reflexivity. }
  assert (Hdocs : docs w'
                  = <[CloudEdition.edition_id e := removeUndefined (edition_to_js e)]>
                      (docs w)).
  { rewrite Hw'. apply getCloudConfig_returns in Hcfg as ->. reflexivity. }
  exists e, w'. split; [exact Hrun|]. split; [exact Hid|].
  rewrite Hdocs, Hid. split.
  - rewrite normal_editions_insert by (apply Hfree; lia).
    rewrite Hcount. unfold matches_date, is_normal. cbn [fst snd].
    destruct (stored_edition_fields e) as (Hd & Ht & Hp).
    rewrite Hd, Ht, Hp. simpl.
    assert (Hdate : CloudEdition.date e = ProducerInput.date input)
      by (rewrite He; reflexivity).
    assert (Hpost : CloudEdition.post_type e = Normal)
      by (rewrite He; exact Htype).
    rewrite Hdate, Hpost, String.eqb_refl. simpl. lia.
  - intros i Hi. rewrite lookup_insert_ne.
    + apply Hfree. lia.
    + intros H. apply generateEditionId_index_inj in H. lia.
Qed.

Lemma produceEdition_numbers_next_witness :
  exists e w',
    produceEdition (sample_input Normal) (sample_world live_env frozen_clock sample_docs)
    = (Ok e, w') /\
    CloudEdition.edition_id e = "2025-12-24-normal-2" /\
    numbered "2025-12-24" 2 (docs w').
Proof.
  refine (produceEdition_numbers_next (sample_input Normal)
            (sample_world live_env frozen_clock sample_docs) (loadCloudConfig live_env) _ 1
            _ eq_refl _ eq_refl _).
  - vm_compute. reflexivity.
  - sample_ready 30%Z.
  - split; [vm_compute; reflexivity|]. intros i Hi.
    change (sample_docs !! generateEditionId "2025-12-24" Normal i = None).
    unfold sample_docs. rewrite !lookup_insert_ne; [apply lookup_empty | |].
    + unfold generateEditionId.
      change ("2025-12-24" +:+ ?x) with
        (String "2" (String "0" (String "2" (String "5" (String "-" (String "1"
           (String "2" (String "-" (String "2" (String "4" x)))))))))).
      discriminate.
    + change "2025-12-24-normal-1" with (generateEditionId "2025-12-24" Normal 1).
      intros H. apply generateEditionId_index_inj in H. lia.
Defined.

(** ** Dry runs against runs on the stores *)

Lemma storage_path_index_inj date i j :
  storage_path date Normal (Some i) = storage_path date Normal (Some j) -> i = j.
Proof.
  unfold storage_path, index_text. cbv zeta. intros H.
  repeat (apply append_inj_length in H as [_ H]; [|reflexivity]).
  assert (Hp : parse_digits (decimal (N.of_nat i) +:+ ".png") None
               = parse_digits (decimal (N.of_nat j) +:+ ".png") None)
    by (rewrite H; reflexivity).
  rewrite !parse_digits_of_decimal in Hp by reflexivity. injection Hp as Hp. lia.
Qed.

(** With one normal edition of the day in the store, the dry run and the run
    against the stores, on the same request, store and clock, return
    different identifiers and different paths.  This is the input on which
    the claim C3, as stated, fails. *)
Lemma dry_run_differs_from_live :
  let w := sample_world live_env frozen_clock sample_docs in
  let config := loadCloudConfig live_env in
  exists ed wd el wl,
    produceEdition (sample_input Normal) (in_mode true config w) = (Ok ed, wd) /\
    produceEdition (sample_input Normal) (in_mode false config w) = (Ok el, wl) /\
    CloudEdition.edition_id ed = "2025-12-24-normal-1" /\
    CloudEdition.edition_id el = "2025-12-24-normal-2" /\
    AssetMetadata.image_path (CloudEdition.assets ed) = "2025/12/24/normal-1.png" /\
    AssetMetadata.image_path (CloudEdition.assets el) = "2025/12/24/normal-2.png" /\
    CloudEdition.edition_id ed <> CloudEdition.edition_id el /\
    AssetMetadata.image_path (CloudEdition.assets ed)
    <> AssetMetadata.image_path (CloudEdition.assets el).
Proof.
  intros w config. eexists _, _, _, _.
  split; [vm_compute; reflexivity|]. split; [vm_compute; reflexivity|].
  repeat split; discriminate.
Qed.

(** C3 (amended): a dry run of [produceEdition] sends no request and leaves
    both stores as they were, whatever it returns.  Whenever the run against
    the stores, on the same request, store and clock, returns an edition, the
    dry run returns one too, and for every request its expiration is the
    same.  Its identifier and asset path are the same if the request is an
    essence request or the store holds no normal edition of the date.  For a
    normal request on a date D of which the store holds k normal editions, the
    dry run returns the identifier and path of index 1 (D-normal-1) and the
    run against the stores those of index k+1, and these differ as soon as
    k is at least 1. *)
Theorem dry_run_agrees_with_live input config w :
  (forall r wd,
     produceEdition input (in_mode true config w) = (r, wd) ->
     net wd = net w /\ docs wd = docs w /\ objects wd = objects w) /\
  (forall el wl,
     produceEdition input (in_mode false config w) = (Ok el, wl) ->
     exists ed wd,
       produceEdition input (in_mode true config w) = (Ok ed, wd) /\
       AssetMetadata.expires_at (CloudEdition.assets ed)
       = AssetMetadata.expires_at (CloudEdition.assets el) /\
       (ProducerInput.post_type input = Essence \/
        normal_editions (ProducerInput.date input) (docs w) = 0 ->
        CloudEdition.edition_id ed = CloudEdition.edition_id el /\
        AssetMetadata.image_path (CloudEdition.assets ed)
        = AssetMetadata.image_path (CloudEdition.assets el)) /\
       (ProducerInput.post_type input = Normal ->
        CloudEdition.edition_id ed = ProducerInput.date input +:+ "-normal-1" /\
        CloudEdition.edition_id el
        = ProducerInput.date input +:+ "-normal-"
          +:+ decimal (N.of_nat (normal_editions (ProducerInput.date input) (docs w) + 1)) /\
        AssetMetadata.image_path (CloudEdition.assets ed)
        = storage_path (ProducerInput.date input) Normal (Some 1) /\
        AssetMetadata.image_path (CloudEdition.assets el)
        = storage_path (ProducerInput.date input) Normal
            (Some (normal_editions (ProducerInput.date input) (docs w) + 1)) /\
        (0 < normal_editions (ProducerInput.date input) (docs w) ->
         CloudEdition.edition_id ed <> CloudEdition.edition_id el /\
         AssetMetadata.image_path (CloudEdition.assets ed)
         <> AssetMetadata.image_path (CloudEdition.assets el)))).
Proof.
  split; [intros r wd; apply produceEdition_dry_run_silent|].
  intros el wl Hlive.
  pose proof Hlive as Hinv.
  apply produceEdition_Ok_inv in Hinv as (c & w0 & Hc & Hcan).
  rewrite in_mode_config in Hc. injection Hc as <- <-.
  destruct (produceEdition_returns input _ _ _ (in_mode_config false config w) Hcan)
    as (days & el' & wl' & Hdays & Hrun & -> & _).
  rewrite Hlive in Hrun. injection Hrun as -> _.
  assert (Hfits : clock_fits config w).
  { destruct Hcan as ((d & Hd & Ht0 & Ht1) & _). exists d. auto. }
  destruct (produceEdition_returns input _ _ _ (in_mode_config true config w)
              (can_produce_dry _ _ Hfits))
    as (days' & ed & wd & Hdays' & Hrun & -> & _).
  assert (days' = days) as -> by (simpl in Hdays, Hdays'; congruence).
  eexists _, wd. split; [exact Hrun|].
  unfold assembled. simpl.
  split; [reflexivity|]. split.
  - intros [Htype | Hnone]; [rewrite Htype | rewrite Hnone]; split; reflexivity.
  - intros Htype. rewrite Htype.
    split; [reflexivity|]. split; [reflexivity|]. split; [reflexivity|].
    split; [reflexivity|]. intros Hk. split; intros H.
    + apply generateEditionId_index_inj in H. lia.
    + apply storage_path_index_inj in H. lia.
Qed.

Lemma dry_run_agrees_with_live_witness :
  let input := sample_input Normal in
  let w := sample_world live_env frozen_clock sample_docs in
  let config := loadCloudConfig live_env in
  exists ed wd el wl,
    produceEdition input (in_mode false config w) = (Ok el, wl) /\
    produceEdition input (in_mode true config w) = (Ok ed, wd) /\
    net wd = [] /\ docs wd = sample_docs /\ objects wd = ∅ /\
    AssetMetadata.expires_at (CloudEdition.assets ed)
    = AssetMetadata.expires_at (CloudEdition.assets el) /\
    CloudEdition.edition_id ed = "2025-12-24-normal-1" /\
    CloudEdition.edition_id ed <> CloudEdition.edition_id el.
Proof.
  intros input w config.
  destruct (produceEdition input (in_mode false config w)) as [[el|e] wl] eqn:Hlive;
    [|vm_compute in Hlive; discriminate].
  destruct (proj2 (dry_run_agrees_with_live input config w) el wl Hlive)
    as (ed & wd & Hdry & Hexp & _ & Hnormal).
  destruct (Hnormal eq_refl) as (Hid & _ & _ & _ & Hdiffer).
  destruct (proj1 (dry_run_agrees_with_live input config w) _ _ Hdry)
    as (Hnet & Hdocs & Hobjects).
  assert (Hk : 0 < normal_editions (ProducerInput.date input) (docs w))
    by (vm_compute; lia).
  exists ed, wd, el, wl.
  split; [reflexivity|]. split; [exact Hdry|]. split; [exact Hnet|].
  split; [exact Hdocs|]. split; [exact Hobjects|]. split; [exact Hexp|].
  split; [exact Hid | exact (proj1 (Hdiffer Hk))].
Defined.

Lemma dry_run_agrees_with_live_essence :
  let input := sample_input Essence in
  let w := sample_world live_env frozen_clock sample_docs in
  let config := loadCloudConfig live_env in
  exists ed wd el wl,
    produceEdition input (in_mode false config w) = (Ok el, wl) /\
    produceEdition input (in_mode true config w) = (Ok ed, wd) /\
    CloudEdition.edition_id ed = "2025-12-24-essence" /\
    CloudEdition.edition_id el = "2025-12-24-essence" /\
    AssetMetadata.image_path (CloudEdition.assets ed) = "2025/12/24/essence.png" /\
    AssetMetadata.image_path (CloudEdition.assets el) = "2025/12/24/essence.png" /\
    AssetMetadata.expires_at (CloudEdition.assets ed) = "2026-01-23T00:00:00.000Z" /\
    AssetMetadata.expires_at (CloudEdition.assets el) = "2026-01-23T00:00:00.000Z".
Proof.
  intros input w config. eexists _, _, _, _.
  split; [vm_compute; reflexivity|]. split; [vm_compute; reflexivity|].
  repeat split.
Qed.

(** ** From a production to the website *)

(** X20: the export of an edition that [produceEdition] returned for a request
    with the content of its type shows the date and the type of the request,
    [emojis] exactly for a normal edition and an [essence] exactly for an
    essence edition, and as [image_url] the public address of the uploaded
    path under the configured bucket. *)
Theorem export_of_produced input w config w0 :
  getCloudConfig w = (Ok config, w0) ->
  can_produce config w ->
  match ProducerInput.post_type input with
  | Normal => is_Some (ProducerInput.emojis input)
  | Essence => is_Some (ProducerInput.essence input)
  end ->
  exists e w' x,
    produceEdition input w = (Ok e, w') /\
    exportEditionsForWebsite [e] = [x] /\
    EditionExport.date x = ProducerInput.date input /\
    EditionExport.post_type x = ProducerInput.post_type input /\
    (is_Some (EditionExport.emojis x) <-> ProducerInput.post_type input = Normal) /\
    (is_Some (EditionExport.essence x) <-> ProducerInput.post_type input = Essence) /\
    EditionExport.image_url x
    = "https://storage.googleapis.com/" +:+ storageBucket config +:+ "/"
      +:+ AssetMetadata.image_path (CloudEdition.assets e).
Proof.
  intros Hcfg Hcan Hcontent.
  destruct (produceEdition_returns input _ _ _ Hcfg Hcan)
    as (days & e & w' & _ & Hrun & He & _).
  eexists e, w', _. split; [exact Hrun|]. split; [reflexivity|].
  rewrite He. unfold assembled. simpl.
  split; [reflexivity|]. split; [reflexivity|].
  destruct (ProducerInput.post_type input); simpl.
  - split; [split; auto|]. split; [|reflexivity].
    split; [intros [x H]; discriminate | discriminate].
  - split; [split; [intros [x H]; discriminate | discriminate]|].
    split; [|reflexivity]. split; [reflexivity|]. intros _.
    destruct Hcontent as [s ->]. eauto.
Qed.

Lemma export_of_produced_witness :
  exists e w' x,
    produceEdition (sample_input Essence)
      (sample_world live_env frozen_clock sample_docs) = (Ok e, w') /\
    exportEditionsForWebsite [e] = [x] /\
    EditionExport.emojis x = None /\
    EditionExport.essence x
    = Some {| EssenceExport.emotion_label := "hope"; EssenceExport.emoji := "+";
              EssenceExport.rationale := "A calm day." |} /\
    EditionExport.image_url x
    = "https://storage.googleapis.com/today-in-emojis-assets/2025/12/24/essence.png".
Proof.
  destruct (export_of_produced (sample_input Essence)
              (sample_world live_env frozen_clock sample_docs)
              (loadCloudConfig live_env) _ sample_live_config)
    as (e & w' & x & Hrun & Hx & _ & _ & _ & _ & _).
  - sample_ready 30%Z.
  - simpl. eauto.
  - exists e, w', x. split; [exact Hrun|]. split; [exact Hx|].
    assert (He : e = fst (match produceEdition (sample_input Essence)
                                  (sample_world live_env frozen_clock sample_docs) with
                          | (Ok e0, _) => (e0, tt)
                          | (Throw _, _) => (e, tt)
                          end)) by (rewrite Hrun; reflexivity).
    injection Hx as <-. rewrite He. vm_compute. repeat split.
Defined.

(** ** The command line *)

(** X21: in health-check mode the process exits with 0 exactly when the run is
    dry or the storage answers, the bucket exists and the document store
    answers, and with 1 otherwise; further arguments and the files play no
    part. *)
Theorem main_health_check_exit request_of files rest w config w0 :
  getCloudConfig w = (Ok config, w0) ->
  (fst (main request_of files ("--health-check" :: rest) w) = 0 <->
   dryRun config = true \/
   (storage_up w = true /\ bucket_exists w = true /\ firestore_up w = true)) /\
  (fst (main request_of files ("--health-check" :: rest) w) = 0 \/
   fst (main request_of files ("--health-check" :: rest) w) = 1).
Proof.
  intros Hcfg. unfold main. simpl.
  destruct (dryRun config) eqn:Hdry.
  - rewrite (healthCheck_dry_run_run _ _ _ Hcfg Hdry). simpl.
    split; [split; auto | auto].
  - rewrite (healthCheck_live_run _ _ _ Hcfg Hdry). simpl.
    destruct (storage_up w), (bucket_exists w), (firestore_up w); simpl;
      (split; [|auto]); split; auto; try discriminate;
      intros [H|(H1 & H2 & H3)]; discriminate.
Qed.

Lemma main_health_check_exit_witness :
  fst (main (fun _ => None) ∅ ["--health-check"]
         (sample_world live_env frozen_clock sample_docs)) = 0 /\
  fst (main (fun _ => None) ∅ ["--health-check"] (offline_world live_env frozen_clock)) <> 0 /\
  fst (main (fun _ => None) ∅ ["--health-check"] (offline_world dry_env frozen_clock)) = 0.
Proof.
  split; [|split].
  - apply (proj1 (main_health_check_exit (fun _ => None) ∅ []
                    (sample_world live_env frozen_clock sample_docs)
                    (loadCloudConfig live_env) _ sample_live_config)).
    right. repeat split.
  - intros H.
    apply (proj1 (main_health_check_exit (fun _ => None) ∅ []
                    (offline_world live_env frozen_clock) (loadCloudConfig live_env)
                    (set_configInstance (Some (loadCloudConfig live_env))
                       (offline_world live_env frozen_clock)) eq_refl)) in H.
    destruct H as [H|(H & _)]; discriminate.
  - apply (proj1 (main_health_check_exit (fun _ => None) ∅ []
                    (offline_world dry_env frozen_clock) (loadCloudConfig dry_env)
                    (set_configInstance (Some (loadCloudConfig dry_env))
                       (offline_world dry_env frozen_clock)) eq_refl)).
    left. reflexivity.
Defined.

(** X22: in production mode the process exits with 0 exactly when the file
    named by the first argument exists, its content gives a request, and the
    production of this request can go ahead; it exits with 1 otherwise, and
    when the file is missing or gives no request, nothing has been read from
    the configuration, sent or changed. *)
Theorem main_production_exit request_of files path rest w config w0 :
  path <> "--health-check" ->
  getCloudConfig w = (Ok config, w0) ->
  (fst (main request_of files (path :: rest) w) = 0 <->
   exists text input,
     files !! path = Some text /\ request_of text = Some input /\ can_produce config w) /\
  (fst (main request_of files (path :: rest) w) = 0 \/
   fst (main request_of files (path :: rest) w) = 1) /\
  (files !! path = None \/
   (exists text, files !! path = Some text /\ request_of text = None) ->
   main request_of files (path :: rest) w = (1, w)).
Proof.
  intros Hpath Hcfg. unfold main.
  apply String.eqb_neq in Hpath. rewrite Hpath.
  destruct (files !! path) as [text|] eqn:Hfile.
  2:{ split; [|split; auto].
      split; [discriminate | intros (t & i & H & _); discriminate]. }
  destruct (request_of text) as [input|] eqn:Hreq.
  2:{ split; [|split; auto].
      split; [discriminate|]. intros (t & i & [= <-] & H & _). congruence. }
  destruct (produceEdition input w) as [[e|err] w'] eqn:Hrun; simpl.
  - split; [|split; [auto|]].
    + split; [|reflexivity]. intros _. exists text, input.
      split; [reflexivity|]. split; [exact Hreq|].
      apply (produceEdition_returns_iff input _ _ _ Hcfg). eauto.
    + intros [H|(t & [= <-] & H)]; congruence.
  - split; [|split; [auto|]].
    + split; [discriminate|]. intros (t & i & [= <-] & Hi & Hcan).
      rewrite Hreq in Hi. injection Hi as <-.
      apply (produceEdition_returns_iff input _ _ _ Hcfg) in Hcan as (e & w1 & H).
      rewrite Hrun in H. discriminate.
    + intros [H|(t & [= <-] & H)]; congruence.
Qed.

Lemma main_production_exit_witness :
  let files : gmap string string := {[ "request.json" := "{}" ]} in
  let w := sample_world live_env frozen_clock sample_docs in
  fst (main (fun _ => Some (sample_input Normal)) files ["request.json"] w) = 0 /\
  main (fun _ => Some (sample_input Normal)) files ["missing.json"] w = (1, w).
Proof.
  intros files w. split.
  - apply (proj2 (proj1 (main_production_exit (fun _ => Some (sample_input Normal)) files
                           "request.json" [] w (loadCloudConfig live_env) _
                           ltac:(discriminate) sample_live_config))).
    exists "{}", (sample_input Normal). split; [reflexivity|]. split; [reflexivity|].
    sample_ready 30%Z.
  - apply (proj2 (proj2 (main_production_exit (fun _ => Some (sample_input Normal)) files
                           "missing.json" [] w (loadCloudConfig live_env) _
                           ltac:(discriminate) sample_live_config))).
    left. reflexivity.
Defined.

(** ** The adapters on their own *)

(** X23: for the upload alone the dry run is faithful: whenever [uploadImage]
    returns against the storage, the dry run on the same arguments, world
    and clock returns the same address, path and expiry, and only reads the
    clock. *)
Theorem uploadImage_dry_run_agrees buf date type index config w r wl :
  uploadImage buf date type index (in_mode false config w) = (Ok r, wl) ->
  uploadImage buf date type index (in_mode true config w)
  = (Ok r, tick (in_mode true config w)).
Proof.
  intros Hlive.
  apply (uploadImage_Ok_inv _ _ _ _ _ (with_dryRun false config)) in Hlive;
    [|reflexivity].
  destruct Hlive as (days & Hdays & Ht & -> & _).
  rewrite (uploadImage_dry_run buf date type index (in_mode true config w)
             (with_dryRun true config) days eq_refl eq_refl Hdays Ht).
  reflexivity.
Qed.

Lemma uploadImage_dry_run_agrees_witness :
  let w := sample_world live_env frozen_clock ∅ in
  let config := loadCloudConfig live_env in
  let buf := ProducerInput.image_buffer (sample_input Normal) in
  exists r,
    fst (uploadImage buf "2025-12-24" Normal (Some 3) (in_mode false config w)) = Ok r /\
    fst (uploadImage buf "2025-12-24" Normal (Some 3) (in_mode true config w)) = Ok r /\
    UploadResult.path r = "2025/12/24/normal-3.png".
Proof.
  intros w config buf.
  destruct (uploadImage buf "2025-12-24" Normal (Some 3) (in_mode false config w))
    as [[r|err] wl] eqn:Hlive; [|vm_compute in Hlive; discriminate].
  exists r. split; [reflexivity|].
  rewrite (uploadImage_dry_run_agrees _ _ _ _ _ _ _ _ Hlive).
  split; [reflexivity|].
  vm_compute in Hlive. injection Hlive as <- _. reflexivity.
Defined.

(** X24: [writeEdition] is an unconditional write under the identifier: after
    two writes under the same identifier the collection is what the second
    write alone would have left, so the first edition is lost without an
    error, and writing the same edition again changes nothing. *)
Theorem writeEdition_last_write_wins e1 e2 w config u1 w1 u2 w2 :
  configInstance w = Some config -> dryRun config = false ->
  CloudEdition.edition_id e1 = CloudEdition.edition_id e2 ->
  writeEdition e1 w = (Ok u1, w1) ->
  writeEdition e2 w1 = (Ok u2, w2) ->
  exists w2',
    writeEdition e2 w = (Ok tt, w2') /\ docs w2 = docs w2' /\
    docs w2 !! CloudEdition.edition_id e1 = Some (removeUndefined (edition_to_js e2)).
Proof.
  intros Hc Hdry Hid H1 H2.
  destruct (writeEdition_Ok_live _ _ _ _ _ Hc Hdry H1) as [Hfu ->].
  assert (Hc1 : configInstance (after_write config e1 w) = Some config) by exact Hc.
  destruct (writeEdition_Ok_live _ _ _ _ _ Hc1 Hdry H2) as [_ ->].
  exists (after_write config e2 w). split; [apply (writeEdition_live _ _ _ Hc Hdry Hfu)|].
  unfold after_write. simpl. rewrite Hid. split.
  - apply insert_insert_eq.
  - apply lookup_insert_eq.
Qed.

Lemma writeEdition_last_write_wins_witness :
  let w := in_mode false (loadCloudConfig live_env) (sample_world live_env frozen_clock ∅) in
  let e1 := assembled (sample_input Essence) (loadCloudConfig live_env) 0
              "2025-12-24T09:00:00.000Z" "2026-01-23T09:00:00.000Z" in
  let e2 := assembled (sample_input Essence) (loadCloudConfig live_env) 0
              "2025-12-24T23:00:00.000Z" "2026-01-23T23:00:00.000Z" in
  exists w1 w2,
    writeEdition e1 w = (Ok tt, w1) /\ writeEdition e2 w1 = (Ok tt, w2) /\
    js_field "timestamp" <$> (docs w2 !! "2025-12-24-essence")
    = Some (JString "2025-12-24T23:00:00.000Z").
Proof.
  intros w e1 e2.
  destruct (writeEdition e1 w) as [[[]|err] w1] eqn:H1; [|vm_compute in H1; discriminate].
  destruct (writeEdition e2 w1) as [[[]|err] w2] eqn:H2.
  2:{ exfalso. assert (Hw1 : w1 = snd (writeEdition e1 w)) by (rewrite H1; reflexivity).
      rewrite Hw1 in H2. vm_compute in H2. discriminate. }
  destruct (writeEdition_last_write_wins e1 e2 w
              (with_dryRun false (loadCloudConfig live_env)) tt w1 tt w2
              eq_refl eq_refl eq_refl H1 H2) as (w2' & _ & _ & Hdoc).
  exists w1, w2. split; [reflexivity|]. split; [exact H2|].
  change (CloudEdition.edition_id e1) with "2025-12-24-essence" in Hdoc.
  rewrite Hdoc. reflexivity.
Defined.

(** X25: for a date of the form YYYY-MM-DD, the identifier and the asset path
    of a produced edition go together: a normal edition that is named
    "D-normal-n" has its image at "YYYY/MM/DD/normal-n.png" with the same
    [n], and an essence edition named "D-essence" has it at
    "YYYY/MM/DD/essence.png". *)
Theorem produceEdition_id_and_path input y m d w config w0 :
  ProducerInput.date input = y +:+ "-" +:+ m +:+ "-" +:+ d ->
  is_date y m d = true ->
  getCloudConfig w = (Ok config, w0) ->
  can_produce config w ->
  exists e w' n,
    produceEdition input w = (Ok e, w') /\
    match ProducerInput.post_type input with
    | Normal =>
        CloudEdition.edition_id e
        = y +:+ "-" +:+ m +:+ "-" +:+ d +:+ "-normal-" +:+ decimal (N.of_nat n) /\
        AssetMetadata.image_path (CloudEdition.assets e)
        = y +:+ "/" +:+ m +:+ "/" +:+ d +:+ "/normal-" +:+ decimal (N.of_nat n) +:+ ".png"
    | Essence =>
        CloudEdition.edition_id e = y +:+ "-" +:+ m +:+ "-" +:+ d +:+ "-essence" /\
        AssetMetadata.image_path (CloudEdition.assets e)
        = y +:+ "/" +:+ m +:+ "/" +:+ d +:+ "/essence.png"
    end.
Proof.
  intros Hdate Hform Hcfg Hcan.
  destruct (produceEdition_returns input _ _ _ Hcfg Hcan)
    as (days & e & w' & _ & Hrun & He & _).
  set (k := if dryRun config then 0
            else normal_editions (ProducerInput.date input) (docs w)) in He.
  exists e, w', (k + 1). split; [exact Hrun|].
  rewrite He. unfold assembled. simpl. rewrite Hdate.
  rewrite (storage_path_of_date _ _ _ _ _ Hform).
  unfold generateEditionId.
  assert (Hassoc : forall a b c : string, (a +:+ b) +:+ c = a +:+ (b +:+ c)).
  { intros a b c. induction a as [|ch a IH]; [reflexivity|].
    change (String ch ((a +:+ b) +:+ c) = String ch (a +:+ b +:+ c)). congruence. }
  destruct (ProducerInput.post_type input); simpl; split;
    rewrite ?Hassoc; simpl; rewrite ?Hassoc; reflexivity.
Qed.

Lemma produceEdition_id_and_path_witness :
  exists e w',
    produceEdition (sample_input Normal) (sample_world live_env frozen_clock sample_docs)
    = (Ok e, w') /\
    CloudEdition.edition_id e = "2025-12-24-normal-2" /\
    AssetMetadata.image_path (CloudEdition.assets e) = "2025/12/24/normal-2.png".
Proof.
  destruct (produceEdition_id_and_path (sample_input Normal) "2025" "12" "24"
              (sample_world live_env frozen_clock sample_docs) (loadCloudConfig live_env) _
              eq_refl eq_refl sample_live_config) as (e & w' & n & Hrun & Hid & Hpath).
  - sample_ready 30%Z.
  - exists e, w'. split; [exact Hrun|].
    assert (Hn : n = 2).
    { assert (He : CloudEdition.edition_id e = "2025-12-24-normal-2").
      { assert (H : e = fst (match produceEdition (sample_input Normal)
                                     (sample_world live_env frozen_clock sample_docs) with
                             | (Ok e0, _) => (e0, tt)
                             | (Throw _, _) => (e, tt)
                             end)) by (rewrite Hrun; reflexivity).
        rewrite H. vm_compute. reflexivity. }
      simpl in Hid. rewrite He in Hid.
      change "2025-12-24-normal-2" with (generateEditionId "2025-12-24" Normal 2) in Hid.
      change ("2025" +:+ "-" +:+ "12" +:+ "-" +:+ "24" +:+ "-normal-" +:+ decimal (N.of_nat n))
        with (generateEditionId "2025-12-24" Normal n) in Hid.
      symmetry. exact (generateEditionId_index_inj _ _ _ Hid). }
    subst n. simpl in Hid, Hpath. split; [exact Hid | exact Hpath].
Defined.
